(** * Entitlement and verification-token engine of the movie bot

    A shallow embedding of the credit, verification-token, access-grant and
    referral logic of [src/bot/index.ts] over the tables of
    [src/bot/schema.ts], and the properties of the specification that were
    checked against it.

    Conventions of the embedding.
    - An instant is the value of [Date.getTime()]: milliseconds, in [Z].
      Each handler invocation reads the clock once ([now]); the source's
      repeated [new Date()] within one invocation are identified.
    - The source compares durations after a floating-point division by
      [1000 * 60 * 60].  For integer millisecond counts that division is
      correctly rounded and monotone, so [ms / 3600000 > 1] holds exactly
      when [ms > 3600000], and likewise for [>= 12] and [< 12]; the
      comparisons are written on the millisecond counts.
    - Row identifiers are the strings produced by [gen_random_uuid()]; the
      fresh value is an argument of the operation that inserts the row.
      The [id] and [createdAt] columns that no modelled handler reads are
      left out of the row records.
    - A Telegram user id is carried as its decimal rendering
      ([ctx.from.id.toString()]), which is how [users.username] stores it.
    - [credits] is a PostgreSQL [integer].  The two writes that add to a
      balance ([earnCredits], the referral award) fail, as the database
      does, when the sum exceeds [INT4_MAX]; the other writes store 0 or
      a smaller value than the one read.
    - The remaining time of an access grant is computed, as in the source,
      in IEEE 754 double precision (the kernel's primitive floats); the
      difference of two instants is taken to be within the range of
      [toNumber], which contains every difference of two valid [Date]s.
    - Text columns that only ever hold a fixed set of tags ([role],
      [status]) are inductive types.
    - Calls that leave the process (link shortener, chat-member query,
      message sending) are arguments giving their result, or are part of
      the reply value.
    - The statements about a single handler are about the handler
      itself; sequences of updates ([run]) pass through the middleware
      (ban check, force-subscribe gate) first.
    - The administration commands are handlers of their own, outside
      [run]; what they take from libraries ([parseInt], [Date.setDate],
      the Fuse search) is a variable of their section.
    - The text that the escaping functions work on is a string of bytes,
      its UTF-8 encoding: the characters they replace are ASCII, and no
      byte of a longer UTF-8 sequence is an ASCII byte. *)

From Stdlib Require Import ZArith List String Ascii Bool Lia DecimalString.
From Stdlib Require Uint63 PrimFloat FloatOps SpecFloat.
Import ListNotations.

Local Open Scope string_scope.
Local Open Scope list_scope.
Local Open Scope Z_scope.

(** ** Data model ([schema.ts]) *)

Definition Id := string.
Definition Instant := Z.

Inductive Role := RoleUser | RoleAdmin.
Inductive UserStatus := Active | Banned.
Inductive MovieStatus := Draft | Published.
Inductive TokenStatus := Pending | Verified | Expired | Used.

Definition Role_eqb (a b : Role) : bool :=
  match a, b with
  | RoleUser, RoleUser | RoleAdmin, RoleAdmin => true
  | _, _ => false
  end.

Definition UserStatus_eqb (a b : UserStatus) : bool :=
  match a, b with
  | Active, Active | Banned, Banned => true
  | _, _ => false
  end.

Definition MovieStatus_eqb (a b : MovieStatus) : bool :=
  match a, b with
  | Draft, Draft | Published, Published => true
  | _, _ => false
  end.

Module Users.
Record row := mk {
  id : Id;
  username : string;
  displayName : string;
  role : Role;
  status : UserStatus;
  credits : Z;
  lastCreditReset : option Instant;
  isPremium : bool;
  premiumExpiresAt : option Instant
}.
Definition set_displayName (n : string) (u : row) : row :=
  mk (id u) (username u) n (role u) (status u) (credits u)
     (lastCreditReset u) (isPremium u) (premiumExpiresAt u).
Definition set_credits (c : Z) (u : row) : row :=
  mk (id u) (username u) (displayName u) (role u) (status u) c
     (lastCreditReset u) (isPremium u) (premiumExpiresAt u).
Definition set_lastCreditReset (t : option Instant) (u : row) : row :=
  mk (id u) (username u) (displayName u) (role u) (status u) (credits u)
     t (isPremium u) (premiumExpiresAt u).
Definition set_isPremium (b : bool) (u : row) : row :=
  mk (id u) (username u) (displayName u) (role u) (status u) (credits u)
     (lastCreditReset u) b (premiumExpiresAt u).
End Users.

Module Movies.
Record row := mk {
  id : Id;
  displayTitle : string;
  links : list string;
  status : MovieStatus
}.
End Movies.

Module MovieAssets.
Record row := mk {
  movieId : Id;
  assetType : string
}.
End MovieAssets.

Module MovieAccess.
Record row := mk {
  userId : Id;
  movieId : Id;
  unlockedAt : Instant
}.
Definition set_unlockedAt (t : Instant) (a : row) : row :=
  mk (userId a) (movieId a) t.
End MovieAccess.

Module MovieVerifications.
Record row := mk {
  userId : Id;
  movieId : Id;
  token : string;
  status : TokenStatus;
  createdAt : Instant
}.
Definition set_status (s : TokenStatus) (v : row) : row :=
  mk (userId v) (movieId v) (token v) s (createdAt v).
End MovieVerifications.

Module CreditVerifications.
Record row := mk {
  userId : Id;
  token : string;
  status : TokenStatus;
  creditsAmount : Z;
  createdAt : Instant
}.
Definition set_status (s : TokenStatus) (v : row) : row :=
  mk (userId v) (token v) s (creditsAmount v) (createdAt v).
End CreditVerifications.

Module CreditTransactions.
Record row := mk {
  userId : Id;
  amount : Z;
  reason : string
}.
End CreditTransactions.

Module Referrals.
Record row := mk {
  referrerId : Id;
  referredId : Id;
  creditsAwarded : Z
}.
End Referrals.

(** The database: one list per table, in insertion order. *)
Record DB := mkDB {
  users : list Users.row;
  movies : list Movies.row;
  movieAssets : list MovieAssets.row;
  movieAccess : list MovieAccess.row;
  movieVerifications : list MovieVerifications.row;
  creditVerifications : list CreditVerifications.row;
  creditTransactions : list CreditTransactions.row;
  referrals : list Referrals.row
}.

Definition with_users (f : list Users.row -> list Users.row) (db : DB) : DB :=
  mkDB (f (users db)) (movies db) (movieAssets db) (movieAccess db)
       (movieVerifications db) (creditVerifications db)
       (creditTransactions db) (referrals db).
Definition with_movieAccess
  (f : list MovieAccess.row -> list MovieAccess.row) (db : DB) : DB :=
  mkDB (users db) (movies db) (movieAssets db) (f (movieAccess db))
       (movieVerifications db) (creditVerifications db)
       (creditTransactions db) (referrals db).
Definition with_movieVerifications
  (f : list MovieVerifications.row -> list MovieVerifications.row)
  (db : DB) : DB :=
  mkDB (users db) (movies db) (movieAssets db) (movieAccess db)
       (f (movieVerifications db)) (creditVerifications db)
       (creditTransactions db) (referrals db).
Definition with_creditVerifications
  (f : list CreditVerifications.row -> list CreditVerifications.row)
  (db : DB) : DB :=
  mkDB (users db) (movies db) (movieAssets db) (movieAccess db)
       (movieVerifications db) (f (creditVerifications db))
       (creditTransactions db) (referrals db).
Definition with_creditTransactions
  (f : list CreditTransactions.row -> list CreditTransactions.row)
  (db : DB) : DB :=
  mkDB (users db) (movies db) (movieAssets db) (movieAccess db)
       (movieVerifications db) (creditVerifications db)
       (f (creditTransactions db)) (referrals db).
Definition with_referrals
  (f : list Referrals.row -> list Referrals.row) (db : DB) : DB :=
  mkDB (users db) (movies db) (movieAssets db) (movieAccess db)
       (movieVerifications db) (creditVerifications db)
       (creditTransactions db) (f (referrals db)).

(** ** Handler monad: database state, and exceptions that keep the state

    The source runs no transaction: what a handler wrote before a query
    threw stays written. *)

Inductive Res (A : Type) : Type :=
| Ok (a : A)
| Throw.
Arguments Ok {A} a.
Arguments Throw {A}.

Definition M (A : Type) : Type := DB -> Res A * DB.

Definition ret {A} (a : A) : M A := fun db => (Ok a, db).
Definition bind {A B} (m : M A) (k : A -> M B) : M B :=
  fun db =>
    match m db with
    | (Ok a, db') => k a db'
    | (Throw, db') => (Throw, db')
    end.
Definition throw {A} : M A := fun db => (Throw, db).
Definition gets {A} (f : DB -> A) : M A := fun db => (Ok (f db), db).
Definition modify (f : DB -> DB) : M unit := fun db => (Ok tt, f db).
(** [try { m } catch (e) { h }] *)
Definition try_catch {A} (m : M A) (h : M A) : M A :=
  fun db =>
    match m db with
    | (Ok a, db') => (Ok a, db')
    | (Throw, db') => h db'
    end.
Definition guard (b : bool) : M unit := if b then ret tt else throw.

Notation "x <- c1 ;; c2" := (bind c1 (fun x => c2))
  (at level 61, c1 at next level, right associativity).
Notation "' pat <- c1 ;; c2" :=
  (bind c1 (fun x => match x with pat => c2 end))
  (at level 61, pat pattern, c1 at next level, right associativity).
Notation "c1 ;; c2" := (bind c1 (fun _ => c2))
  (at level 61, right associativity).

Definition exec {A} (m : M A) (db : DB) : DB := snd (m db).
Definition result {A} (m : M A) (db : DB) : Res A := fst (m db).

(** ** Queries (drizzle calls on the tables) *)

Definition userById (uid : Id) (u : Users.row) : bool := (Users.id u =? uid)%string.
Definition userByUsername (n : string) (u : Users.row) : bool :=
  (Users.username u =? n)%string.
Definition accessOf (uid mid : Id) (a : MovieAccess.row) : bool :=
  ((MovieAccess.userId a =? uid) && (MovieAccess.movieId a =? mid))%string.

Definition select {R} (table : DB -> list R) (where_ : R -> bool) : M (list R) :=
  gets (fun db => filter where_ (table db)).

Definition update_where {R} (where_ : R -> bool) (set : R -> R) (l : list R) : list R :=
  map (fun r => if where_ r then set r else r) l.

Definition hasUser (uid : Id) (db : DB) : bool := existsb (userById uid) (users db).
Definition hasMovie (mid : Id) (db : DB) : bool :=
  existsb (fun m => (Movies.id m =? mid)%string) (movies db).

(** [db.insert(users)]: primary key and [username] are unique. *)
Definition insert_users (u : Users.row) : M Users.row :=
  ok <- gets (fun db => negb (existsb (userById (Users.id u)) (users db))
                     && negb (existsb (userByUsername (Users.username u)) (users db)));;
  guard ok;;
  modify (with_users (fun l => l ++ [u]));;
  ret u.

(** [db.insert(creditTransactions)]: [userId] references [users.id]. *)
Definition insert_creditTransactions (t : CreditTransactions.row) : M unit :=
  ok <- gets (hasUser (CreditTransactions.userId t));;
  guard ok;;
  modify (with_creditTransactions (fun l => l ++ [t])).

(** [db.insert(movieAccess)]: both columns are foreign keys. *)
Definition insert_movieAccess (a : MovieAccess.row) : M unit :=
  ok <- gets (fun db => hasUser (MovieAccess.userId a) db
                     && hasMovie (MovieAccess.movieId a) db);;
  guard ok;;
  modify (with_movieAccess (fun l => l ++ [a])).

(** [db.insert(movieVerifications)]: [token] is unique. *)
Definition insert_movieVerifications (v : MovieVerifications.row) : M unit :=
  ok <- gets (fun db => hasUser (MovieVerifications.userId v) db
                     && hasMovie (MovieVerifications.movieId v) db
                     && negb (existsb (fun r => (MovieVerifications.token r
                                               =? MovieVerifications.token v)%string)
                                      (movieVerifications db)));;
  guard ok;;
  modify (with_movieVerifications (fun l => l ++ [v])).

(** [db.insert(creditVerifications)]: [token] is unique. *)
Definition insert_creditVerifications (v : CreditVerifications.row) : M unit :=
  ok <- gets (fun db => hasUser (CreditVerifications.userId v) db
                     && negb (existsb (fun r => (CreditVerifications.token r
                                               =? CreditVerifications.token v)%string)
                                      (creditVerifications db)));;
  guard ok;;
  modify (with_creditVerifications (fun l => l ++ [v])).

(** [db.insert(referrals)]: [referredId] is unique. *)
Definition insert_referrals (r : Referrals.row) : M unit :=
  ok <- gets (fun db => hasUser (Referrals.referrerId r) db
                     && hasUser (Referrals.referredId r) db
                     && negb (existsb (fun x => (Referrals.referredId x
                                               =? Referrals.referredId r)%string)
                                      (referrals db)));;
  guard ok;;
  modify (with_referrals (fun l => l ++ [r])).

(** ** Time windows *)

Definition HOUR_MS : Z := 1000 * 60 * 60.
Definition ACCESS_VALIDITY_HOURS : Z := 12.

Record AccessValidity := mkValidity {
  valid : bool;
  hoursRemaining : Z;
  minutesRemaining : Z
}.

(** *** Numbers of the source

    The remaining time of a grant is computed on JavaScript numbers, which
    are IEEE 754 doubles. *)

(** The number that holds the integer [z], rounded to the nearest double
    when [z] needs more than 53 bits; for [|z| < 2^63]. *)
Definition toNumber (z : Z) : PrimFloat.float :=
  if z <? 0 then PrimFloat.opp (PrimFloat.of_uint63 (Uint63.of_Z (- z)))
  else PrimFloat.of_uint63 (Uint63.of_Z z).

(** A finite number as the pair [(m, e)] of its value [m * 2^e]. *)
Definition decode (x : PrimFloat.float) : Z * Z :=
  match FloatOps.Prim2SF x with
  | SpecFloat.S754_finite s m e => (if s then Zneg m else Zpos m, e)
  | _ => (0, 0)
  end.

(** [Math.floor(x)] of a finite number, as an integer. *)
Definition mathFloor (x : PrimFloat.float) : Z :=
  let '(m, e) := decode x in
  if 0 <=? e then m * 2 ^ e else m / 2 ^ (- e).

(** [Math.floor(x % y)] of finite numbers, [y] not zero.  The remainder of
    two doubles is a double, so [%] does not round; it is taken on the
    common scale [2^e0] of the two numbers. *)
Definition floorOfRemainder (x y : PrimFloat.float) : Z :=
  let '(mx, ex) := decode x in
  let '(my, ey) := decode y in
  let e0 := Z.min ex ey in
  let r := Z.rem (mx * 2 ^ (ex - e0)) (my * 2 ^ (ey - e0)) in
  if 0 <=? e0 then r * 2 ^ e0 else r / 2 ^ (- e0).

(** [Math.max(0, x)] *)
Definition mathMax0 (x : PrimFloat.float) : PrimFloat.float :=
  if PrimFloat.ltb x PrimFloat.zero then PrimFloat.zero else x.

(** [isAccessValid] (lines 164-171).  [valid] is the test
    [hoursSinceUnlock < 12], written on the millisecond count; the
    remaining hours and minutes are the source's floating-point
    computation. *)
Definition isAccessValid (now unlockedAt : Instant) : AccessValidity :=
  let msSinceUnlock := now - unlockedAt in
  let hoursSinceUnlock :=
    PrimFloat.div (toNumber msSinceUnlock) (toNumber (1000 * 60 * 60)) in
  let totalMinutesRemaining :=
    mathMax0 (PrimFloat.mul
                (PrimFloat.sub (toNumber ACCESS_VALIDITY_HOURS) hoursSinceUnlock)
                (toNumber 60)) in
  mkValidity (msSinceUnlock <? ACCESS_VALIDITY_HOURS * HOUR_MS)
             (mathFloor (PrimFloat.div totalMinutesRemaining (toNumber 60)))
             (floorOfRemainder totalMinutesRemaining (toNumber 60)).

(** ** Credits (lines 284-331) *)

Record CanEarn := mkCanEarn {
  canEarn : bool;
  ce_hoursRemaining : option Z;
  ce_minutesRemaining : option Z
}.

Definition canEarnCredits (userId : Id) (now : Instant) : M CanEarn :=
  user <- select users (userById userId);;
  match user with
  | [] => ret (mkCanEarn false None None)
  | u :: _ =>
    let msSinceReset :=
      match Users.lastCreditReset u with
      | Some lastReset => now - lastReset
      | None => 13 * 60 * 60 * 1000
      end in
    if 12 * HOUR_MS <=? msSinceReset then
      modify (with_users (update_where (userById userId)
                (fun r => Users.set_lastCreditReset (Some now) (Users.set_credits 0 r))));;
      ret (mkCanEarn true None None)
    else if 2 <=? Users.credits u then
      let remainingMs := 12 * 60 * 60 * 1000 - msSinceReset in
      ret (mkCanEarn false
             (Some (remainingMs / (1000 * 60 * 60)))
             (Some (Z.rem remainingMs (1000 * 60 * 60) / (1000 * 60))))
    else ret (mkCanEarn true None None)
  end.

(** The largest value of a PostgreSQL [integer] column; a statement that
    would store more fails with "integer out of range". *)
Definition INT4_MAX : Z := 2147483647.

(** [earnCredits].  The log row is inserted first; the [UPDATE] that
    follows is rejected when the new balance does not fit the column, and
    the inserted row stays. *)
Definition earnCredits (userId : Id) (now : Instant) : M Z :=
  user <- select users (userById userId);;
  let newCredits := match user with u :: _ => Users.credits u | [] => 0 end + 2 in
  insert_creditTransactions (CreditTransactions.mk userId 2 "shortener_visit");;
  guard (newCredits <=? INT4_MAX);;
  modify (with_users (update_where (userById userId)
            (fun r => Users.set_lastCreditReset
                        (match user with
                         | u :: _ => match Users.lastCreditReset u with
                                     | Some t => Some t
                                     | None => Some now
                                     end
                         | [] => Some now
                         end)
                        (Users.set_credits newCredits r))));;
  ret newCredits.

Record SpendResult := mkSpend { success : bool; sr_credits : Z }.

Definition spendCredit (userId : Id) : M SpendResult :=
  user <- select users (userById userId);;
  match user with
  | [] => ret (mkSpend false 0)
  | u :: _ =>
    if Users.credits u <? 1 then ret (mkSpend false (Users.credits u))
    else
      insert_creditTransactions (CreditTransactions.mk userId (-1) "link_access");;
      let newCredits := Users.credits u - 1 in
      modify (with_users (update_where (userById userId) (Users.set_credits newCredits)));;
      ret (mkSpend true newCredits)
  end.

(** ** Accounts (lines 178-201, 1122-1129) *)

Definition startsWith (p s : string) : bool := String.prefix p s.
(** [s.replace(p, empty)] for a string [s] that starts with [p], [n] the
    length of [p]. *)
Definition dropPrefix (n : nat) (s : string) : string :=
  String.substring n (String.length s - n) s.

Definition fileTypes : list string :=
  ["document"; "video"; "photo"; "audio"; "animation"; "voice"; "sticker"].
Definition includes (l : list string) (s : string) : bool :=
  existsb (String.eqb s) l.

Section Bot.

(** [ADMIN_IDS], read from the environment at start-up. *)
Variable ADMIN_IDS : list string.

Definition getOrCreateUser (telegramId displayName : string) (freshId : Id)
  : M (Users.row * bool) :=
  existing <- select users (userByUsername telegramId);;
  match existing with
  | e :: _ =>
    if negb (Users.displayName e =? EmptyString)%string
       && startsWith "Admin_" (Users.displayName e)
    then
      modify (with_users (update_where (userById (Users.id e))
                (Users.set_displayName displayName)));;
      ret (Users.set_displayName displayName e, false)
    else ret (e, false)
  | [] =>
    r <- insert_users
           (Users.mk freshId telegramId displayName
              (if includes ADMIN_IDS telegramId then RoleAdmin else RoleUser)
              Active 0 None false None);;
    ret (r, true)
  end.

Definition isAdmin (telegramId : string) : M bool :=
  if includes ADMIN_IDS telegramId then ret true
  else
    user <- select users (userByUsername telegramId);;
    ret match user with
        | u :: _ => Role_eqb (Users.role u) RoleAdmin
        | [] => false
        end.

Definition isPremiumUser (userId : Id) (now : Instant) : M bool :=
  userRecord <- select users (userById userId);;
  match userRecord with
  | [] => ret false
  | user :: _ =>
    if negb (Users.isPremium user) then ret false
    else
      match Users.premiumExpiresAt user with
      | Some expiresAt => if expiresAt <? now then ret false else ret true
      | None => ret true
      end
  end.

(** ** The middleware in front of every handler (lines 349-395)

    [true] stands for [next()].  [isVerifyJoin] tells whether the update is
    the [verifyjoin] button, [isStartCommand] whether the message text
    starts with [/start]; [notJoined] is the outcome
    [!allJoined && channels.length > 0] of [checkForceSubscribe]. *)
Definition middleware (from : string) (isVerifyJoin isStartCommand notJoined : bool)
  : M bool :=
  adm <- isAdmin from;;
  if adm then ret true
  else
    existingUser <- select users (userByUsername from);;
    if match existingUser with
       | u :: _ => UserStatus_eqb (Users.status u) Banned
       | [] => false
       end
    then ret false
    else if isVerifyJoin then ret true
    else if isStartCommand then ret true
    else if notJoined then ret false
    else ret true.

(** A handler behind the middleware; [None] when the middleware answered
    and the handler did not run. *)
Definition gated {A} (from : string) (isVerifyJoin isStartCommand notJoined : bool)
  (handler : M A) : M (option A) :=
  proceed <- middleware from isVerifyJoin isStartCommand notJoined;;
  if proceed then a <- handler;; ret (Some a) else ret None.

(** ** Content delivery and the request path (lines 640-716, 846-949) *)

(** What [sendMovieContent] is asked to push to the user. *)
Record Delivery := mkDelivery {
  d_movie : Movies.row;
  d_isAdminPreview : bool;
  d_accessValidity : AccessValidity
}.
Definition sendMovieContent (movie : Movies.row) (isAdminPreview : bool)
  (accessValidity : AccessValidity) : Delivery :=
  mkDelivery movie isAdminPreview accessValidity.

Inductive GetlinkReply :=
| GL_NotFound
| GL_NotAvailable
| GL_NoContent
| GL_Content (premiumNotice : bool) (d : Delivery)
| GL_LinkError
| GL_Verify (token shortUrl : string) (accessExpiredNote : bool).

(** [/getlink_<prefix>].  [verificationToken] is the value drawn from
    [crypto.randomBytes(16)], [shortUrl] the answer of the link shortener
    (consulted on the verification branch only). *)
Definition getlink (from firstName movieIdPrefix : string) (now : Instant)
  (freshUserId : Id) (verificationToken : string) (shortUrl : option string)
  : M GetlinkReply :=
  '(user, _) <- getOrCreateUser from firstName freshUserId;;
  userIsAdmin <- isAdmin from;;
  allMovies <- gets movies;;
  match find (fun m => startsWith movieIdPrefix (Movies.id m)) allMovies with
  | None => ret GL_NotFound
  | Some movie =>
    existingAccess <- select movieAccess (accessOf (Users.id user) (Movies.id movie));;
    let hasAccess := match existingAccess with [] => false | _ :: _ => true end in
    let accessValidity :=
      match existingAccess with
      | a :: _ => isAccessValid now (MovieAccess.unlockedAt a)
      | [] => mkValidity false 0 0
      end in
    if negb userIsAdmin && negb (valid accessValidity)
       && negb (MovieStatus_eqb (Movies.status movie) Published)
    then ret GL_NotAvailable
    else
      assets <- select movieAssets
                  (fun a => (MovieAssets.movieId a =? Movies.id movie)%string);;
      let hasFiles := existsb (fun a => includes fileTypes (MovieAssets.assetType a)) assets in
      let hasLinks := existsb (fun a => (MovieAssets.assetType a =? "link")%string) assets
                      || (0 <? Z.of_nat (List.length (Movies.links movie))) in
      if negb hasFiles && negb hasLinks then ret GL_NoContent
      else if userIsAdmin then
        ret (GL_Content false (sendMovieContent movie true (mkValidity true 12 0)))
      else
        premium <- isPremiumUser (Users.id user) now;;
        if premium then
          (if negb (valid accessValidity) then
             if hasAccess then
               modify (with_movieAccess
                         (update_where (accessOf (Users.id user) (Movies.id movie))
                            (MovieAccess.set_unlockedAt now)))
             else
               insert_movieAccess (MovieAccess.mk (Users.id user) (Movies.id movie) now)
           else ret tt);;
          ret (GL_Content true (sendMovieContent movie false (mkValidity true 12 0)))
        else if valid accessValidity then
          ret (GL_Content false (sendMovieContent movie false accessValidity))
        else
          insert_movieVerifications
            (MovieVerifications.mk (Users.id user) (Movies.id movie)
               verificationToken Pending now);;
          match shortUrl with
          | None => ret GL_LinkError
          | Some url => ret (GL_Verify verificationToken url hasAccess)
          end
  end.

(** ** Checking a content-unlock token (lines 952-1016) *)

Inductive VerifyReply :=
| VR_NotFound
| VR_NotYours
| VR_ExpiredHourLimit
| VR_CompleteFirst
| VR_Expired
| VR_AlreadyUsed
| VR_MovieNotFound
| VR_Granted (d : Delivery).

Definition movieTokenIs (token : string) (v : MovieVerifications.row) : bool :=
  (MovieVerifications.token v =? token)%string.

Definition checkverify (from firstName token : string) (now : Instant)
  (freshUserId : Id) : M VerifyReply :=
  '(user, _) <- getOrCreateUser from firstName freshUserId;;
  found <- select movieVerifications (movieTokenIs token);;
  match found with
  | [] => ret VR_NotFound
  | verification :: _ =>
    if negb (MovieVerifications.userId verification =? Users.id user)%string
    then ret VR_NotYours
    else if HOUR_MS <? now - MovieVerifications.createdAt verification then
      modify (with_movieVerifications
                (update_where (movieTokenIs token)
                   (MovieVerifications.set_status Expired)));;
      ret VR_ExpiredHourLimit
    else
      match MovieVerifications.status verification with
      | Pending => ret VR_CompleteFirst
      | Expired => ret VR_Expired
      | Used => ret VR_AlreadyUsed
      | Verified =>
        movie <- select movies
                   (fun m => (Movies.id m =? MovieVerifications.movieId verification)%string);;
        match movie with
        | [] => ret VR_MovieNotFound
        | m :: _ =>
          existingAccess <- select movieAccess (accessOf (Users.id user) (Movies.id m));;
          match existingAccess with
          | _ :: _ =>
            modify (with_movieAccess
                      (update_where (accessOf (Users.id user) (Movies.id m))
                         (MovieAccess.set_unlockedAt now)))
          | [] =>
            insert_movieAccess (MovieAccess.mk (Users.id user) (Movies.id m) now)
          end;;
          modify (with_movieVerifications
                    (update_where (movieTokenIs token)
                       (MovieVerifications.set_status Used)));;
          ret (VR_Granted (sendMovieContent m false (mkValidity true 12 0)))
        end
      end
  end.

(** ** Earning credits (lines 1018-1119, 2069-2095, 2273-2333) *)

Inductive EarnReply :=
| ER_Wait (hours minutes : Z)
| ER_Cooldown (hours minutes : option Z)
| ER_PremiumNoNeed
| ER_LinkFailed
| ER_Verify (token shortUrl : string).

Definition orZero (o : option Z) : Z := match o with Some z => z | None => 0 end.

(** [/earncredits] and [/earnCredits]. *)
Definition earnCreditsHandler (from firstName : string) (now : Instant)
  (freshUserId : Id) (verificationToken : string) (shortUrl : option string)
  : M EarnReply :=
  '(user, _) <- getOrCreateUser from firstName freshUserId;;
  ce <- canEarnCredits (Users.id user) now;;
  if negb (canEarn ce) then
    ret (ER_Wait (orZero (ce_hoursRemaining ce)) (orZero (ce_minutesRemaining ce)))
  else
    insert_creditVerifications
      (CreditVerifications.mk (Users.id user) verificationToken Pending 2 now);;
    match shortUrl with
    | None => ret ER_LinkFailed
    | Some url => ret (ER_Verify verificationToken url)
    end.

(** The [earncredits] menu button. *)
Definition earncredits_callback (from firstName : string) (now : Instant)
  (freshUserId : Id) (verificationToken : string) (shortUrl : option string)
  : M EarnReply :=
  '(user, _) <- getOrCreateUser from firstName freshUserId;;
  userRecord <- select users (userById (Users.id user));;
  let isPremium := match userRecord with u :: _ => Users.isPremium u | [] => false end in
  ce <- canEarnCredits (Users.id user) now;;
  if isPremium then ret ER_PremiumNoNeed
  else if negb (canEarn ce) then
    ret (ER_Cooldown (ce_hoursRemaining ce) (ce_minutesRemaining ce))
  else
    insert_creditVerifications
      (CreditVerifications.mk (Users.id user) verificationToken Pending 2 now);;
    match shortUrl with
    | Some url => ret (ER_Verify verificationToken url)
    | None => ret ER_LinkFailed
    end.

Inductive ActivateReply :=
| AC_AlreadyActive (hours minutes : option Z)
| AC_Activate (shortUrl : string)
| AC_LinkFailed.

(** The [activate] menu button: consults [canEarnCredits], mints nothing. *)
Definition activate_callback (from firstName : string) (now : Instant)
  (freshUserId : Id) (shortUrl : option string) : M ActivateReply :=
  '(user, _) <- getOrCreateUser from firstName freshUserId;;
  ce <- canEarnCredits (Users.id user) now;;
  if negb (canEarn ce) then
    ret (AC_AlreadyActive (ce_hoursRemaining ce) (ce_minutesRemaining ce))
  else
    match shortUrl with
    | Some url => ret (AC_Activate url)
    | None => ret AC_LinkFailed
    end.

Inductive CreditReply :=
| CR_NotFound
| CR_NotYours
| CR_ExpiredHourLimit
| CR_CompleteFirst
| CR_Expired
| CR_AlreadyClaimed
| CR_Credited (newCredits : Z).

Definition creditTokenIs (token : string) (v : CreditVerifications.row) : bool :=
  (CreditVerifications.token v =? token)%string.

Definition checkcredit (from firstName token : string) (now : Instant)
  (freshUserId : Id) : M CreditReply :=
  '(user, _) <- getOrCreateUser from firstName freshUserId;;
  found <- select creditVerifications (creditTokenIs token);;
  match found with
  | [] => ret CR_NotFound
  | verification :: _ =>
    if negb (CreditVerifications.userId verification =? Users.id user)%string
    then ret CR_NotYours
    else if HOUR_MS <? now - CreditVerifications.createdAt verification then
      modify (with_creditVerifications
                (update_where (creditTokenIs token)
                   (CreditVerifications.set_status Expired)));;
      ret CR_ExpiredHourLimit
    else
      match CreditVerifications.status verification with
      | Pending => ret CR_CompleteFirst
      | Expired => ret CR_Expired
      | Used => ret CR_AlreadyClaimed
      | Verified =>
        newCredits <- earnCredits (Users.id user) now;;
        modify (with_creditVerifications
                  (update_where (creditTokenIs token)
                     (CreditVerifications.set_status Used)));;
        ret (CR_Credited newCredits)
      end
  end.

(** ** Referral award in [/start] (lines 397-533) *)

(** Whether [credits + 1] fits the column on every row that the award
    updates; the [UPDATE] computes the sum in the database and fails with
    "integer out of range" otherwise. *)
Definition awardFits (referrerId : Id) (db : DB) : bool :=
  forallb (fun x => Users.credits x + 1 <=? INT4_MAX)
    (filter (userById referrerId) (users db)).

Definition referralHandling (startParam : string) (isNew : bool)
  (user : Users.row) (from : string) : M unit :=
  if startsWith "ref_" startParam && isNew then
    let referrerTelegramId := dropPrefix 4 startParam in
    if negb (referrerTelegramId =? from)%string then
      referrer <- select users (userByUsername referrerTelegramId);;
      match referrer with
      | r :: _ =>
        try_catch
          (insert_referrals (Referrals.mk (Users.id r) (Users.id user) 1);;
           fits <- gets (awardFits (Users.id r));;
           guard fits;;
           modify (with_users
                     (update_where (userById (Users.id r))
                        (fun x => Users.set_credits (Users.credits x + 1) x))))
          (ret tt)
      | [] => ret tt
      end
    else ret tt
  else ret tt.

Inductive StartReply :=
| ST_Offline
| ST_NotFound
| ST_MovieDetails (movie : Movies.row) (credits : Z) (isPremium : bool)
| ST_DirectClaimDisabled
| ST_JoinChannels
| ST_Welcome (credits : Z) (isPremium : bool).

(** [/start <startParam>]; an absent parameter is the empty
    string, which like [undefined] fails every test on it.  [botActive] is [getBotStatus()],
    [notJoined] tells whether [checkForceSubscribe] found a channel the
    user has not joined. *)
Definition start (from firstName startParam : string) (freshUserId : Id)
  (botActive notJoined : bool) : M StartReply :=
  if negb botActive then ret ST_Offline
  else
    '(user, isNew) <- getOrCreateUser from firstName freshUserId;;
    if startsWith "movie_" startParam then
      let movieIdPrefix := dropPrefix 6 startParam in
      allMovies <- select movies (fun m => MovieStatus_eqb (Movies.status m) Published);;
      match find (fun m => startsWith movieIdPrefix (Movies.id m)) allMovies with
      | None => ret ST_NotFound
      | Some movie =>
        userRecord <- select users (userById (Users.id user));;
        ret (ST_MovieDetails movie
               match userRecord with u :: _ => Users.credits u | [] => 0 end
               match userRecord with u :: _ => Users.isPremium u | [] => false end)
      end
    else if startsWith "verified_" startParam then ret ST_DirectClaimDisabled
    else
      referralHandling startParam isNew user from;;
      if notJoined then ret ST_JoinChannels
      else
        userRecord <- select users (userById (Users.id user));;
        ret (ST_Welcome
               match userRecord with u :: _ => Users.credits u | [] => 0 end
               match userRecord with u :: _ => Users.isPremium u | [] => false end).

(** ** Admin reset (lines 1692-1709) *)

Inductive ResetReply := RS_AdminOnly | RS_Usage | RS_UserNotFound | RS_Done.

Definition reset (from targetUserId : string) (now : Instant) : M ResetReply :=
  adm <- isAdmin from;;
  if negb adm then ret RS_AdminOnly
  else if (targetUserId =? EmptyString)%string then ret RS_Usage
  else
    user <- select users (userByUsername targetUserId);;
    match user with
    | [] => ret RS_UserNotFound
    | u :: _ =>
      modify (with_users
                (update_where (userById (Users.id u))
                   (fun r => Users.set_lastCreditReset (Some now) (Users.set_credits 0 r))));;
      ret RS_Done
    end.

(** ** The [verifyjoin] button (lines 2034-2067)

    [allJoined] is the answer of the handler's own call of
    [checkForceSubscribe]. *)

Inductive VerifyJoinReply := VJ_StillNotJoined | VJ_Welcome.

Definition verifyjoin (from firstName : string) (freshUserId : Id)
  (allJoined : bool) : M VerifyJoinReply :=
  if negb allJoined then ret VJ_StillNotJoined
  else
    '(user, _) <- getOrCreateUser from firstName freshUserId;;
    userRecord <- select users (userById (Users.id user));;
    ret VJ_Welcome.

End Bot.

(** ** Sequences of updates

    One constructor per modelled handler, with the values it receives from
    outside; each passes the middleware first.  [spendCredit] is called by
    no handler of [index.ts]; it is listed, like [earnCredits] and
    [canEarnCredits], as an operation of its own. *)

Inductive Event :=
| EvStart (from firstName startParam : string) (freshUserId : Id)
    (botActive notJoined : bool)
| EvGetlink (from firstName movieIdPrefix : string) (now : Instant)
    (freshUserId : Id) (verificationToken : string) (shortUrl : option string)
    (notJoined : bool)
| EvCheckverify (from firstName token : string) (now : Instant) (freshUserId : Id)
    (notJoined : bool)
| EvEarnCreditsCommand (from firstName : string) (now : Instant)
    (freshUserId : Id) (verificationToken : string) (shortUrl : option string)
    (notJoined : bool)
| EvEarncreditsButton (from firstName : string) (now : Instant)
    (freshUserId : Id) (verificationToken : string) (shortUrl : option string)
    (notJoined : bool)
| EvActivate (from firstName : string) (now : Instant) (freshUserId : Id)
    (shortUrl : option string) (notJoined : bool)
| EvCheckcredit (from firstName token : string) (now : Instant) (freshUserId : Id)
    (notJoined : bool)
| EvReset (from targetUserId : string) (now : Instant) (notJoined : bool)
| EvVerifyjoin (from firstName : string) (freshUserId : Id)
    (allJoined notJoined : bool)
| EvCanEarnCredits (userId : Id) (now : Instant)
| EvEarnCredits (userId : Id) (now : Instant)
| EvSpendCredit (userId : Id).

Definition step (ADMIN_IDS : list string) (ev : Event) (db : DB) : DB :=
  match ev with
  | EvStart from firstName startParam freshUserId botActive notJoined =>
    exec (gated ADMIN_IDS from false true notJoined
            (start ADMIN_IDS from firstName startParam freshUserId botActive
               notJoined)) db
  | EvGetlink from firstName movieIdPrefix now freshUserId verificationToken
      shortUrl notJoined =>
    exec (gated ADMIN_IDS from false false notJoined
            (getlink ADMIN_IDS from firstName movieIdPrefix now freshUserId
               verificationToken shortUrl)) db
  | EvCheckverify from firstName token now freshUserId notJoined =>
    exec (gated ADMIN_IDS from false false notJoined
            (checkverify ADMIN_IDS from firstName token now freshUserId)) db
  | EvEarnCreditsCommand from firstName now freshUserId verificationToken
      shortUrl notJoined =>
    exec (gated ADMIN_IDS from false false notJoined
            (earnCreditsHandler ADMIN_IDS from firstName now freshUserId
               verificationToken shortUrl)) db
  | EvEarncreditsButton from firstName now freshUserId verificationToken
      shortUrl notJoined =>
    exec (gated ADMIN_IDS from false false notJoined
            (earncredits_callback ADMIN_IDS from firstName now freshUserId
               verificationToken shortUrl)) db
  | EvActivate from firstName now freshUserId shortUrl notJoined =>
    exec (gated ADMIN_IDS from false false notJoined
            (activate_callback ADMIN_IDS from firstName now freshUserId shortUrl)) db
  | EvCheckcredit from firstName token now freshUserId notJoined =>
    exec (gated ADMIN_IDS from false false notJoined
            (checkcredit ADMIN_IDS from firstName token now freshUserId)) db
  | EvReset from targetUserId now notJoined =>
    exec (gated ADMIN_IDS from false false notJoined
            (reset ADMIN_IDS from targetUserId now)) db
  | EvVerifyjoin from firstName freshUserId allJoined notJoined =>
    exec (gated ADMIN_IDS from true false notJoined
            (verifyjoin ADMIN_IDS from firstName freshUserId allJoined)) db
  | EvCanEarnCredits userId now => exec (canEarnCredits userId now) db
  | EvEarnCredits userId now => exec (earnCredits userId now) db
  | EvSpendCredit userId => exec (spendCredit userId) db
  end.

Definition run (ADMIN_IDS : list string) (evs : list Event) (db : DB) : DB :=
  fold_left (fun d ev => step ADMIN_IDS ev d) evs db.

(** ** Observations used in the statements *)

(** Every account has a non-negative balance. *)
Definition credits_nonneg (db : DB) : Prop :=
  Forall (fun u => 0 <= Users.credits u) (users db).

(** The cached balance of an account ([0] when there is none). *)
Definition balance (uid : Id) (db : DB) : Z :=
  match filter (userById uid) (users db) with
  | u :: _ => Users.credits u
  | [] => 0
  end.

(** The sum of the signed amounts logged for an account. *)
Definition logSum (uid : Id) (db : DB) : Z :=
  fold_right Z.add 0
    (map CreditTransactions.amount
       (filter (fun t => (CreditTransactions.userId t =? uid)%string)
          (creditTransactions db))).

(** No account is the referred party of two referral rows. *)
Definition referred_once (db : DB) : Prop :=
  NoDup (map Referrals.referredId (referrals db)).

(** What a grant does to [movieAccess] (lines 998-1006, and 893-899 on
    the premium branch): renew the rows of the pair, or add one. *)
Definition grantOrRenew (uid mid : Id) (now : Instant)
  (l : list MovieAccess.row) : list MovieAccess.row :=
  match filter (accessOf uid mid) l with
  | _ :: _ => update_where (accessOf uid mid) (MovieAccess.set_unlockedAt now) l
  | [] => l ++ [MovieAccess.mk uid mid now]
  end.

(** The specification's wording of [isPremiumActive]: the premium flag is
    set and no expiry is recorded or the expiry is strictly later than
    [now]. *)
Definition isPremiumActive_spec (u : Users.row) (now : Instant) : bool :=
  Users.isPremium u
  && match Users.premiumExpiresAt u with
     | None => true
     | Some expiresAt => now <? expiresAt
     end.

(** Clearing the premium flag of one account. *)
Definition clearPremium (uid : Id) (db : DB) : DB :=
  with_users (update_where (userById uid) (Users.set_isPremium false)) db.

(** ** Relations and predicates of the proofs *)

(** A computation whose every run relates the state before to the state
    after by [R], whether it returns or throws. *)
Definition respects {A} (R : DB -> DB -> Prop) (m : M A) : Prop :=
  forall db, R db (exec m db).

Definition keeps_nonneg (db db' : DB) : Prop :=
  credits_nonneg db -> credits_nonneg db'.

(** The log of [db'] is the log of [db] with entries added at the end. *)
Definition log_extends (db db' : DB) : Prop :=
  exists added, creditTransactions db' = creditTransactions db ++ added.

Definition keeps_referred_once (db db' : DB) : Prop :=
  referred_once db -> referred_once db'.

(** The account rows differ at most in [displayName]. *)
Definition renamed (db db' : DB) : Prop :=
  exists p n, db' = with_users (update_where p (Users.set_displayName n)) db.

(** The sender [from] is the existing account [uid]. *)
Definition resolves (from : string) (uid : Id) (db : DB) : Prop :=
  exists e es,
    filter (userByUsername from) (users db) = e :: es /\ Users.id e = uid.

(** The state [getOrCreateUser] leaves when it finds the row [e]
    (lines 180-186). *)
Definition touchUser (e : Users.row) (displayName : string) (db : DB) : DB :=
  if negb (Users.displayName e =? EmptyString)%string
     && startsWith "Admin_" (Users.displayName e)
  then with_users (update_where (userById (Users.id e))
                     (Users.set_displayName displayName)) db
  else db.

(** The row [getOrCreateUser] returns when it finds [e]. *)
Definition touchedRow (e : Users.row) (displayName : string) : Users.row :=
  if negb (Users.displayName e =? EmptyString)%string
     && startsWith "Admin_" (Users.displayName e)
  then Users.set_displayName displayName e
  else e.

(** The test of [isPremiumUser] on a row (lines 1126-1128). *)
Definition premiumActive (user : Users.row) (now : Instant) : bool :=
  if negb (Users.isPremium user) then false
  else match Users.premiumExpiresAt user with
       | Some expiresAt => if expiresAt <? now then false else true
       | None => true
       end.

(** The status of the row a check of [tok] finds. *)
Definition movieTokenStatus (tok : string) (db : DB) : option TokenStatus :=
  match filter (movieTokenIs tok) (movieVerifications db) with
  | v :: _ => Some (MovieVerifications.status v)
  | [] => None
  end.

Definition creditTokenStatus (tok : string) (db : DB) : option TokenStatus :=
  match filter (creditTokenIs tok) (creditVerifications db) with
  | v :: _ => Some (CreditVerifications.status v)
  | [] => None
  end.

(** A computation that cannot tell whether the premium flag of [uid] is
    set, and does not touch it. *)
Definition flag_blind {A} (uid : Id) (m : M A) : Prop :=
  forall db, m (clearPremium uid db) = (fst (m db), clearPremium uid (snd (m db))).

(** ** Sample states *)

Definition ann : Users.row :=
  Users.mk "u1" "100" "Ann" RoleUser Active 1 None false None.
Definition bob : Users.row :=
  Users.mk "u2" "200" "Bob" RoleUser Active 0 None false None.
Definition dangal : Movies.row :=
  Movies.mk "m1" "Dangal" ["https://example.org/dangal"] Published.

(** One account with one credit, one published item, nothing else. *)
Definition db_fresh : DB := mkDB [ann] [dangal] [] [] [] [] [] [].

(** Ann has claimed a content token and a credit token, both minted at 0. *)
Definition db_used : DB :=
  mkDB [ann] [dangal] []
       [MovieAccess.mk "u1" "m1" 10]
       [MovieVerifications.mk "u1" "m1" "tokM" Used 0]
       [CreditVerifications.mk "u1" "tokC" Used 2 0]
       [CreditTransactions.mk "u1" 2 "shortener_visit"] [].

(** Ann's content token, minted at 0, has been marked verified. *)
Definition db_verified : DB :=
  mkDB [ann] [dangal] [] []
       [MovieVerifications.mk "u1" "m1" "tokM" Verified 0] [] [] [].


(** Ann earned 2 credits at 0; log and balance agree. *)
Definition db_earned : DB :=
  mkDB [Users.mk "u1" "100" "Ann" RoleUser Active 2 (Some 0) false None]
       [dangal] [] [] [] []
       [CreditTransactions.mk "u1" 2 "shortener_visit"] [].

(** Ann is premium until the instant 1000. *)
Definition ann_premium : Users.row :=
  Users.mk "u1" "100" "Ann" RoleUser Active 0 None true (Some 1000).
Definition db_premium : DB := mkDB [ann_premium] [dangal] [] [] [] [] [] [].

(** Ann, and Bob who has just been created by [/start]. *)
Definition db_referral : DB := mkDB [ann; bob] [dangal] [] [] [] [] [] [].

(** ** Administration commands (lines 1132-1232, 1499-1536, 1816-1856,
    1963-1994) *)

Definition set_user_status (s : UserStatus) (u : Users.row) : Users.row :=
  Users.mk (Users.id u) (Users.username u) (Users.displayName u) (Users.role u) s
    (Users.credits u) (Users.lastCreditReset u) (Users.isPremium u)
    (Users.premiumExpiresAt u).
Definition set_user_role (r : Role) (u : Users.row) : Users.row :=
  Users.mk (Users.id u) (Users.username u) (Users.displayName u) r (Users.status u)
    (Users.credits u) (Users.lastCreditReset u) (Users.isPremium u)
    (Users.premiumExpiresAt u).
Definition set_user_premium (flag : bool) (expiresAt : option Instant)
  (u : Users.row) : Users.row :=
  Users.mk (Users.id u) (Users.username u) (Users.displayName u) (Users.role u)
    (Users.status u) (Users.credits u) (Users.lastCreditReset u) flag expiresAt.

Definition with_movies (f : list Movies.row -> list Movies.row) (db : DB) : DB :=
  mkDB (users db) (f (movies db)) (movieAssets db) (movieAccess db)
       (movieVerifications db) (creditVerifications db)
       (creditTransactions db) (referrals db).
Definition with_movieAssets
  (f : list MovieAssets.row -> list MovieAssets.row) (db : DB) : DB :=
  mkDB (users db) (movies db) (f (movieAssets db)) (movieAccess db)
       (movieVerifications db) (creditVerifications db)
       (creditTransactions db) (referrals db).

(** [db.delete(table).where(p)] *)
Definition delete_where {R} (where_ : R -> bool) (l : list R) : list R :=
  filter (fun r => negb (where_ r)) l.

(** [n.toString()] of a Telegram id. *)
Definition idString (n : Z) : string := NilZero.string_of_int (Z.to_int n).

Inductive AdminReply :=
| AR_AdminOnly
| AR_OwnerOnly
| AR_Usage
| AR_Invalid
| AR_SelfPromotion
| AR_UserNotFound
| AR_NotFound
| AR_AlreadyAdmin (displayName : string)
| AR_Done (displayName : string).

Section Admin.

Variable ADMIN_IDS : list string.

(** [parseInt]; [None] is [NaN]. *)
Variable parseInt : string -> option Z.

(** [d.setDate(d.getDate() + days)] on the instant [now], in the time zone
    of the server. *)
Variable addDays : Instant -> Z -> Instant.

(** [new Fuse(allMovies, ...).search(name)], best match first. *)
Variable fuseSearch : list Movies.row -> string -> list Movies.row.

(** [name.replace(/^<|>$/g, empty).trim()] *)
Variable stripAngles : string -> string.

(** [/ban <telegram_id>]; [userId] is the text after the command, trimmed. *)
Definition ban (from userId : string) : M AdminReply :=
  adm <- isAdmin ADMIN_IDS from;;
  if negb adm then ret AR_AdminOnly
  else if (userId =? EmptyString)%string then ret AR_Usage
  else
    targetUser <- select users (userByUsername userId);;
    match targetUser with
    | [] => ret AR_UserNotFound
    | t :: _ =>
      modify (with_users (update_where (userByUsername userId)
                (set_user_status Banned)));;
      ret (AR_Done (Users.displayName t))
    end.

(** [/unban <telegram_id>] *)
Definition unban (from userId : string) : M AdminReply :=
  adm <- isAdmin ADMIN_IDS from;;
  if negb adm then ret AR_AdminOnly
  else if (userId =? EmptyString)%string then ret AR_Usage
  else
    targetUser <- select users (userByUsername userId);;
    match targetUser with
    | [] => ret AR_UserNotFound
    | t :: _ =>
      modify (with_users (update_where (userByUsername userId)
                (set_user_status Active)));;
      ret (AR_Done (Users.displayName t))
    end.

(** [/premium <telegram_id> <days>]; [args] is
    [text.split(" ").slice(1)]. *)
Definition premium (from : string) (args : list string) (now : Instant)
  : M AdminReply :=
  adm <- isAdmin ADMIN_IDS from;;
  if negb adm then ret AR_AdminOnly
  else
    match args with
    | telegramId :: daysArg :: _ =>
      match parseInt daysArg with
      | None => ret AR_Invalid
      | Some days =>
        if days <=? 0 then ret AR_Invalid
        else
          userRecord <- select users (userByUsername telegramId);;
          match userRecord with
          | [] => ret AR_UserNotFound
          | u :: _ =>
            let expiresAt := addDays now days in
            modify (with_users (update_where (userById (Users.id u))
                      (set_user_premium true (Some expiresAt))));;
            ret (AR_Done (Users.displayName u))
          end
      end
    | _ => ret AR_Usage
    end.

(** [/rmpremium <telegram_id>] *)
Definition rmpremium (from : string) (args : list string) : M AdminReply :=
  adm <- isAdmin ADMIN_IDS from;;
  if negb adm then ret AR_AdminOnly
  else
    match args with
    | [] => ret AR_Usage
    | telegramId :: _ =>
      userRecord <- select users (userByUsername telegramId);;
      match userRecord with
      | [] => ret AR_UserNotFound
      | u :: _ =>
        modify (with_users (update_where (userById (Users.id u))
                  (set_user_premium false None)));;
        ret (AR_Done (Users.displayName u))
      end
    end.

(** [/addadmin <telegram_id>]; only the owners listed in [ADMIN_IDS] may
    use it.  [text] is the text after the command, trimmed. *)
Definition addadmin (callerTelegramId : Z) (text : string) (freshUserId : Id)
  : M AdminReply :=
  if negb (includes ADMIN_IDS (idString callerTelegramId)) then ret AR_OwnerOnly
  else if (text =? EmptyString)%string then ret AR_Usage
  else
    match parseInt text with
    | None => ret AR_Invalid
    | Some targetTelegramId =>
      if targetTelegramId =? callerTelegramId then ret AR_SelfPromotion
      else
        user <- select users (userByUsername text);;
        match user with
        | [] =>
          insert_users (Users.mk freshUserId text ("Admin_" ++ text)%string
                          RoleAdmin Active 0 None false None);;
          ret (AR_Done text)
        | u :: _ =>
          if Role_eqb (Users.role u) RoleAdmin
          then ret (AR_AlreadyAdmin (Users.displayName u))
          else
            modify (with_users (update_where (userById (Users.id u))
                      (set_user_role RoleAdmin)));;
            ret (AR_Done (Users.displayName u))
        end
    end.

(** [/delete <movie_name>]; [text] is the text after the command,
    trimmed. *)
Definition delete (from text : string) : M AdminReply :=
  adm <- isAdmin ADMIN_IDS from;;
  if negb adm then ret AR_AdminOnly
  else if (text =? EmptyString)%string then ret AR_Usage
  else
    let movieName := stripAngles text in
    allMovies <- gets movies;;
    match fuseSearch allMovies movieName with
    | [] => ret AR_NotFound
    | movie :: _ =>
      modify (with_movieAssets
                (delete_where (fun a => (MovieAssets.movieId a =? Movies.id movie)%string)));;
      modify (with_movieAccess
                (delete_where (fun a => (MovieAccess.movieId a =? Movies.id movie)%string)));;
      modify (with_movieVerifications
                (delete_where (fun v => (MovieVerifications.movieId v =? Movies.id movie)%string)));;
      modify (with_movies
                (delete_where (fun m => (Movies.id m =? Movies.id movie)%string)));;
      ret (AR_Done (Movies.displayTitle movie))
    end.

End Admin.

(** ** Escaping of message text (lines 47-59, 1774-1776) *)

(** [s.replace(/c/g, r)] for a pattern that is the one character [c] and a
    replacement [r] without [$]. *)
Fixpoint replaceChar (c : ascii) (r : string) (s : string) : string :=
  match s with
  | EmptyString => EmptyString
  | String a s' =>
    if Ascii.eqb a c then (r ++ replaceChar c r s')%string
    else String a (replaceChar c r s')
  end.

Definition chDoubleQuote : ascii := "034"%char.
Definition chSingleQuote : ascii := "039"%char.
Definition chBackslash : ascii := "092"%char.

Definition escapeHtml (text : string) : string :=
  replaceChar chSingleQuote "&#39;"
    (replaceChar chDoubleQuote "&quot;"
       (replaceChar ">" "&gt;"
          (replaceChar "<" "&lt;"
             (replaceChar "&" "&amp;" text)))).

(** The character class of [escapeMarkdown]. *)
Definition markdownSpecial (c : ascii) : bool :=
  existsb (Ascii.eqb c)
    ["_"; "*"; "["; "]"; "("; ")"; "~"; "`"; ">"; "#"; "+"; "="; "|"; "{"; "}";
     "."; "!"; "-"]%char.

(** [text.replace(/[...]/g, backslash followed by the match)] *)
Fixpoint escapeMarkdown (text : string) : string :=
  match text with
  | EmptyString => EmptyString
  | String a s' =>
    if markdownSpecial a then String chBackslash (String a (escapeMarkdown s'))
    else String a (escapeMarkdown s')
  end.

(** The characters that open or close markup in an HTML message. *)
Definition htmlSpecial (c : ascii) : bool :=
  existsb (Ascii.eqb c) ["<"%char; ">"%char; chDoubleQuote; chSingleQuote].

(** Text in which every character of the Markdown class is preceded by a
    backslash of its own. *)
Inductive well_escaped : string -> Prop :=
| we_nil : well_escaped EmptyString
| we_plain c s : markdownSpecial c = false -> well_escaped s ->
                 well_escaped (String c s)
| we_escaped c s : markdownSpecial c = true -> well_escaped s ->
                   well_escaped (String chBackslash (String c s)).

(** ** Further observations *)

(** One account per identifier and per Telegram id. *)
Definition users_unique (db : DB) : Prop :=
  NoDup (map Users.id (users db)) /\ NoDup (map Users.username (users db)).

(** What an account is allowed to do. *)
Definition privileges (u : Users.row)
  : Id * string * Role * UserStatus * bool * option Instant :=
  (Users.id u, Users.username u, Users.role u, Users.status u,
   Users.isPremium u, Users.premiumExpiresAt u).

Definition isVerified (s : TokenStatus) : bool :=
  match s with Verified => true | _ => false end.

(** The tokens of the two token tables that are marked verified. *)
Definition verifiedMovieTokens (db : DB) : list string :=
  map MovieVerifications.token
    (filter (fun v => isVerified (MovieVerifications.status v))
       (movieVerifications db)).
Definition verifiedCreditTokens (db : DB) : list string :=
  map CreditVerifications.token
    (filter (fun v => isVerified (CreditVerifications.status v))
       (creditVerifications db)).

(** What a token row records besides its status. *)
Definition movieTokenFacts (v : MovieVerifications.row)
  : Id * Id * string * Instant :=
  (MovieVerifications.userId v, MovieVerifications.movieId v,
   MovieVerifications.token v, MovieVerifications.createdAt v).
Definition creditTokenFacts (v : CreditVerifications.row)
  : Id * string * Z * Instant :=
  (CreditVerifications.userId v, CreditVerifications.token v,
   CreditVerifications.creditsAmount v, CreditVerifications.createdAt v).

(** No token string is stored twice in a token table. *)
Definition tokens_unique (db : DB) : Prop :=
  NoDup (map MovieVerifications.token (movieVerifications db))
  /\ NoDup (map CreditVerifications.token (creditVerifications db)).

(** The answer of [isAdmin] in a state. *)
Definition isAdminNow (ADMIN_IDS : list string) (from : string) (db : DB) : bool :=
  includes ADMIN_IDS from
  || match filter (userByUsername from) (users db) with
     | u :: _ => Role_eqb (Users.role u) RoleAdmin
     | [] => false
     end.

(** The ban test of the middleware in a state. *)
Definition isBannedNow (from : string) (db : DB) : bool :=
  match filter (userByUsername from) (users db) with
  | u :: _ => UserStatus_eqb (Users.status u) Banned
  | [] => false
  end.


(** The sender of an update that comes through the middleware. *)
Definition sender (ev : Event) : option string :=
  match ev with
  | EvStart from _ _ _ _ _ => Some from
  | EvGetlink from _ _ _ _ _ _ _ => Some from
  | EvCheckverify from _ _ _ _ _ => Some from
  | EvEarnCreditsCommand from _ _ _ _ _ _ => Some from
  | EvEarncreditsButton from _ _ _ _ _ _ => Some from
  | EvActivate from _ _ _ _ _ => Some from
  | EvCheckcredit from _ _ _ _ _ => Some from
  | EvReset from _ _ _ => Some from
  | EvVerifyjoin from _ _ _ _ => Some from
  | EvCanEarnCredits _ _ => None
  | EvEarnCredits _ _ => None
  | EvSpendCredit _ => None
  end.

(** ** Further relations of the proofs *)

(** A handler preserves [P] when [P] before implies [P] after. *)
Definition preserves (P : DB -> Prop) : DB -> DB -> Prop :=
  fun db db' => P db -> P db'.

(** The accounts of [db] are in [db'] with the same privileges, in the same
    order; [db'] may have more accounts. *)
Definition keeps_privileges (db db' : DB) : Prop :=
  exists added, map privileges (users db') = map privileges (users db) ++ added.

Definition keeps_catalog (db db' : DB) : Prop :=
  movies db' = movies db /\ movieAssets db' = movieAssets db.

(** Every token that is verified in [db'] was verified in [db]. *)
Definition no_new_verified (db db' : DB) : Prop :=
  (forall t, In t (verifiedMovieTokens db') -> In t (verifiedMovieTokens db))
  /\ (forall t, In t (verifiedCreditTokens db') -> In t (verifiedCreditTokens db)).

(** The token rows of [db] are in [db'] with the same owner, movie, token
    and creation time, in the same order; [db'] may have more. *)
Definition keeps_tokens (db db' : DB) : Prop :=
  (exists added, map movieTokenFacts (movieVerifications db')
                 = map movieTokenFacts (movieVerifications db) ++ added)
  /\ (exists added, map creditTokenFacts (creditVerifications db')
                    = map creditTokenFacts (creditVerifications db) ++ added).

(** What [escapeHtml] makes of one character when the text is read once,
    left to right. *)
Definition htmlEntity (c : ascii) : string :=
  if Ascii.eqb c "&" then "&amp;"
  else if Ascii.eqb c "<" then "&lt;"
  else if Ascii.eqb c ">" then "&gt;"
  else if Ascii.eqb c chDoubleQuote then "&quot;"
  else if Ascii.eqb c chSingleQuote then "&#39;"
  else String c EmptyString.

(** Escaping in one pass, each character replaced by its entity. *)
Fixpoint escapeHtml_one_pass (text : string) : string :=
  match text with
  | EmptyString => EmptyString
  | String a s' => (htmlEntity a ++ escapeHtml_one_pass s')%string
  end.

Fixpoint string_forallb (p : ascii -> bool) (s : string) : bool :=
  match s with
  | EmptyString => true
  | String a s' => p a && string_forallb p s'
  end.

(** ** Bot switch and shortener tokens (lines 65-68, 203-206, 1711-1724,
    1756-1772)

    The [settings] and [shortener_tokens] tables are read and written by
    these functions only; they are carried beside the database. *)

Module Settings.
Record row := mk {
  key : string;
  value : string
}.
Definition set_value (v : string) (r : row) : row := mk (key r) v.
End Settings.

Module ShortenerTokens.
Record row := mk {
  tokenValue : string;
  isActive : bool
}.
Definition set_isActive (b : bool) (r : row) : row := mk (tokenValue r) b.
End ShortenerTokens.

Definition settingIs (k : string) (r : Settings.row) : bool :=
  (Settings.key r =? k)%string.

Definition getBotStatus (settings : list Settings.row) : bool :=
  match filter (settingIs "bot_active") settings with
  | [] => true
  | r :: _ => negb (Settings.value r =? "false")%string
  end.

(** The token [generateShortLink] calls the shortener with; [None] makes it
    return [null]. *)
Definition activeToken (tokens : list ShortenerTokens.row) : option string :=
  match filter ShortenerTokens.isActive tokens with
  | r :: _ => if (ShortenerTokens.tokenValue r =? EmptyString)%string then None
              else Some (ShortenerTokens.tokenValue r)
  | [] => None
  end.

Section Switches.

Variable ADMIN_IDS : list string.

(** [/myswitch]; the reply tells the new status. *)
Definition myswitch (from : string) (settings : list Settings.row)
  : M (option bool * list Settings.row) :=
  adm <- isAdmin ADMIN_IDS from;;
  if negb adm then ret (None, settings)
  else
    let currentStatus := getBotStatus settings in
    let newStatus := negb currentStatus in
    let newValue := if newStatus then "true" else "false" in
    match filter (settingIs "bot_active") settings with
    | _ :: _ =>
      ret (Some newStatus,
           update_where (settingIs "bot_active") (Settings.set_value newValue) settings)
    | [] =>
      ret (Some newStatus, settings ++ [Settings.mk "bot_active" newValue])
    end.

(** [/addtokens <api_token>]; [token] is the text after the command,
    trimmed. *)
Definition addtokens (from token : string) (tokens : list ShortenerTokens.row)
  : M (AdminReply * list ShortenerTokens.row) :=
  adm <- isAdmin ADMIN_IDS from;;
  if negb adm then ret (AR_AdminOnly, tokens)
  else if (token =? EmptyString)%string then ret (AR_Usage, tokens)
  else
    ret (AR_Done token,
         map (ShortenerTokens.set_isActive false) tokens
         ++ [ShortenerTokens.mk token true]).

End Switches.

(** ** Further sample states *)

(** Bob has been banned. *)
Definition bob_banned : Users.row :=
  Users.mk "u2" "200" "Bob" RoleUser Banned 0 None false None.
Definition db_banned : DB := mkDB [ann; bob_banned] [dangal] [] [] [] [] [] [].

(** Ann holds a content token and a credit token, minted at 0 and both
    marked verified. *)
Definition db_both_verified : DB :=
  mkDB [ann] [dangal] [] []
       [MovieVerifications.mk "u1" "m1" "tokM" Verified 0]
       [CreditVerifications.mk "u1" "tokC" Verified 2 0] [] [].

(** The same two tokens, held by Bob. *)
Definition db_tokens_of_bob : DB :=
  mkDB [ann; bob] [dangal] [] []
       [MovieVerifications.mk "u2" "m1" "tokM" Verified 0]
       [CreditVerifications.mk "u2" "tokC" Verified 2 0] [] [].

(** Bob holds a verified content token and nothing else; Ann holds none. *)
Definition db_content_token_of_bob : DB :=
  mkDB [ann; bob] [dangal] [] []
       [MovieVerifications.mk "u2" "m1" "tokM" Verified 0] [] [] [].

(** Bob holds a verified credit token and nothing else. *)
Definition db_credit_token_of_bob : DB :=
  mkDB [ann; bob] [dangal] [] [] []
       [CreditVerifications.mk "u2" "tokC" Verified 2 0] [] [].

(** Ann holds a verified credit token, minted at 0, and no content token. *)
Definition db_credit_verified : DB :=
  mkDB [ann] [dangal] [] [] []
       [CreditVerifications.mk "u1" "tokC" Verified 2 0] [] [].

(** Ann has claimed a content token; she never held a credit token. *)
Definition db_used_content : DB :=
  mkDB [ann] [dangal] []
       [MovieAccess.mk "u1" "m1" 10]
       [MovieVerifications.mk "u1" "m1" "tokM" Used 0] [] [] [].

(** Ann has claimed a credit token; she never held a content token. *)
Definition db_used_credit : DB :=
  mkDB [Users.mk "u1" "100" "Ann" RoleUser Active 2 (Some 0) false None]
       [dangal] [] [] []
       [CreditVerifications.mk "u1" "tokC" Used 2 0]
       [CreditTransactions.mk "u1" 2 "shortener_visit"] [].

(** Ann unlocked the item at 0 and that grant has run out; Carl holds a
    grant of his own; Ann's new content token, minted at 50000000, has been
    marked verified. *)
Definition db_renewal : DB :=
  mkDB [ann] [dangal] []
       [MovieAccess.mk "u1" "m1" 0; MovieAccess.mk "u3" "m1" 7]
       [MovieVerifications.mk "u1" "m1" "tokM" Verified 50000000] [] [] [].

(** Ann's balance is one below the largest value of the integer column;
    her credit token has been marked verified. *)
Definition ann_rich : Users.row :=
  Users.mk "u1" "100" "Ann" RoleUser Active (INT4_MAX - 1) None false None.
Definition db_rich : DB :=
  mkDB [ann_rich] [dangal] [] [] []
       [CreditVerifications.mk "u1" "tokC" Verified 2 0] [] [].

(** Ann's balance is the largest value of the integer column; Bob has just
    been created by [/start]. *)
Definition ann_full : Users.row :=
  Users.mk "u1" "100" "Ann" RoleUser Active INT4_MAX None false None.
Definition db_referral_full : DB := mkDB [ann_full; bob] [dangal] [] [] [] [] [] [].

(** A 24-hour day, for [addDays] where the day has no clock change. *)
Definition addDays_plain (now : Instant) (days : Z) : Instant :=
  now + days * 24 * HOUR_MS.

(** * Properties *)

(** ** The monad *)

Lemma exec_bind {A B} (m : M A) (k : A -> M B) db :
  exec (bind m k) db =
  match m db with
  | (Ok a, db') => exec (k a) db'
  | (Throw, db') => db'
  end.
Proof. unfold exec, bind. destruct (m db) as [[a|] db']; reflexivity. Qed.

Lemma exec_try_catch {A} (m h : M A) db :
  exec (try_catch m h) db =
  match m db with
  | (Ok a, db') => db'
  | (Throw, db') => exec h db'
  end.
Proof. unfold exec, try_catch. destruct (m db) as [[a|] db']; reflexivity. Qed.

Section Respects.

Variable R : DB -> DB -> Prop.
Hypothesis R_refl : forall db, R db db.
Hypothesis R_trans : forall a b c, R a b -> R b c -> R a c.

Lemma respects_ret {A} (a : A) : respects R (ret a).
Proof. intro db. apply R_refl. Qed.

Lemma respects_throw {A} : respects R (@throw A).
Proof. intro db. apply R_refl. Qed.

Lemma respects_gets {A} (f : DB -> A) : respects R (gets f).
Proof. intro db. apply R_refl. Qed.

Lemma respects_select {T} (table : DB -> list T) p : respects R (select table p).
Proof. intro db. apply R_refl. Qed.

Lemma respects_guard b : respects R (guard b).
Proof. destruct b; intro db; apply R_refl. Qed.

Lemma respects_modify f : (forall db, R db (f db)) -> respects R (modify f).
Proof. intros H db. apply H. Qed.

Lemma respects_bind {A B} (m : M A) (k : A -> M B) :
  respects R m -> (forall a, respects R (k a)) -> respects R (bind m k).
Proof.
  intros Hm Hk db. rewrite exec_bind.
  specialize (Hm db). unfold exec in Hm.
  destruct (m db) as [[a|] db']; simpl in Hm.
  - eapply R_trans; [exact Hm | apply Hk].
  - exact Hm.
Qed.

Lemma respects_try_catch {A} (m h : M A) :
  respects R m -> respects R h -> respects R (try_catch m h).
Proof.
  intros Hm Hh db. rewrite exec_try_catch.
  specialize (Hm db). unfold exec in Hm.
  destruct (m db) as [[a|] db']; simpl in Hm.
  - exact Hm.
  - eapply R_trans; [exact Hm | apply Hh].
Qed.

End Respects.

(** Decomposes a handler along its binds and branches; [leaf] closes the
    goals about the writes it meets. *)
Ltac respects_walk leaf :=
  repeat first
    [ apply respects_ret; assumption
    | apply respects_throw; assumption
    | apply respects_gets; assumption
    | apply respects_select; assumption
    | apply respects_guard; assumption
    | solve [leaf]
    | apply respects_bind; [assumption | | intros ]
    | apply respects_try_catch; [assumption | | ]
    | match goal with
      | |- respects _ (match ?x with _ => _ end) => destruct x
      end ].

(** ** The write footprint of the handlers

    Every handler is built from reads and from the writes listed as
    hypotheses below; a relation that contains those writes contains every
    run of every handler. *)

Section Footprint.

Variable ADMIN_IDS : list string.
Variable R : DB -> DB -> Prop.
Hypothesis R_refl : forall db, R db db.
Hypothesis R_trans : forall a b c, R a b -> R b c -> R a c.

Hypothesis W_displayName : forall p n db,
  R db (with_users (update_where p (Users.set_displayName n)) db).
Hypothesis W_newUser : forall i n d r,
  respects R (insert_users (Users.mk i n d r Active 0 None false None)).
Hypothesis W_movieAccess : forall f db, R db (with_movieAccess f db).
Hypothesis W_movieVerifications : forall f db, R db (with_movieVerifications f db).
Hypothesis W_creditVerifications : forall f db, R db (with_creditVerifications f db).
Hypothesis W_canEarnCredits : forall uid now, respects R (canEarnCredits uid now).
Hypothesis W_earnCredits : forall uid now, respects R (earnCredits uid now).
Hypothesis W_spendCredit : forall uid, respects R (spendCredit uid).
Hypothesis W_referral : forall r, respects R (insert_referrals r).
Hypothesis W_award : forall p db,
  R db (with_users (update_where p
          (fun x => Users.set_credits (Users.credits x + 1) x)) db).
Hypothesis W_reset : forall p now db,
  R db (with_users (update_where p
          (fun r => Users.set_lastCreditReset (Some now) (Users.set_credits 0 r))) db).

Ltac footprint_leaf :=
  first
    [ apply W_newUser | apply W_canEarnCredits | apply W_earnCredits
    | apply W_spendCredit | apply W_referral
    | apply respects_modify;
      first [ apply W_displayName | apply W_movieAccess
            | apply W_movieVerifications | apply W_creditVerifications
            | apply W_award | apply W_reset ] ].

Lemma respects_insert_movieAccess a : respects R (insert_movieAccess a).
Proof. unfold insert_movieAccess. respects_walk footprint_leaf. Qed.

Lemma respects_insert_movieVerifications v :
  respects R (insert_movieVerifications v).
Proof. unfold insert_movieVerifications. respects_walk footprint_leaf. Qed.

Lemma respects_insert_creditVerifications v :
  respects R (insert_creditVerifications v).
Proof. unfold insert_creditVerifications. respects_walk footprint_leaf. Qed.

Lemma respects_getOrCreateUser tg n f :
  respects R (getOrCreateUser ADMIN_IDS tg n f).
Proof. unfold getOrCreateUser. respects_walk footprint_leaf. Qed.

Lemma respects_isAdmin tg : respects R (isAdmin ADMIN_IDS tg).
Proof. unfold isAdmin. respects_walk footprint_leaf. Qed.

Lemma respects_isPremiumUser uid now : respects R (isPremiumUser uid now).
Proof. unfold isPremiumUser. respects_walk footprint_leaf. Qed.

Ltac handler_leaf :=
  first
    [ apply respects_getOrCreateUser | apply respects_isAdmin
    | apply respects_isPremiumUser | apply respects_insert_movieAccess
    | apply respects_insert_movieVerifications
    | apply respects_insert_creditVerifications
    | footprint_leaf ].

Lemma respects_getlink from fn pre now fu tok url :
  respects R (getlink ADMIN_IDS from fn pre now fu tok url).
Proof. unfold getlink. respects_walk handler_leaf. Qed.

Lemma respects_checkverify from fn tok now fu :
  respects R (checkverify ADMIN_IDS from fn tok now fu).
Proof. unfold checkverify. respects_walk handler_leaf. Qed.

Lemma respects_earnCreditsHandler from fn now fu tok url :
  respects R (earnCreditsHandler ADMIN_IDS from fn now fu tok url).
Proof. unfold earnCreditsHandler. respects_walk handler_leaf. Qed.

Lemma respects_earncredits_callback from fn now fu tok url :
  respects R (earncredits_callback ADMIN_IDS from fn now fu tok url).
Proof. unfold earncredits_callback. respects_walk handler_leaf. Qed.

Lemma respects_activate_callback from fn now fu url :
  respects R (activate_callback ADMIN_IDS from fn now fu url).
Proof. unfold activate_callback. respects_walk handler_leaf. Qed.

Lemma respects_checkcredit from fn tok now fu :
  respects R (checkcredit ADMIN_IDS from fn tok now fu).
Proof. unfold checkcredit. respects_walk handler_leaf. Qed.

Lemma respects_referralHandling sp isNew u from :
  respects R (referralHandling sp isNew u from).
Proof. unfold referralHandling. respects_walk handler_leaf. Qed.

Lemma respects_start from fn sp fu act nj :
  respects R (start ADMIN_IDS from fn sp fu act nj).
Proof.
  unfold start.
  respects_walk ltac:(first [apply respects_referralHandling | handler_leaf]).
Qed.

Lemma respects_reset from target now :
  respects R (reset ADMIN_IDS from target now).
Proof. unfold reset. respects_walk handler_leaf. Qed.

Lemma respects_verifyjoin from fn fu joined :
  respects R (verifyjoin ADMIN_IDS from fn fu joined).
Proof. unfold verifyjoin. respects_walk handler_leaf. Qed.

Lemma respects_middleware from isVj isStart nj :
  respects R (middleware ADMIN_IDS from isVj isStart nj).
Proof. unfold middleware. respects_walk handler_leaf. Qed.

Lemma respects_gated {A} from isVj isStart nj (handler : M A) :
  respects R handler -> respects R (gated ADMIN_IDS from isVj isStart nj handler).
Proof.
  intro H. unfold gated.
  respects_walk ltac:(first [apply respects_middleware | exact H]).
Qed.

Lemma respects_step ev db : R db (step ADMIN_IDS ev db).
Proof.
  destruct ev; simpl; try apply respects_gated.
  - apply respects_start.
  - apply respects_getlink.
  - apply respects_checkverify.
  - apply respects_earnCreditsHandler.
  - apply respects_earncredits_callback.
  - apply respects_activate_callback.
  - apply respects_checkcredit.
  - apply respects_reset.
  - apply respects_verifyjoin.
  - apply W_canEarnCredits.
  - apply W_earnCredits.
  - apply W_spendCredit.
Qed.

Lemma respects_run evs : forall db, R db (run ADMIN_IDS evs db).
Proof.
  induction evs as [|ev evs IH]; intro db; simpl.
  - apply R_refl.
  - eapply R_trans; [apply respects_step | apply IH].
Qed.

End Footprint.

(** ** Lists and tables *)

Ltac unfold_monad :=
  unfold exec, result, bind, try_catch, select, gets, modify, guard, ret, throw in *.

Ltac run_monad := unfold_monad; simpl in *.

Lemma filter_head_In {T} (p : T -> bool) l x xs :
  filter p l = x :: xs -> In x l /\ p x = true.
Proof.
  intro H. apply filter_In. rewrite H. left. reflexivity.
Qed.

Lemma filter_head_existsb {T} (p : T -> bool) l x xs :
  filter p l = x :: xs -> existsb p l = true.
Proof.
  intro H. apply existsb_exists. exists x. eapply filter_head_In; eauto.
Qed.

Lemma filter_nil_existsb {T} (p : T -> bool) l :
  filter p l = [] -> existsb p l = false.
Proof.
  intro H. destruct (existsb p l) eqn:E; [|reflexivity].
  apply existsb_exists in E. destruct E as [x [Hin Hp]].
  assert (In x (filter p l)) by (apply filter_In; auto).
  rewrite H in *. contradiction.
Qed.

Lemma Forall_update_where {T} (P : T -> Prop) p f (l : list T) :
  Forall P l ->
  (forall x, In x l -> p x = true -> P x -> P (f x)) ->
  Forall P (update_where p f l).
Proof.
  unfold update_where. intros Hl Hf.
  apply Forall_forall. intros y Hy.
  apply in_map_iff in Hy. destruct Hy as [x [<- Hin]].
  rewrite Forall_forall in Hl.
  destruct (p x) eqn:E; auto.
Qed.

(** ** Balances stay non-negative *)

Lemma keeps_nonneg_refl db : keeps_nonneg db db.
Proof. intro H. exact H. Qed.

Lemma keeps_nonneg_trans a b c :
  keeps_nonneg a b -> keeps_nonneg b c -> keeps_nonneg a c.
Proof. unfold keeps_nonneg. auto. Qed.

Lemma nonneg_update_users p f db :
  (forall x, In x (users db) -> p x = true -> 0 <= Users.credits x ->
             0 <= Users.credits (f x)) ->
  keeps_nonneg db (with_users (update_where p f) db).
Proof.
  intros Hf H. unfold credits_nonneg in *. simpl.
  apply Forall_update_where; auto.
Qed.

Lemma nonneg_insert_users u :
  0 <= Users.credits u -> respects keeps_nonneg (insert_users u).
Proof.
  intros Hu db H. unfold insert_users. run_monad.
  destruct (negb _ && negb _); simpl; [|exact H].
  unfold credits_nonneg in *. simpl.
  apply Forall_app. split; [exact H | constructor; auto].
Qed.

Lemma nonneg_canEarnCredits uid now :
  respects keeps_nonneg (canEarnCredits uid now).
Proof.
  pose proof keeps_nonneg_refl as R_refl.
  pose proof keeps_nonneg_trans as R_trans.
  unfold canEarnCredits.
  respects_walk ltac:(apply respects_modify; intro; apply nonneg_update_users;
                      intros; simpl; lia).
Qed.

Lemma nonneg_earnCredits uid now : respects keeps_nonneg (earnCredits uid now).
Proof.
  intros db H. unfold earnCredits, insert_creditTransactions. unfold_monad.
  cbn [CreditTransactions.userId].
  destruct (hasUser uid db); cbv beta iota; cbn [fst snd]; [|exact H].
  destruct (_ <=? INT4_MAX); cbv beta iota; cbn [fst snd]; [|exact H].
  apply (nonneg_update_users _ _
           (with_creditTransactions
              (fun l => l ++ [CreditTransactions.mk uid 2 "shortener_visit"]) db));
    [|exact H].
  cbn [Users.credits Users.set_credits Users.set_lastCreditReset users
       with_creditTransactions]. intros x _ _ _.
  destruct (filter (userById uid) (users db)) as [|u us] eqn:E; [lia|].
  apply filter_head_In in E. destruct E as [Hin _].
  unfold credits_nonneg in H. rewrite Forall_forall in H.
  specialize (H u Hin). lia.
Qed.

Lemma nonneg_spendCredit uid : respects keeps_nonneg (spendCredit uid).
Proof.
  intros db H. unfold spendCredit, insert_creditTransactions. run_monad.
  destruct (filter (userById uid) (users db)) as [|u us] eqn:E; [exact H|].
  destruct (Users.credits u <? 1) eqn:Hc; simpl; [exact H|].
  destruct (hasUser uid db); simpl; [|exact H].
  apply (nonneg_update_users _ _
           (with_creditTransactions
              (fun l => l ++ [CreditTransactions.mk uid (-1) "link_access"]) db));
    [|exact H].
  simpl. intros. apply Z.ltb_ge in Hc. lia.
Qed.

Lemma nonneg_insert_referrals r : respects keeps_nonneg (insert_referrals r).
Proof.
  intros db H. unfold insert_referrals. run_monad.
  destruct (_ && _); simpl; exact H.
Qed.

(** C5: for every account, the credit balance is greater than or equal to 0
    after any sequence of the balance-mutating operations (earn, spend, the
    cycle reset of canEarn, referral award, admin reset), started from a
    state where every balance is non-negative. *)
Theorem C5_balance_never_negative (ADMIN_IDS : list string) (evs : list Event) (db : DB) :
  credits_nonneg db -> credits_nonneg (run ADMIN_IDS evs db).
Proof.
  apply (respects_run ADMIN_IDS keeps_nonneg keeps_nonneg_refl keeps_nonneg_trans).
  - intros. apply nonneg_update_users. intros; simpl; assumption.
  - intros. apply nonneg_insert_users. simpl. lia.
  - intros f db0 H. exact H.
  - intros f db0 H. exact H.
  - intros f db0 H. exact H.
  - apply nonneg_canEarnCredits.
  - apply nonneg_earnCredits.
  - apply nonneg_spendCredit.
  - apply nonneg_insert_referrals.
  - intros. apply nonneg_update_users. intros; simpl; lia.
  - intros. apply nonneg_update_users. intros; simpl; lia.
Qed.

(** ** The credit transaction log *)

Lemma log_extends_refl db : log_extends db db.
Proof. exists []. rewrite app_nil_r. reflexivity. Qed.

Lemma log_extends_trans a b c :
  log_extends a b -> log_extends b c -> log_extends a c.
Proof.
  intros [x Hx] [y Hy]. exists (x ++ y).
  rewrite Hy, Hx, app_assoc. reflexivity.
Qed.

Lemma log_extends_same db db' :
  creditTransactions db' = creditTransactions db -> log_extends db db'.
Proof. intro H. exists []. rewrite app_nil_r. exact H. Qed.

Lemma log_insert_creditTransactions t :
  respects log_extends (insert_creditTransactions t).
Proof.
  intro db. unfold insert_creditTransactions. run_monad.
  destruct (hasUser _ db); simpl.
  - exists [t]. reflexivity.
  - apply log_extends_refl.
Qed.

Ltac log_leaf :=
  first
    [ apply log_insert_creditTransactions
    | apply respects_modify; intro; apply log_extends_same; reflexivity ].

Ltac log_walk :=
  pose proof log_extends_refl as R_refl;
  pose proof log_extends_trans as R_trans;
  respects_walk log_leaf.

Lemma log_canEarnCredits uid now : respects log_extends (canEarnCredits uid now).
Proof. unfold canEarnCredits. log_walk. Qed.

Lemma log_earnCredits uid now : respects log_extends (earnCredits uid now).
Proof. unfold earnCredits. log_walk. Qed.

Lemma log_spendCredit uid : respects log_extends (spendCredit uid).
Proof. unfold spendCredit. log_walk. Qed.

Lemma log_insert_users u : respects log_extends (insert_users u).
Proof. unfold insert_users. log_walk. Qed.

Lemma log_insert_referrals r : respects log_extends (insert_referrals r).
Proof. unfold insert_referrals. log_walk. Qed.

Lemma log_append_only ADMIN_IDS evs db :
  log_extends db (run ADMIN_IDS evs db).
Proof.
  apply (respects_run ADMIN_IDS log_extends log_extends_refl log_extends_trans);
    intros;
    first [ apply log_canEarnCredits | apply log_earnCredits
          | apply log_spendCredit | apply log_insert_users
          | apply log_insert_referrals
          | apply log_extends_same; reflexivity ].
Qed.

Lemma filter_update_where_comm {T} (q p : T -> bool) f l :
  (forall x, q (f x) = q x) ->
  filter q (update_where p f l) = update_where p f (filter q l).
Proof.
  intro Hq. unfold update_where.
  induction l as [|x l IH]; simpl; [reflexivity|].
  assert (E : q (if p x then f x else x) = q x)
    by (destruct (p x); [apply Hq | reflexivity]).
  rewrite E. destruct (q x); simpl; rewrite IH; reflexivity.
Qed.

Lemma balance_update_users uid acct f db :
  (forall x, Users.id (f x) = Users.id x) ->
  balance acct (with_users (update_where (userById uid) f) db) =
  match filter (userById acct) (users db) with
  | u :: _ => if (acct =? uid)%string then Users.credits (f u) else Users.credits u
  | [] => 0
  end.
Proof.
  intro Hid. unfold balance. simpl.
  rewrite filter_update_where_comm
    by (intro x; unfold userById; rewrite Hid; reflexivity).
  destruct (filter (userById acct) (users db)) as [|u us] eqn:E; simpl; [reflexivity|].
  apply filter_head_In in E. destruct E as [_ Hu].
  unfold userById in *. apply String.eqb_eq in Hu. rewrite Hu.
  destruct (acct =? uid)%string; reflexivity.
Qed.

Lemma logSum_append acct t db :
  logSum acct (with_creditTransactions (fun l => l ++ [t]) db) =
  logSum acct db
  + (if (CreditTransactions.userId t =? acct)%string
     then CreditTransactions.amount t else 0).
Proof.
  unfold logSum. simpl. rewrite filter_app, map_app. simpl.
  induction (map CreditTransactions.amount
               (filter (fun t0 => (CreditTransactions.userId t0 =? acct)%string)
                  (creditTransactions db))) as [|a l IH]; simpl.
  - destruct (_ =? _)%string; simpl; lia.
  - rewrite IH. lia.
Qed.

Lemma logSum_with_users acct f db :
  logSum acct (with_users f db) = logSum acct db.
Proof. reflexivity. Qed.

Lemma balance_with_creditTransactions acct f db :
  balance acct (with_creditTransactions f db) = balance acct db.
Proof. reflexivity. Qed.

(** [earnCredits] in closed form: it throws on the foreign key when the
    account does not exist; otherwise it logs, and then updates unless the
    new balance does not fit the column. *)
Lemma earnCredits_run uid now db :
  earnCredits uid now db =
  let user := filter (userById uid) (users db) in
  let newCredits := match user with u :: _ => Users.credits u | [] => 0 end + 2 in
  let logged :=
    with_creditTransactions
      (fun l => l ++ [CreditTransactions.mk uid 2 "shortener_visit"]) db in
  if hasUser uid db then
    if newCredits <=? INT4_MAX then
      (Ok newCredits,
       with_users
         (update_where (userById uid)
            (fun r => Users.set_lastCreditReset
                        (match user with
                         | u :: _ => match Users.lastCreditReset u with
                                     | Some t => Some t
                                     | None => Some now
                                     end
                         | [] => Some now
                         end)
                        (Users.set_credits newCredits r)))
         logged)
    else (Throw, logged)
  else (Throw, db).
Proof.
  unfold earnCredits, insert_creditTransactions. unfold_monad.
  cbn [CreditTransactions.userId].
  destruct (hasUser uid db); cbv beta iota zeta; [|reflexivity].
  destruct (_ <=? INT4_MAX); reflexivity.
Qed.

(** [spendCredit] in closed form. *)
Lemma spendCredit_run uid db :
  spendCredit uid db =
  match filter (userById uid) (users db) with
  | [] => (Ok (mkSpend false 0), db)
  | u :: _ =>
    if Users.credits u <? 1 then (Ok (mkSpend false (Users.credits u)), db)
    else
      (Ok (mkSpend true (Users.credits u - 1)),
       with_users
         (update_where (userById uid) (Users.set_credits (Users.credits u - 1)))
         (with_creditTransactions
            (fun l => l ++ [CreditTransactions.mk uid (-1) "link_access"]) db))
  end.
Proof.
  unfold spendCredit, insert_creditTransactions. run_monad.
  destruct (filter (userById uid) (users db)) as [|u us] eqn:E; [reflexivity|].
  destruct (Users.credits u <? 1); [reflexivity|].
  apply filter_head_existsb in E. unfold hasUser. rewrite E. reflexivity.
Qed.

(** [earnCredits] when the new balance fits: the entry is appended and the
    balance of the account rises by 2. *)
Lemma earnCredits_in_range uid now db u us :
  filter (userById uid) (users db) = u :: us ->
  Users.credits u + 2 <= INT4_MAX ->
  result (earnCredits uid now) db = Ok (Users.credits u + 2)
  /\ creditTransactions (exec (earnCredits uid now) db)
     = creditTransactions db ++ [CreditTransactions.mk uid 2 "shortener_visit"]
  /\ (forall acct,
        balance acct (exec (earnCredits uid now) db)
        = balance acct db + if (acct =? uid)%string then 2 else 0).
Proof.
  intros Hu Hfit.
  assert (HU : hasUser uid db = true) by (eapply filter_head_existsb; eauto).
  apply Z.leb_le in Hfit.
  unfold result, exec. rewrite earnCredits_run. cbv zeta. rewrite HU, Hu, Hfit.
  cbn [fst snd]. split; [reflexivity|]. split; [reflexivity|].
  intro acct. rewrite balance_update_users by reflexivity.
  cbn [users with_creditTransactions Users.credits Users.set_credits
       Users.set_lastCreditReset].
  unfold balance.
  destruct (String.eqb_spec acct uid) as [->|Hne].
  - rewrite Hu. reflexivity.
  - destruct (filter (userById acct) (users db)); lia.
Qed.

(** [earnCredits] at the limit of the column: the entry is appended, the
    update fails, and the account rows stay as they were. *)
Lemma earnCredits_out_of_range uid now db u us :
  filter (userById uid) (users db) = u :: us ->
  INT4_MAX < Users.credits u + 2 ->
  earnCredits uid now db
  = (Throw,
     with_creditTransactions
       (fun l => l ++ [CreditTransactions.mk uid 2 "shortener_visit"]) db).
Proof.
  intros Hu Hfit.
  assert (HU : hasUser uid db = true) by (eapply filter_head_existsb; eauto).
  apply Z.leb_gt in Hfit.
  rewrite earnCredits_run. cbv zeta. rewrite HU, Hu, Hfit. reflexivity.
Qed.

Lemma spendCredit_matches_log uid db acct :
  balance acct (exec (spendCredit uid) db) - balance acct db =
  logSum acct (exec (spendCredit uid) db) - logSum acct db.
Proof.
  unfold exec. rewrite spendCredit_run.
  destruct (filter (userById uid) (users db)) as [|u us] eqn:E; cbn [snd]; [lia|].
  destruct (Users.credits u <? 1); cbn [snd]; [lia|].
  rewrite balance_update_users by reflexivity.
  rewrite logSum_with_users, logSum_append. cbn [users with_creditTransactions
    CreditTransactions.userId CreditTransactions.amount Users.credits
    Users.set_credits].
  unfold balance.
  destruct (String.eqb_spec acct uid) as [->|Hne].
  - rewrite String.eqb_refl, E. lia.
  - assert (E' : (uid =? acct)%string = false)
      by (apply String.eqb_neq; congruence).
    rewrite E'. destruct (filter (userById acct) (users db)); lia.
Qed.

Lemma log_same_refl db : creditTransactions db = creditTransactions db.
Proof. reflexivity. Qed.

Lemma log_same_trans (a b c : DB) :
  creditTransactions b = creditTransactions a ->
  creditTransactions c = creditTransactions b ->
  creditTransactions c = creditTransactions a.
Proof. congruence. Qed.

Ltac log_same_walk :=
  pose proof log_same_refl as R_refl;
  pose proof log_same_trans as R_trans;
  respects_walk ltac:(apply respects_modify; intro; reflexivity).

Lemma canEarnCredits_logs_nothing uid now :
  respects (fun db db' => creditTransactions db' = creditTransactions db)
    (canEarnCredits uid now).
Proof. unfold canEarnCredits. log_same_walk. Qed.

Lemma reset_logs_nothing ADMIN_IDS from target now :
  respects (fun db db' => creditTransactions db' = creditTransactions db)
    (reset ADMIN_IDS from target now).
Proof. unfold reset, isAdmin. log_same_walk. Qed.

Lemma referralHandling_logs_nothing sp isNew u from :
  respects (fun db db' => creditTransactions db' = creditTransactions db)
    (referralHandling sp isNew u from).
Proof. unfold referralHandling, insert_referrals. log_same_walk. Qed.

(** C6 (as amended): the credit transaction log is append-only, no
    operation changes or removes an entry.  earn appends the entry
    (account, +2, shortener_visit) and, when the new balance fits the
    integer column, raises the balance of that account by 2 and no other;
    at the limit of the column the entry is appended all the same, the
    update of the balance fails, and the log runs ahead of the balance.
    spend, for a balance of at least 1, appends (account, -1, link_access)
    and lowers the balance by 1; it keeps the difference between balance
    and sum of entries on every state.  The balance is not in general that
    sum: the cycle reset of canEarn, the admin reset and the referral award
    write the balance and append nothing. *)
Theorem C6_log_append_only_earn_spend_match (ADMIN_IDS : list string) :
  (forall evs db, exists added,
      creditTransactions (run ADMIN_IDS evs db) = creditTransactions db ++ added)
  /\ (forall uid now db u us,
      filter (userById uid) (users db) = u :: us ->
      Users.credits u + 2 <= INT4_MAX ->
      result (earnCredits uid now) db = Ok (Users.credits u + 2)
      /\ creditTransactions (exec (earnCredits uid now) db)
         = creditTransactions db ++ [CreditTransactions.mk uid 2 "shortener_visit"]
      /\ (forall acct,
            balance acct (exec (earnCredits uid now) db)
            = balance acct db + if (acct =? uid)%string then 2 else 0))
  /\ (forall uid now db u us,
      filter (userById uid) (users db) = u :: us ->
      INT4_MAX < Users.credits u + 2 ->
      result (earnCredits uid now) db = Throw
      /\ creditTransactions (exec (earnCredits uid now) db)
         = creditTransactions db ++ [CreditTransactions.mk uid 2 "shortener_visit"]
      /\ users (exec (earnCredits uid now) db) = users db
      /\ logSum uid (exec (earnCredits uid now) db) = logSum uid db + 2)
  /\ (forall uid db u us,
      filter (userById uid) (users db) = u :: us ->
      1 <= Users.credits u ->
      creditTransactions (exec (spendCredit uid) db)
      = creditTransactions db ++ [CreditTransactions.mk uid (-1) "link_access"]
      /\ (forall acct,
            balance acct (exec (spendCredit uid) db)
            = balance acct db - if (acct =? uid)%string then 1 else 0))
  /\ (forall uid db acct,
      balance acct (exec (spendCredit uid) db) - balance acct db =
      logSum acct (exec (spendCredit uid) db) - logSum acct db)
  /\ (forall uid now db,
      creditTransactions (exec (canEarnCredits uid now) db) = creditTransactions db)
  /\ (forall from target now db,
      creditTransactions (exec (reset ADMIN_IDS from target now) db)
      = creditTransactions db)
  /\ (forall startParam isNew user from db,
      creditTransactions (exec (referralHandling startParam isNew user from) db)
      = creditTransactions db).
Proof.
  split; [|split; [|split; [|split; [|split; [|split; [|split]]]]]].
  - intros evs db. apply log_append_only.
  - intros. apply earnCredits_in_range with (us := us); assumption.
  - intros uid now db u us Hu Hfit.
    unfold result, exec.
    rewrite (earnCredits_out_of_range _ _ _ _ _ Hu Hfit). cbn [fst snd].
    split; [reflexivity|]. split; [reflexivity|]. split; [reflexivity|].
    rewrite logSum_append. cbn [CreditTransactions.userId CreditTransactions.amount].
    rewrite String.eqb_refl. reflexivity.
  - intros uid db u us Hu Hc. unfold exec. rewrite spendCredit_run, Hu.
    assert (E : (Users.credits u <? 1) = false) by (apply Z.ltb_ge; exact Hc).
    rewrite E. cbn [snd]. split; [reflexivity|].
    intro acct. rewrite balance_update_users by reflexivity.
    cbn [users with_creditTransactions Users.credits Users.set_credits].
    unfold balance.
    destruct (String.eqb_spec acct uid) as [->|Hne].
    + rewrite Hu. reflexivity.
    + destruct (filter (userById acct) (users db)); lia.
  - apply spendCredit_matches_log.
  - intros uid now db. apply canEarnCredits_logs_nothing.
  - intros from target now db. apply reset_logs_nothing.
  - intros sp isNew u from db. apply referralHandling_logs_nothing.
Qed.

(** ** canEarnCredits and spendCredit *)

Lemma remaining_hours_minutes rem :
  0 < rem ->
  let h := rem / (1000 * 60 * 60) in
  let m := Z.rem rem (1000 * 60 * 60) / (1000 * 60) in
  0 <= h /\ 0 <= m < 60
  /\ h * (1000 * 60 * 60) + m * (1000 * 60) <= rem
     < h * (1000 * 60 * 60) + m * (1000 * 60) + 1000 * 60.
Proof.
  intros Hrem h m. subst h m.
  rewrite Z.rem_mod_nonneg by lia.
  change (1000 * 60 * 60) with 3600000. change (1000 * 60) with 60000.
  pose proof (Z.div_mod rem 3600000 ltac:(lia)) as E1.
  pose proof (Z.mod_pos_bound rem 3600000 ltac:(lia)) as B1.
  pose proof (Z.div_mod (rem mod 3600000) 60000 ltac:(lia)) as E2.
  pose proof (Z.mod_pos_bound (rem mod 3600000) 60000 ltac:(lia)) as B2.
  pose proof (Z.div_pos rem 3600000 ltac:(lia) ltac:(lia)) as P1.
  pose proof (Z.div_pos (rem mod 3600000) 60000 ltac:(lia) ltac:(lia)) as P2.
  assert (rem mod 3600000 / 60000 < 60)
    by (apply Z.div_lt_upper_bound; lia).
  lia.
Qed.

(** C4: canEarn on an existing account.  If at least 12 hours have elapsed
    since lastCreditReset (an unset lastCreditReset counts as long ago), the
    balance is reset to 0, lastCreditReset is set to now (on the rows of
    the account and no other) and the result is allowed; otherwise, if the
    balance is at least 2, the result is blocked
    and the hours and minutes returned are 12 hours minus the elapsed time
    (cut to the minute), with no state change; otherwise the result is
    allowed with no state change. *)
Theorem C4_canEarn_cases (uid : Id) (now : Instant) (db : DB)
  (u : Users.row) (us : list Users.row) :
  filter (userById uid) (users db) = u :: us ->
  ((Users.lastCreditReset u = None
    \/ exists t, Users.lastCreditReset u = Some t /\ 12 * HOUR_MS <= now - t) ->
   canEarnCredits uid now db =
   (Ok (mkCanEarn true None None),
    with_users
      (update_where (userById uid)
         (fun r => Users.set_lastCreditReset (Some now) (Users.set_credits 0 r)))
      db)
   /\ balance uid (exec (canEarnCredits uid now) db) = 0
   /\ (exists u' us',
         filter (userById uid) (users (exec (canEarnCredits uid now) db)) = u' :: us'
         /\ Forall (fun x => Users.lastCreditReset x = Some now /\ Users.credits x = 0)
              (u' :: us'))
   /\ filter (fun x => negb (userById uid x)) (users (exec (canEarnCredits uid now) db))
      = filter (fun x => negb (userById uid x)) (users db))
  /\ (forall t, Users.lastCreditReset u = Some t -> now - t < 12 * HOUR_MS ->
      2 <= Users.credits u ->
      exists h m,
        canEarnCredits uid now db = (Ok (mkCanEarn false (Some h) (Some m)), db)
        /\ 0 <= h /\ 0 <= m < 60
        /\ h * HOUR_MS + m * (1000 * 60) <= 12 * HOUR_MS - (now - t)
           < h * HOUR_MS + m * (1000 * 60) + 1000 * 60)
  /\ (forall t, Users.lastCreditReset u = Some t -> now - t < 12 * HOUR_MS ->
      Users.credits u < 2 ->
      canEarnCredits uid now db = (Ok (mkCanEarn true None None), db)).
Proof.
  intro Hu. split; [|split].
  - intro Hel.
    assert (E : canEarnCredits uid now db =
      (Ok (mkCanEarn true None None),
       with_users
         (update_where (userById uid)
            (fun r => Users.set_lastCreditReset (Some now) (Users.set_credits 0 r)))
         db)).
    { unfold canEarnCredits. unfold_monad. rewrite Hu.
      destruct Hel as [Hn | [t [Ht Hge]]].
      - rewrite Hn. reflexivity.
      - rewrite Ht. apply Z.leb_le in Hge. rewrite Hge. reflexivity. }
    split; [exact E|].
    unfold exec. rewrite E. cbn [snd].
    split.
    { rewrite balance_update_users by reflexivity.
      rewrite Hu, String.eqb_refl. reflexivity. }
    cbn [users with_users]. split.
    + rewrite filter_update_where_comm by reflexivity. rewrite Hu.
      assert (HF : forall l, Forall (fun y => userById uid y = true) l ->
                Forall (fun x => Users.lastCreditReset x = Some now
                                 /\ Users.credits x = 0)
                  (update_where (userById uid)
                     (fun r => Users.set_lastCreditReset (Some now)
                                 (Users.set_credits 0 r)) l)).
      { induction 1 as [|y l Hy _ IH]; [constructor|].
        unfold update_where. cbn [map]. rewrite Hy.
        constructor; [split; reflexivity | exact IH]. }
      assert (Hall : Forall (fun y => userById uid y = true) (u :: us)).
      { rewrite <- Hu. apply Forall_forall. intros y Hy.
        apply filter_In in Hy. apply Hy. }
      specialize (HF _ Hall). unfold update_where in *. cbn [map] in *.
      eexists _, _. split; [reflexivity | exact HF].
    + unfold update_where. generalize (users db) as l. clear Hu E Hel.
      induction l as [|x xs IH]; [reflexivity|].
      cbn [map filter]. rewrite IH. destruct (userById uid x) eqn:Ex.
      * change (userById uid (Users.set_lastCreditReset (Some now)
                               (Users.set_credits 0 x)))
          with (userById uid x). rewrite Ex. reflexivity.
      * rewrite Ex. reflexivity.
  - intros t Ht Hlt Hc.
    exists ((12 * 60 * 60 * 1000 - (now - t)) / (1000 * 60 * 60)),
           (Z.rem (12 * 60 * 60 * 1000 - (now - t)) (1000 * 60 * 60) / (1000 * 60)).
    split.
    + unfold canEarnCredits. unfold_monad. rewrite Hu, Ht.
      apply Z.leb_gt in Hlt. rewrite Hlt.
      apply Z.leb_le in Hc. rewrite Hc. reflexivity.
    + unfold HOUR_MS in *.
      pose proof (remaining_hours_minutes (12 * 60 * 60 * 1000 - (now - t))
                    ltac:(lia)) as H.
      cbv zeta in H. lia.
  - intros t Ht Hlt Hc.
    unfold canEarnCredits. unfold_monad. rewrite Hu, Ht.
    apply Z.leb_gt in Hlt. rewrite Hlt.
    apply Z.leb_gt in Hc. rewrite Hc. reflexivity.
Qed.

(** C8 (as amended): spend on an existing account fails (success=false)
    exactly when the balance is less than 1, and then changes nothing and
    returns the current balance as an ordinary result; otherwise it appends
    a -1 credit transaction whose reason is "link_access", decrements the
    cached balance by exactly 1 and returns the new balance. *)
Theorem C8_spend_result (uid : Id) (db : DB) (u : Users.row) (us : list Users.row) :
  filter (userById uid) (users db) = u :: us ->
  (Users.credits u < 1 ->
   spendCredit uid db = (Ok (mkSpend false (Users.credits u)), db))
  /\ (1 <= Users.credits u ->
      result (spendCredit uid) db = Ok (mkSpend true (Users.credits u - 1))
      /\ creditTransactions (exec (spendCredit uid) db) =
         creditTransactions db ++ [CreditTransactions.mk uid (-1) "link_access"]
      /\ balance uid (exec (spendCredit uid) db) = balance uid db - 1).
Proof.
  intro Hu. unfold result, exec. rewrite spendCredit_run, Hu. split.
  - intro Hc. apply Z.ltb_lt in Hc. rewrite Hc. reflexivity.
  - intro Hc. apply Z.ltb_ge in Hc. rewrite Hc. cbn [fst snd].
    split; [reflexivity|]. split; [reflexivity|].
    rewrite balance_update_users by reflexivity.
    unfold balance. cbn [users with_creditTransactions].
    rewrite Hu, String.eqb_refl. reflexivity.
Qed.

(** ** Resolving the requester *)

Lemma update_where_none {T} (f : T -> T) l :
  update_where (fun _ => false) f l = l.
Proof. unfold update_where. induction l; simpl; congruence. Qed.

Lemma renamed_refl db : renamed db db.
Proof.
  exists (fun _ => false), EmptyString. unfold with_users.
  rewrite update_where_none. destruct db; reflexivity.
Qed.

Lemma existsb_update_where {T} (q p : T -> bool) f l :
  (forall x, q (f x) = q x) ->
  existsb q (update_where p f l) = existsb q l.
Proof.
  intro Hq. unfold update_where.
  induction l as [|x l IH]; simpl; [reflexivity|].
  rewrite IH. destruct (p x); [rewrite Hq|]; reflexivity.
Qed.

Lemma renamed_hasUser db db' uid :
  renamed db db' -> hasUser uid db' = hasUser uid db.
Proof.
  intros (p & n & ->). unfold hasUser. simpl.
  apply existsb_update_where. reflexivity.
Qed.

Lemma renamed_select_users db db' q :
  (forall n x, q (Users.set_displayName n x) = q x) ->
  renamed db db' ->
  exists p n,
    filter q (users db') =
    update_where p (Users.set_displayName n) (filter q (users db)).
Proof.
  intros Hq (p & n & ->). exists p, n. simpl.
  apply filter_update_where_comm. apply Hq.
Qed.

Lemma renamed_resolves db db' from uid :
  renamed db db' -> resolves from uid db -> resolves from uid db'.
Proof.
  intros Hr (e & es & E & Hid).
  destruct (renamed_select_users db db' (userByUsername from)
              ltac:(reflexivity) Hr) as (p & n & Hf).
  rewrite E in Hf. simpl in Hf.
  eexists _, _. split; [exact Hf|].
  destruct (p e); simpl; exact Hid.
Qed.

Lemma resolves_hasUser from uid db : resolves from uid db -> hasUser uid db = true.
Proof.
  intros (e & es & E & Hid). apply filter_head_In in E. destruct E as [Hin _].
  unfold hasUser. apply existsb_exists. exists e. split; [exact Hin|].
  unfold userById. rewrite Hid. apply String.eqb_refl.
Qed.

Lemma getOrCreateUser_resolves ADMIN_IDS from fn fu db uid :
  resolves from uid db ->
  exists e db',
    getOrCreateUser ADMIN_IDS from fn fu db = (Ok (e, false), db')
    /\ Users.id e = uid /\ renamed db db'.
Proof.
  intros (e & es & E & Hid). unfold getOrCreateUser. unfold_monad. rewrite E.
  destruct (negb (Users.displayName e =? EmptyString)%string
            && startsWith "Admin_" (Users.displayName e)).
  - eexists _, _. split; [reflexivity|]. split; [exact Hid|].
    eexists _, _. reflexivity.
  - exists e, db. split; [reflexivity|]. split; [exact Hid | apply renamed_refl].
Qed.

(** ** Checking a token, in closed form *)

(** What [checkverify] does when the sender is the owner of the token. *)
Lemma checkverify_owner ADMIN_IDS from fn tok now fu db v vs :
  resolves from (MovieVerifications.userId v) db ->
  filter (movieTokenIs tok) (movieVerifications db) = v :: vs ->
  exists db0, renamed db db0 /\
    checkverify ADMIN_IDS from fn tok now fu db =
    if HOUR_MS <? now - MovieVerifications.createdAt v then
      (Ok VR_ExpiredHourLimit,
       with_movieVerifications
         (update_where (movieTokenIs tok) (MovieVerifications.set_status Expired)) db0)
    else
      match MovieVerifications.status v with
      | Pending => (Ok VR_CompleteFirst, db0)
      | Expired => (Ok VR_Expired, db0)
      | Used => (Ok VR_AlreadyUsed, db0)
      | Verified =>
        match filter (fun m => (Movies.id m =? MovieVerifications.movieId v)%string)
                (movies db) with
        | [] => (Ok VR_MovieNotFound, db0)
        | m :: _ =>
          (Ok (VR_Granted (sendMovieContent m false (mkValidity true 12 0))),
           with_movieVerifications
             (update_where (movieTokenIs tok) (MovieVerifications.set_status Used))
             (with_movieAccess
                (grantOrRenew (MovieVerifications.userId v) (Movies.id m) now) db0))
        end
      end.
Proof.
  intros Hres Hv.
  destruct (getOrCreateUser_resolves ADMIN_IDS from fn fu db _ Hres)
    as (e & db0 & E & Hid & Hren).
  exists db0. split; [exact Hren|].
  pose proof (renamed_hasUser _ _ (MovieVerifications.userId v) Hren) as HU.
  rewrite (resolves_hasUser _ _ _ Hres) in HU.
  destruct Hren as (p & n & ->).
  unfold checkverify. unfold_monad. rewrite E. cbn [movieVerifications with_users].
  rewrite Hv, Hid, String.eqb_refl. cbn [negb].
  destruct (HOUR_MS <? now - MovieVerifications.createdAt v); [reflexivity|].
  destruct (MovieVerifications.status v); try reflexivity.
  cbn [movies with_users].
  destruct (filter (fun m => (Movies.id m =? MovieVerifications.movieId v)%string)
              (movies db)) as [|m ms] eqn:Em; [reflexivity|].
  cbn [movieAccess with_users].
  unfold grantOrRenew, with_movieAccess at 2. cbn [movieAccess with_users].
  destruct (filter (accessOf (MovieVerifications.userId v) (Movies.id m))
              (movieAccess db)) as [|a al] eqn:Ea.
  - unfold insert_movieAccess. unfold_monad.
    cbn [MovieAccess.userId MovieAccess.movieId].
    rewrite HU.
    assert (HM : hasMovie (Movies.id m)
                   (with_users (update_where p (Users.set_displayName n)) db) = true).
    { unfold hasMovie. cbn [movies with_users].
      apply existsb_exists. exists m.
      apply filter_head_In in Em. destruct Em as [Hin _].
      split; [exact Hin | apply String.eqb_refl]. }
    rewrite HM. reflexivity.
  - reflexivity.
Qed.

(** ** Existing accounts *)

Lemma getOrCreateUser_existing ADMIN_IDS from fn fu db e es :
  filter (userByUsername from) (users db) = e :: es ->
  getOrCreateUser ADMIN_IDS from fn fu db =
  (Ok (touchedRow e fn, false), touchUser e fn db).
Proof.
  intro E. unfold getOrCreateUser, touchedRow, touchUser. unfold_monad. rewrite E.
  destruct (negb (Users.displayName e =? EmptyString)%string
            && startsWith "Admin_" (Users.displayName e)); reflexivity.
Qed.

Lemma touchedRow_id e n : Users.id (touchedRow e n) = Users.id e.
Proof. unfold touchedRow. destruct (_ && _); reflexivity. Qed.

Lemma touchUser_renamed e n db : renamed db (touchUser e n db).
Proof.
  unfold touchUser. destruct (_ && _).
  - eexists _, _. reflexivity.
  - apply renamed_refl.
Qed.

Lemma touchUser_tables e n db :
  movies (touchUser e n db) = movies db
  /\ movieAssets (touchUser e n db) = movieAssets db
  /\ movieAccess (touchUser e n db) = movieAccess db
  /\ movieVerifications (touchUser e n db) = movieVerifications db
  /\ creditVerifications (touchUser e n db) = creditVerifications db
  /\ creditTransactions (touchUser e n db) = creditTransactions db
  /\ referrals (touchUser e n db) = referrals db.
Proof. unfold touchUser. destruct (_ && _); repeat split; reflexivity. Qed.

Lemma isPremiumUser_run uid now db u us :
  filter (userById uid) (users db) = u :: us ->
  isPremiumUser uid now db = (Ok (premiumActive u now), db).
Proof.
  intro E. unfold isPremiumUser, premiumActive. unfold_monad. rewrite E.
  destruct (negb (Users.isPremium u)); [reflexivity|].
  destruct (Users.premiumExpiresAt u) as [x|]; [|reflexivity].
  destruct (x <? now); reflexivity.
Qed.

Lemma renamed_filter_head db db' q e es :
  (forall n x, q (Users.set_displayName n x) = q x) ->
  renamed db db' ->
  filter q (users db) = e :: es ->
  exists e' es', filter q (users db') = e' :: es'
    /\ (e' = e \/ exists n, e' = Users.set_displayName n e).
Proof.
  intros Hq Hr E.
  destruct (renamed_select_users db db' q Hq Hr) as (p & n & Hf).
  rewrite E in Hf. simpl in Hf. eexists _, _. split; [exact Hf|].
  destruct (p e); [right; exists n|left]; reflexivity.
Qed.

Lemma isAdmin_run ADMIN_IDS from db db' e es :
  filter (userByUsername from) (users db) = e :: es ->
  renamed db db' ->
  isAdmin ADMIN_IDS from db' =
  (Ok (includes ADMIN_IDS from || Role_eqb (Users.role e) RoleAdmin), db').
Proof.
  intros E Hr. unfold isAdmin.
  destruct (includes ADMIN_IDS from); [reflexivity|].
  unfold_monad.
  destruct (renamed_filter_head db db' (userByUsername from) _ _
              ltac:(reflexivity) Hr E) as (e' & es' & -> & [-> | [n ->]]);
    reflexivity.
Qed.

(** ** The request path for an existing account, in closed form *)

Lemma find_hasMovie pre db movie :
  find (fun m => startsWith pre (Movies.id m)) (movies db) = Some movie ->
  hasMovie (Movies.id movie) db = true.
Proof.
  intro H. apply find_some in H. destruct H as [Hin _].
  unfold hasMovie. apply existsb_exists. exists movie.
  split; [exact Hin | apply String.eqb_refl].
Qed.

Lemma filter_head_hasUser uid db u us :
  filter (userById uid) (users db) = u :: us -> hasUser uid db = true.
Proof. apply filter_head_existsb. Qed.

Lemma getlink_existing ADMIN_IDS from fn pre now fu tok url db e es es' :
  filter (userByUsername from) (users db) = e :: es ->
  filter (userById (Users.id e)) (users db) = e :: es' ->
  getlink ADMIN_IDS from fn pre now fu tok url db =
  let db0 := touchUser e fn db in
  let uid := Users.id e in
  let userIsAdmin := includes ADMIN_IDS from || Role_eqb (Users.role e) RoleAdmin in
  match find (fun m => startsWith pre (Movies.id m)) (movies db) with
  | None => (Ok GL_NotFound, db0)
  | Some movie =>
    let existingAccess := filter (accessOf uid (Movies.id movie)) (movieAccess db) in
    let hasAccess := match existingAccess with [] => false | _ :: _ => true end in
    let accessValidity :=
      match existingAccess with
      | a :: _ => isAccessValid now (MovieAccess.unlockedAt a)
      | [] => mkValidity false 0 0
      end in
    if negb userIsAdmin && negb (valid accessValidity)
       && negb (MovieStatus_eqb (Movies.status movie) Published)
    then (Ok GL_NotAvailable, db0)
    else
      let assets := filter (fun a => (MovieAssets.movieId a =? Movies.id movie)%string)
                      (movieAssets db) in
      let hasFiles := existsb (fun a => includes fileTypes (MovieAssets.assetType a)) assets in
      let hasLinks := existsb (fun a => (MovieAssets.assetType a =? "link")%string) assets
                      || (0 <? Z.of_nat (List.length (Movies.links movie))) in
      if negb hasFiles && negb hasLinks then (Ok GL_NoContent, db0)
      else if userIsAdmin then
        (Ok (GL_Content false (sendMovieContent movie true (mkValidity true 12 0))), db0)
      else if premiumActive e now then
        (Ok (GL_Content true (sendMovieContent movie false (mkValidity true 12 0))),
         if valid accessValidity then db0
         else with_movieAccess (grantOrRenew uid (Movies.id movie) now) db0)
      else if valid accessValidity then
        (Ok (GL_Content false (sendMovieContent movie false accessValidity)), db0)
      else if existsb (movieTokenIs tok) (movieVerifications db) then (Throw, db0)
      else
        (Ok match url with
            | None => GL_LinkError
            | Some u => GL_Verify tok u hasAccess
            end,
         with_movieVerifications
           (fun l => l ++ [MovieVerifications.mk uid (Movies.id movie) tok Pending now])
           db0)
  end.
Proof.
  intros Hname Hid. cbv zeta.
  pose proof (touchUser_renamed e fn db) as Hren.
  pose proof (touchUser_tables e fn db) as (Tm & Tas & Tac & Tmv & _).
  assert (HU : hasUser (Users.id e) (touchUser e fn db) = true).
  { rewrite (renamed_hasUser _ _ _ Hren). eapply filter_head_hasUser; eauto. }
  assert (HP : isPremiumUser (Users.id e) now (touchUser e fn db)
               = (Ok (premiumActive e now), touchUser e fn db)).
  { destruct (renamed_filter_head db _ (userById (Users.id e)) _ _
                ltac:(reflexivity) Hren Hid) as (e' & es2 & E' & He').
    rewrite (isPremiumUser_run _ _ _ _ _ E').
    destruct He' as [-> | [n ->]]; reflexivity. }
  unfold getlink.
  unfold bind at 1. rewrite (getOrCreateUser_existing _ _ _ _ _ _ _ Hname).
  rewrite touchedRow_id.
  unfold bind at 1. rewrite (isAdmin_run _ _ _ _ _ _ Hname Hren).
  unfold bind at 1. unfold gets at 1. rewrite Tm.
  destruct (find (fun m => startsWith pre (Movies.id m)) (movies db)) as [movie|] eqn:Ef;
    [|reflexivity].
  assert (HM : hasMovie (Movies.id movie) (touchUser e fn db) = true).
  { unfold hasMovie. rewrite Tm. eapply find_hasMovie; eauto. }
  unfold bind at 1. unfold select at 1, gets at 1. rewrite Tac.
  destruct (filter (accessOf (Users.id e) (Movies.id movie)) (movieAccess db))
    as [|a al] eqn:Ea.
  - (* no access row *)
    cbn [valid negb andb].
    destruct (negb (includes ADMIN_IDS from || Role_eqb (Users.role e) RoleAdmin)
              && true && negb (MovieStatus_eqb (Movies.status movie) Published));
      [reflexivity|].
    unfold bind at 1. unfold select at 1, gets at 1. rewrite Tas.
    destruct (negb _ && negb _); [reflexivity|].
    destruct (includes ADMIN_IDS from || Role_eqb (Users.role e) RoleAdmin);
      [reflexivity|].
    unfold bind at 1. rewrite HP.
    destruct (premiumActive e now).
    + unfold insert_movieAccess. unfold_monad.
      cbn [MovieAccess.userId MovieAccess.movieId].
      rewrite HU, HM. cbn [andb].
      unfold with_movieAccess, grantOrRenew. rewrite Tac, Ea. reflexivity.
    + unfold insert_movieVerifications. unfold_monad.
      cbn [MovieVerifications.userId MovieVerifications.movieId
           MovieVerifications.token].
      rewrite HU, HM, Tmv. cbn [andb].
      change (fun r => (MovieVerifications.token r =? tok)%string)
        with (movieTokenIs tok).
      destruct (existsb (movieTokenIs tok) (movieVerifications db)); cbn [negb];
        [reflexivity|].
      destruct url; reflexivity.
  - (* an access row exists *)
    destruct (negb (includes ADMIN_IDS from || Role_eqb (Users.role e) RoleAdmin)
              && negb (valid (isAccessValid now (MovieAccess.unlockedAt a)))
              && negb (MovieStatus_eqb (Movies.status movie) Published));
      [reflexivity|].
    unfold bind at 1. unfold select at 1, gets at 1. rewrite Tas.
    destruct (negb _ && negb _); [reflexivity|].
    destruct (includes ADMIN_IDS from || Role_eqb (Users.role e) RoleAdmin);
      [reflexivity|].
    unfold bind at 1. rewrite HP.
    destruct (premiumActive e now).
    + destruct (valid (isAccessValid now (MovieAccess.unlockedAt a))); cbn [negb].
      * reflexivity.
      * unfold_monad.
        unfold with_movieAccess, grantOrRenew. rewrite Tac, Ea. reflexivity.
    + destruct (valid (isAccessValid now (MovieAccess.unlockedAt a))); [reflexivity|].
      unfold insert_movieVerifications. unfold_monad.
      cbn [MovieVerifications.userId MovieVerifications.movieId
           MovieVerifications.token].
      rewrite HU, HM, Tmv. cbn [andb].
      change (fun r => (MovieVerifications.token r =? tok)%string)
        with (movieTokenIs tok).
      destruct (existsb (movieTokenIs tok) (movieVerifications db)); cbn [negb];
        [reflexivity|].
      destruct url; reflexivity.
Qed.

(** ** Token status *)

Lemma renamed_tables db db' :
  renamed db db' ->
  movies db' = movies db
  /\ movieAccess db' = movieAccess db
  /\ movieVerifications db' = movieVerifications db
  /\ creditVerifications db' = creditVerifications db
  /\ creditTransactions db' = creditTransactions db
  /\ referrals db' = referrals db.
Proof. intros (p & n & ->). repeat split; reflexivity. Qed.

Lemma balance_update_same p f db uid :
  (forall x, Users.id (f x) = Users.id x) ->
  (forall x, Users.credits (f x) = Users.credits x) ->
  balance uid (with_users (update_where p f) db) = balance uid db.
Proof.
  intros Hid Hc. unfold balance. simpl.
  rewrite filter_update_where_comm
    by (intro x; unfold userById; rewrite Hid; reflexivity).
  destruct (filter (userById uid) (users db)) as [|u us]; simpl; [reflexivity|].
  destruct (p u); [apply Hc | reflexivity].
Qed.

Lemma renamed_balance db db' uid :
  renamed db db' -> balance uid db' = balance uid db.
Proof.
  intros (p & n & ->). apply balance_update_same; reflexivity.
Qed.

Lemma renamed_credits db db' :
  renamed db db' -> map Users.credits (users db') = map Users.credits (users db).
Proof.
  intros (p & n & ->). simpl. unfold update_where. rewrite map_map.
  apply map_ext. intro u. destruct (p u); reflexivity.
Qed.

Lemma movie_status_after_update tok s l v vs :
  filter (movieTokenIs tok) l = v :: vs ->
  filter (movieTokenIs tok)
    (update_where (movieTokenIs tok) (MovieVerifications.set_status s) l) =
  MovieVerifications.set_status s v
  :: update_where (movieTokenIs tok) (MovieVerifications.set_status s) vs.
Proof.
  intro E. rewrite filter_update_where_comm by reflexivity.
  rewrite E. simpl.
  apply filter_head_In in E. destruct E as [_ ->]. reflexivity.
Qed.

Lemma credit_status_after_update tok s l v vs :
  filter (creditTokenIs tok) l = v :: vs ->
  filter (creditTokenIs tok)
    (update_where (creditTokenIs tok) (CreditVerifications.set_status s) l) =
  CreditVerifications.set_status s v
  :: update_where (creditTokenIs tok) (CreditVerifications.set_status s) vs.
Proof.
  intro E. rewrite filter_update_where_comm by reflexivity.
  rewrite E. simpl.
  apply filter_head_In in E. destruct E as [_ ->]. reflexivity.
Qed.

(** What [checkcredit] does when the sender is the owner of the token. *)
Lemma checkcredit_owner ADMIN_IDS from fn tok now fu db v vs :
  resolves from (CreditVerifications.userId v) db ->
  filter (creditTokenIs tok) (creditVerifications db) = v :: vs ->
  exists db0, renamed db db0 /\
    checkcredit ADMIN_IDS from fn tok now fu db =
    if HOUR_MS <? now - CreditVerifications.createdAt v then
      (Ok CR_ExpiredHourLimit,
       with_creditVerifications
         (update_where (creditTokenIs tok) (CreditVerifications.set_status Expired)) db0)
    else
      match CreditVerifications.status v with
      | Pending => (Ok CR_CompleteFirst, db0)
      | Expired => (Ok CR_Expired, db0)
      | Used => (Ok CR_AlreadyClaimed, db0)
      | Verified =>
        if balance (CreditVerifications.userId v) db0 + 2 <=? INT4_MAX then
          (Ok (CR_Credited (balance (CreditVerifications.userId v) db0 + 2)),
           with_creditVerifications
             (update_where (creditTokenIs tok) (CreditVerifications.set_status Used))
             (exec (earnCredits (CreditVerifications.userId v) now) db0))
        else (Throw, exec (earnCredits (CreditVerifications.userId v) now) db0)
      end.
Proof.
  intros Hres Hv.
  destruct (getOrCreateUser_resolves ADMIN_IDS from fn fu db _ Hres)
    as (e & db0 & E & Hid & Hren).
  exists db0. split; [exact Hren|].
  pose proof (renamed_hasUser _ _ (CreditVerifications.userId v) Hren) as HU.
  rewrite (resolves_hasUser _ _ _ Hres) in HU.
  destruct (renamed_tables _ _ Hren) as (_ & _ & _ & Tcv & _).
  unfold checkcredit.
  unfold bind at 1. rewrite E.
  unfold bind at 1. unfold select at 1, gets at 1. rewrite Tcv, Hv, Hid.
  rewrite String.eqb_refl. cbn [negb].
  destruct (HOUR_MS <? now - CreditVerifications.createdAt v); [reflexivity|].
  destruct (CreditVerifications.status v); try reflexivity.
  unfold bind at 1. unfold exec. rewrite earnCredits_run. cbv zeta. rewrite HU.
  unfold balance. destruct (_ <=? INT4_MAX); reflexivity.
Qed.

(** ** Checks and claims of verification tokens *)

(** C1 (as amended): a check, by its owner, of a verification token whose
    status is used returns already_used and leaves the status used as long
    as no more than 1 hour has passed since the token was created; a later
    check returns expired and sets the status to expired, although the
    token was used.  Either way the token never returns to pending or
    verified and no grant or credit is applied again.  The same holds for
    content-unlock and credit-grant tokens. *)
Theorem C1_check_of_used_token (ADMIN_IDS : list string)
  (from fn : string) (now : Instant) (fu : Id) (db : DB) :
  (forall tok (v : MovieVerifications.row) vs,
      resolves from (MovieVerifications.userId v) db ->
      filter (movieTokenIs tok) (movieVerifications db) = v :: vs ->
      MovieVerifications.status v = Used ->
      let late := HOUR_MS <? now - MovieVerifications.createdAt v in
      let db' := exec (checkverify ADMIN_IDS from fn tok now fu) db in
      result (checkverify ADMIN_IDS from fn tok now fu) db
      = Ok (if late then VR_ExpiredHourLimit else VR_AlreadyUsed)
      /\ movieTokenStatus tok db' = Some (if late then Expired else Used)
      /\ movieAccess db' = movieAccess db)
  /\ (forall tok (w : CreditVerifications.row) ws,
      resolves from (CreditVerifications.userId w) db ->
      filter (creditTokenIs tok) (creditVerifications db) = w :: ws ->
      CreditVerifications.status w = Used ->
      let late := HOUR_MS <? now - CreditVerifications.createdAt w in
      let db' := exec (checkcredit ADMIN_IDS from fn tok now fu) db in
      result (checkcredit ADMIN_IDS from fn tok now fu) db
      = Ok (if late then CR_ExpiredHourLimit else CR_AlreadyClaimed)
      /\ creditTokenStatus tok db' = Some (if late then Expired else Used)
      /\ creditTransactions db' = creditTransactions db
      /\ (forall uid, balance uid db' = balance uid db)).
Proof.
  split.
  - intros tok v vs Hr Hv Hs late db'.
    destruct (checkverify_owner ADMIN_IDS from fn tok now fu db v vs Hr Hv)
      as (d & Hren & E).
    destruct (renamed_tables _ _ Hren) as (_ & Tac & Tmv & _).
    subst db'. unfold result, exec. rewrite E, Hs. fold late.
    unfold movieTokenStatus.
    destruct late; cbn [fst snd movieVerifications with_movieVerifications
      movieAccess];
      rewrite Tmv, ?(movie_status_after_update _ _ _ _ _ Hv), ?Hv, ?Hs;
      repeat split; try reflexivity; exact Tac.
  - intros tok w ws Hr Hw Hs late db'.
    destruct (checkcredit_owner ADMIN_IDS from fn tok now fu db w ws Hr Hw)
      as (d & Hren & E).
    destruct (renamed_tables _ _ Hren) as (_ & _ & _ & Tcv & Tct & _).
    subst db'. unfold result, exec. rewrite E, Hs. fold late.
    unfold creditTokenStatus.
    destruct late; cbn [fst snd creditVerifications with_creditVerifications
      creditTransactions];
      rewrite Tcv, ?(credit_status_after_update _ _ _ _ _ Hw), ?Hw, ?Hs;
      repeat split; try reflexivity; try exact Tct; intro uid;
      rewrite <- (renamed_balance _ _ uid Hren); reflexivity.
Qed.

(** After a grant or renewal the pair has a grant, and every grant of the
    pair is stamped with the instant of the call. *)
Lemma grantOrRenew_fresh uid mid now l :
  exists a al,
    filter (accessOf uid mid) (grantOrRenew uid mid now l) = a :: al
    /\ Forall (fun x => MovieAccess.unlockedAt x = now) (a :: al).
Proof.
  unfold grantOrRenew.
  destruct (filter (accessOf uid mid) l) as [|a al] eqn:E.
  - rewrite filter_app, E. simpl.
    unfold accessOf. simpl. rewrite !String.eqb_refl. simpl.
    eexists _, _. split; [reflexivity|]. constructor; [reflexivity | constructor].
  - rewrite filter_update_where_comm by reflexivity. rewrite E.
    assert (H : Forall (fun x => MovieAccess.unlockedAt x = now)
                  (update_where (accessOf uid mid) (MovieAccess.set_unlockedAt now)
                     (a :: al))).
    { apply Forall_forall. intros x Hx. unfold update_where in Hx.
      apply in_map_iff in Hx. destruct Hx as (y & <- & Hy).
      assert (Hin : In y (filter (accessOf uid mid) l)) by (rewrite E; exact Hy).
      apply filter_In in Hin. destruct Hin as [_ ->]. reflexivity. }
    simpl in *. eexists _, _. split; [reflexivity | exact H].
Qed.

(** A grant or renewal leaves the grants of the other accounts and movies
    as they are. *)
Lemma grantOrRenew_others uid mid now l :
  filter (fun a => negb (accessOf uid mid a)) (grantOrRenew uid mid now l)
  = filter (fun a => negb (accessOf uid mid a)) l.
Proof.
  unfold grantOrRenew.
  destruct (filter (accessOf uid mid) l) as [|a al].
  - rewrite filter_app. cbn [filter]. unfold accessOf at 2.
    cbn [MovieAccess.userId MovieAccess.movieId]. rewrite !String.eqb_refl.
    cbn [andb negb]. apply app_nil_r.
  - unfold update_where. induction l as [|x xs IH]; [reflexivity|].
    cbn [map filter]. rewrite IH. destruct (accessOf uid mid x) eqn:E.
    + change (accessOf uid mid (MovieAccess.set_unlockedAt now x))
        with (accessOf uid mid x). rewrite E. reflexivity.
    + rewrite E. reflexivity.
Qed.

(** C2: a content-unlock token is marked verified and its owner claims it
    twice in succession, both times within 1 hour of the token's creation.
    The first claim delivers the movie and grants access: afterwards the
    owner has a grant for the movie, every grant of that pair is unlocked
    at the instant of the claim and so valid for the next 12 hours, and no
    other grant has changed (one row is added when there was none); the
    token is used.  The second claim is answered already-used and changes
    neither the access table, nor the tokens, nor any credit. *)
Theorem C2_double_claim (ADMIN_IDS : list string)
  (from fn1 fn2 tok : string) (now1 now2 : Instant) (fu1 fu2 : Id) (db : DB)
  (v : MovieVerifications.row) (vs : list MovieVerifications.row)
  (m : Movies.row) (ms : list Movies.row) :
  resolves from (MovieVerifications.userId v) db ->
  filter (movieTokenIs tok) (movieVerifications db) = v :: vs ->
  MovieVerifications.status v = Verified ->
  filter (fun x => (Movies.id x =? MovieVerifications.movieId v)%string) (movies db)
  = m :: ms ->
  now1 - MovieVerifications.createdAt v <= HOUR_MS ->
  now2 - MovieVerifications.createdAt v <= HOUR_MS ->
  let uid := MovieVerifications.userId v in
  let first := checkverify ADMIN_IDS from fn1 tok now1 fu1 db in
  let second := checkverify ADMIN_IDS from fn2 tok now2 fu2 (snd first) in
  fst first = Ok (VR_Granted (mkDelivery m false (mkValidity true 12 0)))
  /\ movieAccess (snd first) = grantOrRenew uid (Movies.id m) now1 (movieAccess db)
  /\ (exists a al,
        filter (accessOf uid (Movies.id m)) (movieAccess (snd first)) = a :: al
        /\ Forall (fun x => MovieAccess.unlockedAt x = now1) (a :: al))
  /\ (forall t, now1 <= t -> t - now1 < 12 * HOUR_MS ->
        valid (isAccessValid t now1) = true)
  /\ filter (fun a => negb (accessOf uid (Movies.id m) a)) (movieAccess (snd first))
     = filter (fun a => negb (accessOf uid (Movies.id m) a)) (movieAccess db)
  /\ (filter (accessOf uid (Movies.id m)) (movieAccess db) = [] ->
      movieAccess (snd first)
      = movieAccess db ++ [MovieAccess.mk uid (Movies.id m) now1])
  /\ movieTokenStatus tok (snd first) = Some Used
  /\ fst second = Ok VR_AlreadyUsed
  /\ movieAccess (snd second) = movieAccess (snd first)
  /\ movieVerifications (snd second) = movieVerifications (snd first)
  /\ creditTransactions (snd second) = creditTransactions db
  /\ map Users.credits (users (snd second)) = map Users.credits (users db).
Proof.
  intros Hres Hv Hs Hm H1 H2 uid first second. subst uid.
  destruct (checkverify_owner ADMIN_IDS from fn1 tok now1 fu1 db v vs Hres Hv)
    as (d1 & Hren1 & E1).
  apply Z.ltb_ge in H1. apply Z.ltb_ge in H2.
  rewrite H1, Hs, Hm in E1.
  destruct (renamed_tables _ _ Hren1) as (_ & Tac1 & Tmv1 & _ & Tct1 & _).
  assert (Hv' : filter (movieTokenIs tok) (movieVerifications (snd first))
                = MovieVerifications.set_status Used v
                  :: update_where (movieTokenIs tok)
                       (MovieVerifications.set_status Used) vs).
  { subst first. rewrite E1. cbn [snd movieVerifications with_movieVerifications
      with_movieAccess]. rewrite Tmv1. apply movie_status_after_update. exact Hv. }
  assert (Hres' : resolves from
                    (MovieVerifications.userId (MovieVerifications.set_status Used v))
                    (snd first)).
  { subst first. rewrite E1.
    destruct (renamed_resolves _ _ _ _ Hren1 Hres) as (e & es & He & Hid).
    exists e, es. split; [exact He | exact Hid]. }
  destruct (checkverify_owner ADMIN_IDS from fn2 tok now2 fu2 (snd first) _ _
              Hres' Hv') as (d2 & Hren2 & E2).
  cbn [MovieVerifications.createdAt MovieVerifications.status
       MovieVerifications.set_status] in E2.
  rewrite H2 in E2.
  destruct (renamed_tables _ _ Hren2) as (_ & Tac2 & Tmv2 & _ & Tct2 & _).
  pose proof (renamed_credits _ _ Hren2) as Hc2.
  pose proof (renamed_credits _ _ Hren1) as Hc1.
  subst second. rewrite E2. cbn [fst snd].
  rewrite Tac2, Tmv2, Tct2, Hc2.
  unfold movieTokenStatus. rewrite Hv'.
  subst first. rewrite E1. cbn [fst snd movieAccess with_movieVerifications
    with_movieAccess creditTransactions users MovieVerifications.status
    MovieVerifications.set_status].
  rewrite Tac1, Tct1, Hc1.
  split; [reflexivity|]. split; [reflexivity|].
  split; [apply grantOrRenew_fresh|].
  split.
  { intros t Ht1 Ht2. unfold isAccessValid. cbn [valid]. apply Z.ltb_lt.
    unfold ACCESS_VALIDITY_HOURS. exact Ht2. }
  split; [apply grantOrRenew_others|].
  split; [intro Hnone; unfold grantOrRenew; rewrite Hnone; reflexivity|].
  repeat split; reflexivity.
Qed.





(** C3 (as amended): for a non-admin, non-premium user with no valid grant,
    the getlink path does not consult the credit balance and spends
    nothing: whatever the balance, a request for a published item with
    content records a pending content-unlock token and answers with the
    verification prompt (or a link error), delivers no content, appends no
    credit transaction and leaves every balance as it was.  The request
    path unlocks by admin role, active premium, a valid grant or a
    verification token; credit spend is not one of its gates. *)
Theorem C3_getlink_spends_no_credit (ADMIN_IDS : list string)
  (from fn pre tok : string) (now : Instant) (fu : Id) (url : option string)
  (db : DB) (e : Users.row) (es es' : list Users.row) (movie : Movies.row) :
  filter (userByUsername from) (users db) = e :: es ->
  filter (userById (Users.id e)) (users db) = e :: es' ->
  includes ADMIN_IDS from = false ->
  Users.role e = RoleUser ->
  premiumActive e now = false ->
  find (fun x => startsWith pre (Movies.id x)) (movies db) = Some movie ->
  Movies.status movie = Published ->
  (let assets := filter (fun a => (MovieAssets.movieId a =? Movies.id movie)%string)
                   (movieAssets db) in
   existsb (fun a => includes fileTypes (MovieAssets.assetType a)) assets
   || (existsb (fun a => (MovieAssets.assetType a =? "link")%string) assets
       || (0 <? Z.of_nat (List.length (Movies.links movie))))) = true ->
  valid match filter (accessOf (Users.id e) (Movies.id movie)) (movieAccess db) with
        | a :: _ => isAccessValid now (MovieAccess.unlockedAt a)
        | [] => mkValidity false 0 0
        end = false ->
  existsb (movieTokenIs tok) (movieVerifications db) = false ->
  let r := getlink ADMIN_IDS from fn pre now fu tok url db in
  fst r = Ok match url with
             | None => GL_LinkError
             | Some u =>
               GL_Verify tok u
                 match filter (accessOf (Users.id e) (Movies.id movie))
                         (movieAccess db) with
                 | [] => false
                 | _ :: _ => true
                 end
             end
  /\ movieVerifications (snd r)
     = movieVerifications db
       ++ [MovieVerifications.mk (Users.id e) (Movies.id movie) tok Pending now]
  /\ creditTransactions (snd r) = creditTransactions db
  /\ map Users.credits (users (snd r)) = map Users.credits (users db)
  /\ movieAccess (snd r) = movieAccess db.
Proof.
  intros Hname Hid Hadm Hrole Hprem Hfind Hpub Hcontent Hval Htok r.
  subst r. rewrite (getlink_existing _ _ _ _ _ _ _ _ _ _ _ _ Hname Hid). cbv zeta.
  cbv zeta in Hcontent.
  rewrite Hfind, Hadm, Hrole, Hval, Hpub, Hprem, Htok.
  cbn [Role_eqb orb negb andb MovieStatus_eqb].
  rewrite <- negb_orb, Hcontent. cbn [negb fst snd].
  pose proof (touchUser_tables e fn db) as (_ & _ & Tac & Tmv & _ & Tct & _).
  pose proof (renamed_credits _ _ (touchUser_renamed e fn db)) as Hc.
  cbn [movieVerifications creditTransactions movieAccess users
       with_movieVerifications].
  rewrite Tac, Tmv, Tct, Hc. repeat split; reflexivity.
Qed.

(** ** Referrals *)

Lemma keeps_referred_once_refl db : keeps_referred_once db db.
Proof. intro H. exact H. Qed.

Lemma keeps_referred_once_trans a b c :
  keeps_referred_once a b -> keeps_referred_once b c -> keeps_referred_once a c.
Proof. unfold keeps_referred_once. auto. Qed.

Lemma keeps_referred_once_same db db' :
  referrals db' = referrals db -> keeps_referred_once db db'.
Proof. unfold keeps_referred_once, referred_once. intros ->. auto. Qed.

Lemma referred_once_insert r : respects keeps_referred_once (insert_referrals r).
Proof.
  intros db H. unfold insert_referrals. run_monad.
  destruct (hasUser (Referrals.referrerId r) db
            && hasUser (Referrals.referredId r) db) ; simpl; [|exact H].
  destruct (existsb _ (referrals db)) eqn:E; simpl; [exact H|].
  unfold referred_once in *. simpl. rewrite map_app. simpl.
  apply NoDup_app; [exact H | constructor; [intros [] | constructor] |].
  intros x Hx [<- | []].
  apply in_map_iff in Hx. destruct Hx as (y & Hy & Hin).
  assert (Ht : existsb (fun x0 => (Referrals.referredId x0 =? Referrals.referredId r)%string)
                 (referrals db) = true).
  { apply existsb_exists. exists y. split; [exact Hin|].
    rewrite Hy. apply String.eqb_refl. }
  congruence.
Qed.

Ltac same_referrals :=
  first [ apply referred_once_insert
        | apply respects_modify; intro; apply keeps_referred_once_same; reflexivity ].

Ltac referred_walk :=
  pose proof keeps_referred_once_refl as R_refl;
  pose proof keeps_referred_once_trans as R_trans;
  respects_walk same_referrals.

Lemma referred_once_canEarnCredits uid now :
  respects keeps_referred_once (canEarnCredits uid now).
Proof. unfold canEarnCredits. referred_walk. Qed.

Lemma referred_once_earnCredits uid now :
  respects keeps_referred_once (earnCredits uid now).
Proof. unfold earnCredits, insert_creditTransactions. referred_walk. Qed.

Lemma referred_once_spendCredit uid : respects keeps_referred_once (spendCredit uid).
Proof. unfold spendCredit, insert_creditTransactions. referred_walk. Qed.

Lemma referred_once_insert_users u : respects keeps_referred_once (insert_users u).
Proof. unfold insert_users. referred_walk. Qed.

Lemma referred_once_run ADMIN_IDS evs db :
  referred_once db -> referred_once (run ADMIN_IDS evs db).
Proof.
  apply (respects_run ADMIN_IDS keeps_referred_once
           keeps_referred_once_refl keeps_referred_once_trans);
    intros;
    first [ apply referred_once_canEarnCredits | apply referred_once_earnCredits
          | apply referred_once_spendCredit | apply referred_once_insert_users
          | apply referred_once_insert
          | apply keeps_referred_once_same; reflexivity ].
Qed.

(** The referral block of [/start] for a new account whose referrer
    exists, in closed form. *)
Lemma referralHandling_run startParam user from db r rs :
  startsWith "ref_" startParam = true ->
  dropPrefix 4 startParam <> from ->
  filter (userByUsername (dropPrefix 4 startParam)) (users db) = r :: rs ->
  hasUser (Users.id user) db = true ->
  referralHandling startParam true user from db =
  if existsb (fun x => (Referrals.referredId x =? Users.id user)%string) (referrals db)
  then (Ok tt, db)
  else
    let db1 := with_referrals
                 (fun l => l ++ [Referrals.mk (Users.id r) (Users.id user) 1]) db in
    if awardFits (Users.id r) db then
      (Ok tt,
       with_users
         (update_where (userById (Users.id r))
            (fun x => Users.set_credits (Users.credits x + 1) x))
         db1)
    else (Ok tt, db1).
Proof.
  intros Hp Hself Hr Hu. unfold referralHandling. rewrite Hp. cbn [andb].
  apply String.eqb_neq in Hself. rewrite Hself. cbn [negb].
  unfold bind at 1. unfold select at 1, gets at 1. rewrite Hr.
  unfold insert_referrals. unfold_monad.
  cbn [Referrals.referrerId Referrals.referredId].
  assert (Hru : hasUser (Users.id r) db = true).
  { apply filter_head_In in Hr. destruct Hr as [Hin _].
    unfold hasUser. apply existsb_exists. exists r.
    split; [exact Hin | apply String.eqb_refl]. }
  rewrite Hru, Hu. cbn [andb].
  destruct (existsb _ (referrals db)); cbv beta iota zeta; [reflexivity|].
  cbn [negb]. cbv beta iota.
  change (awardFits (Users.id r) (with_referrals ?f db))
    with (awardFits (Users.id r) db).
  destruct (awardFits (Users.id r) db); reflexivity.
Qed.

(** C9 (as amended): no account is ever the referred party of two referral
    rows.  For a new account that arrives with the link of an existing
    referrer other than itself: when a referral row for it already exists,
    the uniqueness violation is swallowed, the caller sees no error and
    nothing changes, the referrer's balance included; otherwise one row is
    inserted and the referrer's cached balance is raised by the award, 1,
    exactly once, by a direct update of the account row that appends no
    credit transaction and leaves lastCreditReset alone.  The one exception
    is a referrer whose balance is the largest the integer column holds:
    the row is inserted, the update fails, the failure is swallowed like
    the uniqueness violation, and no balance changes. *)
Theorem C9_referral_once (ADMIN_IDS : list string) (startParam from : string)
  (user : Users.row) (db : DB) (r : Users.row) (rs : list Users.row) :
  startsWith "ref_" startParam = true ->
  dropPrefix 4 startParam <> from ->
  filter (userByUsername (dropPrefix 4 startParam)) (users db) = r :: rs ->
  hasUser (Users.id user) db = true ->
  let already :=
    existsb (fun x => (Referrals.referredId x =? Users.id user)%string) (referrals db) in
  let db' := exec (referralHandling startParam true user from) db in
  result (referralHandling startParam true user from) db = Ok tt
  /\ (if already then db' = db
      else referrals db' = referrals db ++ [Referrals.mk (Users.id r) (Users.id user) 1]
           /\ (forall acct, balance acct db' =
                 balance acct db
                 + if (acct =? Users.id r)%string && awardFits (Users.id r) db
                   then 1 else 0)
           /\ (awardFits (Users.id r) db = false -> users db' = users db)
           /\ creditTransactions db' = creditTransactions db
           /\ map Users.lastCreditReset (users db')
              = map Users.lastCreditReset (users db)
           /\ exec (referralHandling startParam true user from) db' = db')
  /\ (filter (userById (Users.id r)) (users db) = [r] ->
      awardFits (Users.id r) db = (Users.credits r + 1 <=? INT4_MAX))
  /\ (forall evs d, referred_once d -> referred_once (run ADMIN_IDS evs d)).
Proof.
  intros Hp Hself Hr Hu already db'.
  pose proof (referralHandling_run _ _ _ _ _ _ Hp Hself Hr Hu) as E.
  cbv zeta in E. fold already in E.
  set (db1 := with_referrals
                (fun l => l ++ [Referrals.mk (Users.id r) (Users.id user) 1]) db) in *.
  set (d1 := with_users
               (update_where (userById (Users.id r))
                  (fun x => Users.set_credits (Users.credits x + 1) x)) db1) in *.
  assert (Hexec : db' = if already then db
                        else if awardFits (Users.id r) db then d1 else db1).
  { subst db'. unfold exec. rewrite E.
    destruct already; [reflexivity|]. destruct (awardFits _ _); reflexivity. }
  assert (Hin : In r (users db)) by (apply (filter_head_In _ _ _ _ Hr)).
  assert (Hagain : forall d, users d = users db \/ users d = users d1 ->
            existsb (fun x => (Referrals.referredId x =? Users.id user)%string)
              (referrals d) = true ->
            exec (referralHandling startParam true user from) d = d).
  { intros d Hd Hex.
    assert (Hr1 : exists r1 rs1,
              filter (userByUsername (dropPrefix 4 startParam)) (users d)
              = r1 :: rs1).
    { destruct Hd as [-> | ->]; [eauto|].
      subst d1 db1. cbn [users with_users with_referrals].
      rewrite filter_update_where_comm by reflexivity. rewrite Hr.
      cbn [update_where map]. eauto. }
    destruct Hr1 as (r1 & rs1 & Hr1).
    assert (Hu1 : hasUser (Users.id user) d = true).
    { unfold hasUser in *. destruct Hd as [-> | ->]; [exact Hu|].
      subst d1 db1. cbn [users with_users with_referrals].
      rewrite existsb_update_where by reflexivity. exact Hu. }
    unfold exec. rewrite (referralHandling_run _ _ _ _ _ _ Hp Hself Hr1 Hu1), Hex.
    reflexivity. }
  assert (Hex1 : existsb (fun x => (Referrals.referredId x =? Users.id user)%string)
                   (referrals db1) = true).
  { subst db1. cbn [referrals with_referrals].
    rewrite existsb_app. cbn [existsb Referrals.referredId].
    rewrite String.eqb_refl. apply orb_true_iff. right. reflexivity. }
  split; [|split; [|split]].
  - unfold result. rewrite E. destruct already; [reflexivity|].
    destruct (awardFits _ _); reflexivity.
  - rewrite Hexec. clear Hexec. destruct already eqn:Ha; [reflexivity|].
    destruct (awardFits (Users.id r) db) eqn:Hfit.
    + split; [reflexivity|]. split.
      * intro acct. subst d1. rewrite balance_update_users by reflexivity.
        unfold balance. subst db1.
        cbn [users with_referrals Users.credits Users.set_credits].
        destruct (String.eqb_spec acct (Users.id r)) as [->|Hne]; cbn [andb].
        -- destruct (filter (userById (Users.id r)) (users db)) as [|u us] eqn:Ef;
             [|reflexivity].
           apply filter_nil_existsb in Ef.
           assert (existsb (userById (Users.id r)) (users db) = true).
           { apply existsb_exists. exists r. split; [exact Hin|apply String.eqb_refl]. }
           congruence.
        -- destruct (filter (userById acct) (users db)); lia.
      * split; [discriminate|]. split; [reflexivity|]. split.
        { subst d1 db1. cbn [users with_users with_referrals]. unfold update_where.
          rewrite map_map. apply map_ext. intro x.
          destruct (userById (Users.id r) x); reflexivity. }
        apply Hagain; [right; reflexivity | exact Hex1].
    + split; [reflexivity|]. split.
      * intro acct. rewrite andb_false_r. change (balance acct db1) with (balance acct db).
        lia.
      * split; [reflexivity|]. split; [reflexivity|]. split; [reflexivity|].
        apply Hagain; [left; reflexivity | exact Hex1].
  - intro Hone. unfold awardFits. rewrite Hone. cbn [forallb]. apply andb_true_r.
  - intros evs d. apply referred_once_run.
Qed.

(** ** Premium expiry *)

Lemma flag_blind_ret {A} uid (a : A) : flag_blind uid (ret a).
Proof. intro db. reflexivity. Qed.

Lemma flag_blind_bind {A B} uid (m : M A) (k : A -> M B) :
  flag_blind uid m -> (forall a, flag_blind uid (k a)) -> flag_blind uid (bind m k).
Proof.
  intros Hm Hk db. unfold bind. rewrite Hm.
  destruct (m db) as [[a|] d]; cbn [fst snd]; [apply Hk | reflexivity].
Qed.

Lemma update_where_comm {T} (p q : T -> bool) f g l :
  (forall x, p (g x) = p x) -> (forall x, q (f x) = q x) ->
  (forall x, f (g x) = g (f x)) ->
  update_where p f (update_where q g l) = update_where q g (update_where p f l).
Proof.
  intros Hp Hq Hfg. unfold update_where. rewrite !map_map.
  apply map_ext. intro x.
  destruct (p x) eqn:Ep, (q x) eqn:Eq;
    rewrite ?Hp, ?Hq, ?Ep, ?Eq, ?Hfg; reflexivity.
Qed.

Lemma clearPremium_update_users uid p f db :
  (forall x, Users.id (f x) = Users.id x) ->
  (forall x, p (Users.set_isPremium false x) = p x) ->
  (forall x, f (Users.set_isPremium false x) = Users.set_isPremium false (f x)) ->
  with_users (update_where p f) (clearPremium uid db) =
  clearPremium uid (with_users (update_where p f) db).
Proof.
  intros Hid Hp Hf. unfold clearPremium, with_users. cbn [users movies movieAssets
    movieAccess movieVerifications creditVerifications creditTransactions referrals].
  f_equal. apply update_where_comm; auto.
  intro x. unfold userById. rewrite Hid. reflexivity.
Qed.

Lemma clearPremium_filter uid q db :
  (forall x, q (Users.set_isPremium false x) = q x) ->
  filter q (users (clearPremium uid db)) =
  update_where (userById uid) (Users.set_isPremium false) (filter q (users db)).
Proof. intro Hq. simpl. apply filter_update_where_comm. exact Hq. Qed.

Lemma flag_blind_canEarnCredits uid acct now :
  flag_blind uid (canEarnCredits acct now).
Proof.
  intro db. unfold canEarnCredits. unfold_monad.
  rewrite clearPremium_filter by reflexivity.
  destruct (filter (userById acct) (users db)) as [|u us]; [reflexivity|].
  cbn [update_where map].
  replace (Users.lastCreditReset
             (if userById uid u then Users.set_isPremium false u else u))
    with (Users.lastCreditReset u) by (destruct (userById uid u); reflexivity).
  replace (Users.credits
             (if userById uid u then Users.set_isPremium false u else u))
    with (Users.credits u) by (destruct (userById uid u); reflexivity).
  destruct (12 * HOUR_MS <=? _).
  - cbn [fst snd]. f_equal. apply clearPremium_update_users; reflexivity.
  - destruct (2 <=? Users.credits u); reflexivity.
Qed.

Lemma flag_blind_insert_creditVerifications uid v :
  flag_blind uid (insert_creditVerifications v).
Proof.
  intro db. unfold insert_creditVerifications. unfold_monad.
  assert (H : hasUser (CreditVerifications.userId v) (clearPremium uid db)
              = hasUser (CreditVerifications.userId v) db).
  { unfold hasUser. simpl. apply existsb_update_where. reflexivity. }
  rewrite H. cbn [creditVerifications clearPremium with_users].
  destruct (hasUser _ db && negb _); reflexivity.
Qed.

Lemma touchUser_clearPremium e fn db :
  touchUser (Users.set_isPremium false e) fn (clearPremium (Users.id e) db) =
  clearPremium (Users.id e) (touchUser e fn db).
Proof.
  unfold touchUser. cbn [Users.displayName Users.set_isPremium Users.id].
  destruct (negb _ && _); [|reflexivity].
  apply clearPremium_update_users; reflexivity.
Qed.

Lemma clearPremium_head uid q db e es :
  (forall x, q (Users.set_isPremium false x) = q x) ->
  userById uid e = true ->
  filter q (users db) = e :: es ->
  filter q (users (clearPremium uid db)) =
  Users.set_isPremium false e
  :: update_where (userById uid) (Users.set_isPremium false) es.
Proof.
  intros Hq He E. rewrite clearPremium_filter by exact Hq.
  rewrite E. cbn [update_where map]. rewrite He. reflexivity.
Qed.

Lemma premiumActive_code u now :
  premiumActive u now =
  Users.isPremium u
  && match Users.premiumExpiresAt u with
     | None => true
     | Some expiresAt => now <=? expiresAt
     end.
Proof.
  unfold premiumActive. destruct (Users.isPremium u); cbn [negb andb]; [|reflexivity].
  destruct (Users.premiumExpiresAt u) as [x|]; [|reflexivity].
  destruct (Z.ltb_spec x now), (Z.leb_spec now x); try reflexivity; lia.
Qed.

Lemma earnCreditsHandler_existing ADMIN_IDS from fn now fu tok url db e es :
  filter (userByUsername from) (users db) = e :: es ->
  earnCreditsHandler ADMIN_IDS from fn now fu tok url db =
  (ce <- canEarnCredits (Users.id e) now;;
   if negb (canEarn ce) then
     ret (ER_Wait (orZero (ce_hoursRemaining ce)) (orZero (ce_minutesRemaining ce)))
   else
     insert_creditVerifications
       (CreditVerifications.mk (Users.id e) tok Pending 2 now);;
     match url with
     | None => ret ER_LinkFailed
     | Some u => ret (ER_Verify tok u)
     end) (touchUser e fn db).
Proof.
  intro Hname. unfold earnCreditsHandler. unfold bind at 1.
  rewrite (getOrCreateUser_existing _ _ _ _ _ _ _ Hname), touchedRow_id.
  reflexivity.
Qed.

(** C7 (as amended): the premium test is true iff the premium flag is set
    and no expiry is recorded or the expiry is not earlier than now (an
    expiry equal to now still counts).  An account whose premiumExpiresAt
    is earlier than now is not premium for that test, and on the content
    request path and on the /earncredits command it is treated exactly as
    the same account with the premium flag cleared. *)
Theorem C7_expired_premium (ADMIN_IDS : list string)
  (from fn pre tok : string) (now : Instant) (fu : Id) (url : option string)
  (db : DB) (e : Users.row) (es es' : list Users.row) (expiresAt : Instant) :
  filter (userByUsername from) (users db) = e :: es ->
  filter (userById (Users.id e)) (users db) = e :: es' ->
  Users.isPremium e = true ->
  Users.premiumExpiresAt e = Some expiresAt ->
  expiresAt < now ->
  (forall d uid u us t,
      filter (userById uid) (users d) = u :: us ->
      isPremiumUser uid t d =
      (Ok (Users.isPremium u
           && match Users.premiumExpiresAt u with
              | None => true
              | Some x => t <=? x
              end), d))
  /\ result (isPremiumUser (Users.id e) now) db = Ok false
  /\ getlink ADMIN_IDS from fn pre now fu tok url (clearPremium (Users.id e) db)
     = (fst (getlink ADMIN_IDS from fn pre now fu tok url db),
        clearPremium (Users.id e) (snd (getlink ADMIN_IDS from fn pre now fu tok url db)))
  /\ earnCreditsHandler ADMIN_IDS from fn now fu tok url (clearPremium (Users.id e) db)
     = (fst (earnCreditsHandler ADMIN_IDS from fn now fu tok url db),
        clearPremium (Users.id e)
          (snd (earnCreditsHandler ADMIN_IDS from fn now fu tok url db))).
Proof.
  intros Hname Hid Hflag Hexp Hlt.
  assert (Hoff : premiumActive e now = false).
  { rewrite premiumActive_code, Hflag, Hexp. cbn [andb]. apply Z.leb_gt. exact Hlt. }
  assert (Hself : userById (Users.id e) e = true) by apply String.eqb_refl.
  pose proof (clearPremium_head (Users.id e) (userByUsername from) db e es
                ltac:(reflexivity) Hself Hname) as Hname'.
  pose proof (clearPremium_head (Users.id e) (userById (Users.id e)) db e es'
                ltac:(reflexivity) Hself Hid) as Hid'.
  split; [|split; [|split]].
  - intros d uid u us t Hu. rewrite (isPremiumUser_run _ _ _ _ _ Hu).
    rewrite premiumActive_code. reflexivity.
  - unfold result. rewrite (isPremiumUser_run _ _ _ _ _ Hid), Hoff. reflexivity.
  - rewrite (getlink_existing _ _ _ _ _ _ _ _ _ _ _ _ Hname Hid).
    rewrite (getlink_existing _ _ _ _ _ _ _ _ _ _ _ _ Hname'
               (Hid' : filter (userById (Users.id (Users.set_isPremium false e))) _ = _)).
    cbv zeta. rewrite touchUser_clearPremium, Hoff.
    cbn [Users.id Users.role Users.set_isPremium premiumActive Users.isPremium negb
         movies movieAssets movieAccess movieVerifications clearPremium with_users].
    repeat match goal with
           | |- context [match ?x with _ => _ end] => destruct x
           end; reflexivity.
  - rewrite (earnCreditsHandler_existing _ _ _ _ _ _ _ _ _ _ Hname).
    rewrite (earnCreditsHandler_existing _ _ _ _ _ _ _ _ _ _ Hname').
    rewrite touchUser_clearPremium. cbn [Users.id Users.set_isPremium].
    apply flag_blind_bind; [apply flag_blind_canEarnCredits|].
    intro ce. destruct (negb (canEarn ce)); [apply flag_blind_ret|].
    apply flag_blind_bind; [apply flag_blind_insert_creditVerifications|].
    intros _. destruct url; apply flag_blind_ret.
Qed.

(** * The properties at sample states *)

(** C1, counterexample to the claim as stated: Ann's content token is used;
    her check 1 hour and 1 millisecond after its creation is not answered
    already-used, and the token does not stay used. *)
Lemma C1_counterexample :
  movieTokenStatus "tokM" db_used = Some Used
  /\ resolves "100" "u1" db_used
  /\ result (checkverify [] "100" "Ann" "tokM" 3600001 "x") db_used
     = Ok VR_ExpiredHourLimit
  /\ movieTokenStatus "tokM"
       (exec (checkverify [] "100" "Ann" "tokM" 3600001 "x") db_used)
     = Some Expired
  /\ ~ (result (checkverify [] "100" "Ann" "tokM" 3600001 "x") db_used
        = Ok VR_AlreadyUsed
        /\ movieTokenStatus "tokM"
             (exec (checkverify [] "100" "Ann" "tokM" 3600001 "x") db_used)
           = Some Used).
Proof.
  split; [reflexivity|]. split; [exists ann, []; split; reflexivity|].
  split; [reflexivity|]. split; [reflexivity|].
  intros [H _]. vm_compute in H. discriminate H.
Qed.

(** C1 at [db_used_content] and at [db_used_credit], each checked within
    the hour: in the one state there is no credit token, in the other no
    content token. *)
Lemma C1_witness :
  (result (checkverify [] "100" "Ann" "tokM" 1000 "x") db_used_content
   = Ok VR_AlreadyUsed
   /\ movieTokenStatus "tokM"
        (exec (checkverify [] "100" "Ann" "tokM" 1000 "x") db_used_content)
      = Some Used)
  /\ (result (checkcredit [] "100" "Ann" "tokC" 1000 "x") db_used_credit
      = Ok CR_AlreadyClaimed
      /\ creditTokenStatus "tokC"
           (exec (checkcredit [] "100" "Ann" "tokC" 1000 "x") db_used_credit)
         = Some Used
      /\ balance "u1" (exec (checkcredit [] "100" "Ann" "tokC" 1000 "x") db_used_credit)
         = 2).
Proof.
  split.
  - destruct (C1_check_of_used_token [] "100" "Ann" 1000 "x" db_used_content)
      as [HM _].
    destruct (HM "tokM" (MovieVerifications.mk "u1" "m1" "tokM" Used 0) [])
      as (H1 & H2 & _).
    + exists ann, []. split; reflexivity.
    + reflexivity.
    + reflexivity.
    + split; [exact H1 | exact H2].
  - destruct (C1_check_of_used_token [] "100" "Ann" 1000 "x" db_used_credit)
      as [_ HC].
    destruct (HC "tokC" (CreditVerifications.mk "u1" "tokC" Used 2 0) [])
      as (H1 & H2 & _ & H4).
    + eexists _, []. split; reflexivity.
    + reflexivity.
    + reflexivity.
    + split; [exact H1|]. split; [exact H2|]. rewrite H4. reflexivity.
Defined.

(** C2 at [db_verified], where the first claim adds the grant, and at
    [db_renewal], where it re-stamps the grant that had run out and leaves
    the grant of the other account alone; the claims come 10 and 20 ms
    after minting. *)
Lemma C2_witness :
  (fst (checkverify [] "100" "Ann" "tokM" 10 "x" db_verified)
   = Ok (VR_Granted (mkDelivery dangal false (mkValidity true 12 0)))
   /\ movieAccess (snd (checkverify [] "100" "Ann" "tokM" 10 "x" db_verified))
      = [MovieAccess.mk "u1" "m1" 10]
   /\ fst (checkverify [] "100" "Ann" "tokM" 20 "y"
             (snd (checkverify [] "100" "Ann" "tokM" 10 "x" db_verified)))
      = Ok VR_AlreadyUsed
   /\ movieAccess
        (snd (checkverify [] "100" "Ann" "tokM" 20 "y"
                (snd (checkverify [] "100" "Ann" "tokM" 10 "x" db_verified))))
      = [MovieAccess.mk "u1" "m1" 10])
  /\ (valid (isAccessValid 50000010 0) = false
      /\ fst (checkverify [] "100" "Ann" "tokM" 50000010 "x" db_renewal)
         = Ok (VR_Granted (mkDelivery dangal false (mkValidity true 12 0)))
      /\ movieAccess (snd (checkverify [] "100" "Ann" "tokM" 50000010 "x" db_renewal))
         = [MovieAccess.mk "u1" "m1" 50000010; MovieAccess.mk "u3" "m1" 7]
      /\ fst (checkverify [] "100" "Ann" "tokM" 50000020 "y"
                (snd (checkverify [] "100" "Ann" "tokM" 50000010 "x" db_renewal)))
         = Ok VR_AlreadyUsed
      /\ movieAccess
           (snd (checkverify [] "100" "Ann" "tokM" 50000020 "y"
                   (snd (checkverify [] "100" "Ann" "tokM" 50000010 "x" db_renewal))))
         = [MovieAccess.mk "u1" "m1" 50000010; MovieAccess.mk "u3" "m1" 7]).
Proof.
  split.
  - destruct (C2_double_claim [] "100" "Ann" "Ann" "tokM" 10 20 "x" "y" db_verified
                (MovieVerifications.mk "u1" "m1" "tokM" Verified 0) [] dangal [])
      as (H1 & H2 & _ & _ & _ & _ & _ & H8 & H9 & _).
    + exists ann, []. split; reflexivity.
    + reflexivity.
    + reflexivity.
    + reflexivity.
    + vm_compute. discriminate.
    + vm_compute. discriminate.
    + split; [exact H1|]. split; [rewrite H2; reflexivity|].
      split; [exact H8|]. rewrite H9, H2. reflexivity.
  - destruct (C2_double_claim [] "100" "Ann" "Ann" "tokM" 50000010 50000020 "x" "y"
                db_renewal
                (MovieVerifications.mk "u1" "m1" "tokM" Verified 50000000) []
                dangal [])
      as (H1 & H2 & _ & _ & _ & _ & _ & H8 & H9 & _).
    + exists ann, []. split; reflexivity.
    + reflexivity.
    + reflexivity.
    + reflexivity.
    + vm_compute. discriminate.
    + vm_compute. discriminate.
    + split; [reflexivity|]. split; [exact H1|]. split; [rewrite H2; reflexivity|].
      split; [exact H8|]. rewrite H9, H2. reflexivity.
Defined.

(** C3, counterexample to the claim as stated: Ann is neither admin nor
    premium, holds one credit and no grant; her request is answered with the
    verification prompt, no content, and her balance is still 1. *)
Lemma C3_counterexample :
  balance "u1" db_fresh = 1
  /\ result (getlink [] "100" "Ann" "m1" 1000 "x" "tok" (Some "https://gp/abc")) db_fresh
     = Ok (GL_Verify "tok" "https://gp/abc" false)
  /\ creditTransactions
       (exec (getlink [] "100" "Ann" "m1" 1000 "x" "tok" (Some "https://gp/abc")) db_fresh)
     = []
  /\ ~ (balance "u1"
          (exec (getlink [] "100" "Ann" "m1" 1000 "x" "tok" (Some "https://gp/abc"))
             db_fresh)
        = balance "u1" db_fresh - 1).
Proof.
  split; [reflexivity|]. split; [reflexivity|]. split; [reflexivity|].
  vm_compute. discriminate.
Qed.

(** C3 at [db_fresh]. *)
Lemma C3_witness :
  fst (getlink [] "100" "Ann" "m1" 1000 "x" "tok" (Some "https://gp/abc") db_fresh)
  = Ok (GL_Verify "tok" "https://gp/abc" false)
  /\ map Users.credits
       (users (snd (getlink [] "100" "Ann" "m1" 1000 "x" "tok" (Some "https://gp/abc")
                      db_fresh)))
     = [1].
Proof.
  destruct (C3_getlink_spends_no_credit [] "100" "Ann" "m1" "tok" 1000 "x"
              (Some "https://gp/abc") db_fresh ann [] [] dangal)
    as (H1 & _ & _ & H4 & _); try reflexivity.
  split; [exact H1 | exact H4].
Defined.

(** C4 at [db_fresh], where [lastCreditReset] is unset, and at
    [db_earned] twelve hours after the last reset: the balance goes to 0
    and [lastCreditReset] to the instant of the call. *)
Lemma C4_witness :
  (filter (userById "u1") (users db_fresh) = [ann]
   /\ balance "u1" (exec (canEarnCredits "u1" 1000) db_fresh) = 0
   /\ map Users.lastCreditReset (users (exec (canEarnCredits "u1" 1000) db_fresh))
      = [Some 1000])
  /\ (balance "u1" db_earned = 2
      /\ balance "u1" (exec (canEarnCredits "u1" 43200000) db_earned) = 0
      /\ map Users.lastCreditReset
           (users (exec (canEarnCredits "u1" 43200000) db_earned))
         = [Some 43200000]).
Proof.
  split.
  - split; [reflexivity|].
    destruct (C4_canEarn_cases "u1" 1000 db_fresh ann [] eq_refl) as [H _].
    destruct H as (E & Hb & _); [left; reflexivity|].
    split; [exact Hb|]. unfold exec. rewrite E. reflexivity.
  - split; [reflexivity|].
    destruct (C4_canEarn_cases "u1" 43200000 db_earned
                (Users.mk "u1" "100" "Ann" RoleUser Active 2 (Some 0) false None) []
                eq_refl) as [H _].
    destruct H as (E & Hb & _).
    + right. exists 0. split; [reflexivity|]. vm_compute. discriminate.
    + split; [exact Hb|]. unfold exec. rewrite E. reflexivity.
Defined.

(** C5 at [db_fresh]: two spends with one credit, then an earn. *)
Lemma C5_witness :
  credits_nonneg db_fresh
  /\ credits_nonneg
       (run [] [EvSpendCredit "u1"; EvSpendCredit "u1"; EvEarnCredits "u1" 5] db_fresh).
Proof.
  assert (H : credits_nonneg db_fresh).
  { constructor; [|constructor]. vm_compute. discriminate. }
  split; [exact H|]. apply C5_balance_never_negative. exact H.
Defined.

(** C6, counterexample to the claim as stated: balance and log agree in
    [db_earned]; twelve hours later the cycle reset of canEarn zeroes the
    balance and logs nothing. *)
Lemma C6_counterexample :
  balance "u1" db_earned = logSum "u1" db_earned
  /\ balance "u1" (run [] [EvCanEarnCredits "u1" 43200000] db_earned) = 0
  /\ logSum "u1" (run [] [EvCanEarnCredits "u1" 43200000] db_earned) = 2
  /\ ~ (balance "u1" (run [] [EvCanEarnCredits "u1" 43200000] db_earned)
        = logSum "u1" (run [] [EvCanEarnCredits "u1" 43200000] db_earned)).
Proof.
  split; [reflexivity|]. split; [reflexivity|]. split; [reflexivity|].
  vm_compute. discriminate.
Qed.

(** C6 at [db_fresh], where the earning fits, and at [db_rich], where it
    does not: the entry is appended in both, the balance moves only in the
    first. *)
Lemma C6_witness :
  (result (earnCredits "u1" 5) db_fresh = Ok 3
   /\ creditTransactions (exec (earnCredits "u1" 5) db_fresh)
      = [CreditTransactions.mk "u1" 2 "shortener_visit"]
   /\ balance "u1" (exec (earnCredits "u1" 5) db_fresh) = 3)
  /\ (balance "u1" db_rich = 2147483646
      /\ result (earnCredits "u1" 5) db_rich = Throw
      /\ creditTransactions (exec (earnCredits "u1" 5) db_rich)
         = [CreditTransactions.mk "u1" 2 "shortener_visit"]
      /\ users (exec (earnCredits "u1" 5) db_rich) = users db_rich).
Proof.
  destruct (C6_log_append_only_earn_spend_match [])
    as (_ & Hin & Hout & _).
  split.
  - destruct (Hin "u1" 5 db_fresh ann []) as (H1 & H2 & H3).
    + reflexivity.
    + vm_compute. discriminate.
    + split; [exact H1|]. split; [exact H2|]. rewrite H3. reflexivity.
  - split; [reflexivity|].
    destruct (Hout "u1" 5 db_rich ann_rich []) as (H1 & H2 & H3 & _).
    + reflexivity.
    + reflexivity.
    + split; [exact H1|]. split; [exact H2 | exact H3].
Defined.

(** C7, counterexample to the claim as stated: at the instant of the
    expiry the code still answers premium, where the specification's
    "strictly later than now" does not. *)
Lemma C7_counterexample :
  result (isPremiumUser "u1" 1000) db_premium = Ok true
  /\ isPremiumActive_spec ann_premium 1000 = false
  /\ ~ (result (isPremiumUser "u1" 1000) db_premium
        = Ok (isPremiumActive_spec ann_premium 1000)).
Proof.
  split; [reflexivity|]. split; [reflexivity|].
  vm_compute. discriminate.
Qed.

(** C7 at [db_premium], one millisecond after the expiry. *)
Lemma C7_witness :
  result (isPremiumUser "u1" 1001) db_premium = Ok false
  /\ getlink [] "100" "Ann" "m1" 1001 "x" "tok" (Some "https://gp/abc")
       (clearPremium "u1" db_premium)
     = (fst (getlink [] "100" "Ann" "m1" 1001 "x" "tok" (Some "https://gp/abc") db_premium),
        clearPremium "u1"
          (snd (getlink [] "100" "Ann" "m1" 1001 "x" "tok" (Some "https://gp/abc")
                  db_premium))).
Proof.
  destruct (C7_expired_premium [] "100" "Ann" "m1" "tok" 1001 "x"
              (Some "https://gp/abc") db_premium ann_premium [] [] 1000)
    as (_ & H2 & H3 & _); try reflexivity.
  split; [exact H2 | exact H3].
Defined.

(** On the [earncredits] button the raw flag is read instead of
    [isPremiumUser]: the account of [db_premium], expired at 1001, is told
    it needs no credits, while the [/earncredits] command serves it. *)
Lemma earncredits_button_reads_raw_flag :
  result (earncredits_callback [] "100" "Ann" 1001 "x" "tok" (Some "https://gp/abc"))
    db_premium = Ok ER_PremiumNoNeed
  /\ result (earnCreditsHandler [] "100" "Ann" 1001 "x" "tok" (Some "https://gp/abc"))
       db_premium = Ok (ER_Verify "tok" "https://gp/abc").
Proof. split; reflexivity. Qed.

(** C8, counterexample to the claim as stated: the entry a successful
    spend appends does not carry the reason "access". *)
Lemma C8_counterexample :
  exists t,
    creditTransactions (exec (spendCredit "u1") db_fresh)
    = creditTransactions db_fresh ++ [t]
    /\ CreditTransactions.amount t = -1
    /\ CreditTransactions.reason t = "link_access"
    /\ CreditTransactions.reason t <> "access".
Proof.
  exists (CreditTransactions.mk "u1" (-1) "link_access").
  split; [reflexivity|]. split; [reflexivity|]. split; [reflexivity|].
  cbn. discriminate.
Qed.

(** C8 at [db_fresh]: one credit, spent. *)
Lemma C8_witness :
  filter (userById "u1") (users db_fresh) = [ann]
  /\ result (spendCredit "u1") db_fresh = Ok (mkSpend true 0)
  /\ balance "u1" (exec (spendCredit "u1") db_fresh) = 0.
Proof.
  split; [reflexivity|].
  destruct (C8_spend_result "u1" db_fresh ann [] eq_refl) as [_ H].
  destruct H as (H1 & _ & H3).
  - vm_compute. discriminate.
  - split; [exact H1 | exact H3].
Defined.

(** C9, counterexample to the claim as stated: Bob joins with Ann's link;
    Ann's balance goes from 1 to 2 and the referral row is written, but no
    credit transaction is, and her lastCreditReset stays unset: the award
    does not pass through the credit ledger. *)
Lemma C9_counterexample :
  balance "u1" (run [] [EvStart "200" "Bob" "ref_100" "u2" true false] db_fresh) = 2
  /\ referrals (run [] [EvStart "200" "Bob" "ref_100" "u2" true false] db_fresh)
     = [Referrals.mk "u1" "u2" 1]
  /\ creditTransactions (run [] [EvStart "200" "Bob" "ref_100" "u2" true false] db_fresh)
     = []
  /\ map Users.lastCreditReset
       (users (run [] [EvStart "200" "Bob" "ref_100" "u2" true false] db_fresh))
     = [None; None]
  /\ ~ (logSum "u1" (run [] [EvStart "200" "Bob" "ref_100" "u2" true false] db_fresh)
        = logSum "u1" db_fresh + 1).
Proof.
  split; [reflexivity|]. split; [reflexivity|]. split; [reflexivity|].
  split; [reflexivity|]. vm_compute. discriminate.
Qed.

(** C9 at [db_referral], where Bob arrives with Ann's link, and at
    [db_referral_full], where Ann's balance is the largest the column
    holds: the row is written and no balance moves. *)
Lemma C9_witness :
  (result (referralHandling "ref_100" true bob "200") db_referral = Ok tt
   /\ referrals (exec (referralHandling "ref_100" true bob "200") db_referral)
      = [Referrals.mk "u1" "u2" 1]
   /\ balance "u1" (exec (referralHandling "ref_100" true bob "200") db_referral) = 2)
  /\ (result (referralHandling "ref_100" true bob "200") db_referral_full = Ok tt
      /\ referrals (exec (referralHandling "ref_100" true bob "200") db_referral_full)
         = [Referrals.mk "u1" "u2" 1]
      /\ users (exec (referralHandling "ref_100" true bob "200") db_referral_full)
         = [ann_full; bob]).
Proof.
  split.
  - destruct (C9_referral_once [] "ref_100" "200" bob db_referral ann [])
      as (H1 & H2 & _).
    + reflexivity.
    + cbn. discriminate.
    + reflexivity.
    + reflexivity.
    + split; [exact H1|]. cbn [existsb referrals db_referral] in H2.
      destruct H2 as (H2 & H3 & _). split; [exact H2|]. rewrite H3. reflexivity.
  - destruct (C9_referral_once [] "ref_100" "200" bob db_referral_full ann_full [])
      as (H1 & H2 & _).
    + reflexivity.
    + cbn. discriminate.
    + reflexivity.
    + reflexivity.
    + split; [exact H1|]. cbn [existsb referrals db_referral_full] in H2.
      destruct H2 as (H2 & _ & H4 & _). split; [exact H2|]. apply H4. reflexivity.
Defined.


(** * Further properties of the handlers *)

(** ** Accounts *)

Lemma getOrCreateUser_new (ADMIN_IDS : list string) (tg n : string) (fid : Id)
  (db : DB) :
  existsb (userByUsername tg) (users db) = false ->
  existsb (userById fid) (users db) = false ->
  getOrCreateUser ADMIN_IDS tg n fid db
  = (Ok (Users.mk fid tg n (if includes ADMIN_IDS tg then RoleAdmin else RoleUser)
           Active 0 None false None, true),
     with_users
       (fun l => l ++ [Users.mk fid tg n
                         (if includes ADMIN_IDS tg then RoleAdmin else RoleUser)
                         Active 0 None false None]) db).
Proof.
  intros Hname Hid.
  assert (Hnil : filter (userByUsername tg) (users db) = []).
  { destruct (filter (userByUsername tg) (users db)) as [|x xs] eqn:E; [reflexivity|].
    apply filter_head_existsb in E. congruence. }
  unfold getOrCreateUser, insert_users. unfold_monad. rewrite Hnil.
  cbn [Users.id Users.username]. rewrite Hname, Hid. reflexivity.
Qed.

(** X1: the first contact of an unknown sender creates one account with
    balance 0, active, not premium, admin exactly when the sender is listed
    in ADMIN_IDS, and reports it as new; the next contact finds that same
    account, reports it as not new and adds no row. *)
Theorem getOrCreateUser_creates_then_finds (ADMIN_IDS : list string)
  (tg n n2 : string) (fid fid2 : Id) (db : DB) :
  existsb (userByUsername tg) (users db) = false ->
  existsb (userById fid) (users db) = false ->
  let u := Users.mk fid tg n (if includes ADMIN_IDS tg then RoleAdmin else RoleUser)
             Active 0 None false None in
  getOrCreateUser ADMIN_IDS tg n fid db
  = (Ok (u, true), with_users (fun l => l ++ [u]) db)
  /\ exists r db2,
       getOrCreateUser ADMIN_IDS tg n2 fid2 (with_users (fun l => l ++ [u]) db)
       = (Ok (r, false), db2)
       /\ Users.id r = fid
       /\ map Users.id (users db2) = map Users.id (users db) ++ [fid]
       /\ map Users.credits (users db2) = map Users.credits (users db) ++ [0].
Proof.
  intros Hname Hid u.
  assert (Hnil : filter (userByUsername tg) (users db) = []).
  { destruct (filter (userByUsername tg) (users db)) as [|x xs] eqn:E; [reflexivity|].
    apply filter_head_existsb in E. congruence. }
  split.
  - apply getOrCreateUser_new; assumption.
  - assert (Hfind : filter (userByUsername tg) (users (with_users (fun l => l ++ [u]) db))
                    = [u]).
    { cbn [users with_users]. rewrite filter_app, Hnil. cbn [filter app].
      unfold userByUsername. subst u. cbn [Users.username].
      rewrite String.eqb_refl. reflexivity. }
    rewrite (getOrCreateUser_existing _ _ _ _ _ _ _ Hfind).
    eexists _, _. split; [reflexivity|]. split; [apply touchedRow_id|].
    pose proof (touchUser_renamed u n2 (with_users (fun l => l ++ [u]) db)) as Hren.
    split.
    + destruct Hren as (p & m & ->). cbn [users with_users].
      unfold update_where. rewrite map_map, map_app.
      rewrite <- map_app.
      transitivity (map Users.id (users db ++ [u])).
      * apply map_ext. intro x. destruct (p x); reflexivity.
      * rewrite map_app. reflexivity.
    + rewrite (renamed_credits _ _ Hren). cbn [users with_users].
      rewrite map_app. reflexivity.
Qed.

(** ** Invariants of every sequence of updates *)

Lemma map_update_where_same {T U} (g : T -> U) p f (l : list T) :
  (forall x, g (f x) = g x) -> map g (update_where p f l) = map g l.
Proof.
  intro H. unfold update_where. rewrite map_map. apply map_ext.
  intro x. destruct (p x); [apply H | reflexivity].
Qed.

Lemma preserves_refl P db : preserves P db db.
Proof. intro H. exact H. Qed.

Lemma preserves_trans P a b c :
  preserves P a b -> preserves P b c -> preserves P a c.
Proof. intros H1 H2 H. apply H2, H1, H. Qed.

Lemma users_unique_update p f db :
  (forall x, Users.id (f x) = Users.id x) ->
  (forall x, Users.username (f x) = Users.username x) ->
  preserves users_unique db (with_users (update_where p f) db).
Proof.
  intros Hi Hn [H1 H2]. unfold users_unique. cbn [users with_users].
  rewrite !map_update_where_same by assumption. split; assumption.
Qed.

Lemma existsb_false_not_In {T U} (g : T -> U) (eqb : U -> U -> bool) (k : U) l :
  (forall a b, eqb a b = true <-> a = b) ->
  existsb (fun x => eqb (g x) k) l = false -> ~ In k (map g l).
Proof.
  intros Heq H Hin. apply in_map_iff in Hin. destruct Hin as (x & <- & Hx).
  assert (existsb (fun y => eqb (g y) (g x)) l = true).
  { apply existsb_exists. exists x. split; [exact Hx | apply Heq; reflexivity]. }
  congruence.
Qed.

Lemma users_unique_insert u :
  respects (preserves users_unique) (insert_users u).
Proof.
  intros db [H1 H2]. unfold insert_users. unfold_monad.
  destruct (existsb (userById (Users.id u)) (users db)) eqn:E1; cbn [negb andb];
    [split; assumption|].
  destruct (existsb (userByUsername (Users.username u)) (users db)) eqn:E2;
    cbn [negb]; [split; assumption|].
  unfold users_unique. cbn [snd users with_users]. rewrite !map_app. cbn [map].
  split; apply NoDup_app; try assumption;
    try (constructor; [intros [] | constructor]).
  - intros x Hx [<- | []].
    revert Hx. apply (existsb_false_not_In Users.id String.eqb); [apply String.eqb_eq|].
    exact E1.
  - intros x Hx [<- | []].
    revert Hx. apply (existsb_false_not_In Users.username String.eqb);
      [apply String.eqb_eq|]. exact E2.
Qed.

Ltac unique_walk :=
  pose proof (preserves_refl users_unique) as R_refl;
  pose proof (preserves_trans users_unique) as R_trans;
  respects_walk ltac:(first
    [ apply respects_modify; intro; apply users_unique_update; reflexivity
    | apply respects_modify; intros ? H; exact H ]).

(** X2: one account per Telegram id.  Whatever updates arrive, in whatever
    order, no two account rows ever share an identifier or a Telegram id. *)
Theorem accounts_stay_unique (ADMIN_IDS : list string) (evs : list Event) (db : DB) :
  users_unique db -> users_unique (run ADMIN_IDS evs db).
Proof.
  apply (respects_run ADMIN_IDS (preserves users_unique)
           (preserves_refl _) (preserves_trans _));
    try solve [intros ? ? H; exact H];
    try solve [intros; apply users_unique_update; reflexivity];
    try solve [intros; apply users_unique_insert].
  - intros uid now. unfold canEarnCredits. unique_walk.
  - intros uid now. unfold earnCredits, insert_creditTransactions. unique_walk.
  - intros uid. unfold spendCredit, insert_creditTransactions. unique_walk.
  - intros r. unfold insert_referrals. unique_walk.
Qed.

Lemma keeps_privileges_refl db : keeps_privileges db db.
Proof. exists []. rewrite app_nil_r. reflexivity. Qed.

Lemma keeps_privileges_trans a b c :
  keeps_privileges a b -> keeps_privileges b c -> keeps_privileges a c.
Proof.
  intros [x Hx] [y Hy]. exists (x ++ y). rewrite Hy, Hx, app_assoc. reflexivity.
Qed.

Lemma keeps_privileges_update p f db :
  (forall x, privileges (f x) = privileges x) ->
  keeps_privileges db (with_users (update_where p f) db).
Proof.
  intro H. exists []. rewrite app_nil_r. cbn [users with_users].
  apply map_update_where_same. exact H.
Qed.

Lemma keeps_privileges_same_users db db' :
  users db' = users db -> keeps_privileges db db'.
Proof. intro H. exists []. rewrite app_nil_r, H. reflexivity. Qed.

Lemma keeps_privileges_insert u : respects keeps_privileges (insert_users u).
Proof.
  intro db. unfold insert_users. unfold_monad.
  destruct (negb _ && negb _); cbn [snd].
  - exists [privileges u]. cbn [users with_users]. rewrite map_app. reflexivity.
  - apply keeps_privileges_refl.
Qed.

Ltac privileges_walk :=
  pose proof keeps_privileges_refl as R_refl;
  pose proof keeps_privileges_trans as R_trans;
  respects_walk ltac:(first
    [ apply respects_modify; intro; apply keeps_privileges_update; reflexivity
    | apply respects_modify; intro; apply keeps_privileges_same_users; reflexivity ]).

(** X3: nothing a user can send changes what an account may do.  Over any
    sequence of updates the accounts present at the start keep their
    identifier, Telegram id, role, ban status, premium flag and premium
    expiry; accounts are only added, never removed or reordered. *)
Theorem updates_keep_privileges (ADMIN_IDS : list string) (evs : list Event) (db : DB) :
  exists added,
    map privileges (users (run ADMIN_IDS evs db))
    = map privileges (users db) ++ added.
Proof.
  apply (respects_run ADMIN_IDS keeps_privileges
           keeps_privileges_refl keeps_privileges_trans);
    try solve [intros; apply keeps_privileges_update; reflexivity];
    try solve [intros; apply keeps_privileges_same_users; reflexivity];
    try solve [intros; apply keeps_privileges_insert].
  - intros uid now. unfold canEarnCredits. privileges_walk.
  - intros uid now. unfold earnCredits, insert_creditTransactions. privileges_walk.
  - intros uid. unfold spendCredit, insert_creditTransactions. privileges_walk.
  - intros r. unfold insert_referrals. privileges_walk.
Qed.

Lemma keeps_catalog_refl db : keeps_catalog db db.
Proof. split; reflexivity. Qed.

Lemma keeps_catalog_trans a b c :
  keeps_catalog a b -> keeps_catalog b c -> keeps_catalog a c.
Proof. intros [H1 H2] [H3 H4]. split; congruence. Qed.

Ltac catalog_walk :=
  pose proof keeps_catalog_refl as R_refl;
  pose proof keeps_catalog_trans as R_trans;
  respects_walk ltac:(apply respects_modify; intro; split; reflexivity).

(** X4: the catalogue is read-only for the user-facing handlers.  No sequence
    of updates adds, removes or changes a movie or one of its assets. *)
Theorem updates_keep_catalog (ADMIN_IDS : list string) (evs : list Event) (db : DB) :
  movies (run ADMIN_IDS evs db) = movies db
  /\ movieAssets (run ADMIN_IDS evs db) = movieAssets db.
Proof.
  apply (respects_run ADMIN_IDS keeps_catalog keeps_catalog_refl keeps_catalog_trans);
    try solve [intros; split; reflexivity].
  - intros. unfold insert_users. catalog_walk.
  - intros uid now. unfold canEarnCredits. catalog_walk.
  - intros uid now. unfold earnCredits, insert_creditTransactions. catalog_walk.
  - intros uid. unfold spendCredit, insert_creditTransactions. catalog_walk.
  - intros r. unfold insert_referrals. catalog_walk.
Qed.

(** ** The writes to the token tables

    The footprint above lets a handler write anything to the token tables.
    The one below lists what the handlers do write there: a pending row at
    the end, or the status [Expired] or [Used] on the rows of one token. *)

Section TokenFootprint.

Variable ADMIN_IDS : list string.
Variable R : DB -> DB -> Prop.
Hypothesis R_refl : forall db, R db db.
Hypothesis R_trans : forall a b c, R a b -> R b c -> R a c.

Hypothesis T_users : forall f db, R db (with_users f db).
Hypothesis T_movieAccess : forall f db, R db (with_movieAccess f db).
Hypothesis T_creditTransactions : forall f db, R db (with_creditTransactions f db).
Hypothesis T_referrals : forall f db, R db (with_referrals f db).
Hypothesis T_mintMovie : forall u m t now,
  respects R (insert_movieVerifications (MovieVerifications.mk u m t Pending now)).
Hypothesis T_movieExpired : forall t db,
  R db (with_movieVerifications
          (update_where (movieTokenIs t) (MovieVerifications.set_status Expired)) db).
Hypothesis T_movieUsed : forall t db,
  R db (with_movieVerifications
          (update_where (movieTokenIs t) (MovieVerifications.set_status Used)) db).
Hypothesis T_mintCredit : forall u t n now,
  respects R (insert_creditVerifications (CreditVerifications.mk u t Pending n now)).
Hypothesis T_creditExpired : forall t db,
  R db (with_creditVerifications
          (update_where (creditTokenIs t) (CreditVerifications.set_status Expired)) db).
Hypothesis T_creditUsed : forall t db,
  R db (with_creditVerifications
          (update_where (creditTokenIs t) (CreditVerifications.set_status Used)) db).

Ltac token_leaf :=
  first
    [ apply T_mintMovie | apply T_mintCredit
    | apply respects_modify;
      first [ apply T_users | apply T_movieAccess | apply T_creditTransactions
            | apply T_referrals | apply T_movieExpired | apply T_movieUsed
            | apply T_creditExpired | apply T_creditUsed ] ].

Lemma tokens_canEarnCredits uid now : respects R (canEarnCredits uid now).
Proof. unfold canEarnCredits. respects_walk token_leaf. Qed.

Lemma tokens_earnCredits uid now : respects R (earnCredits uid now).
Proof. unfold earnCredits, insert_creditTransactions. respects_walk token_leaf. Qed.

Lemma tokens_spendCredit uid : respects R (spendCredit uid).
Proof. unfold spendCredit, insert_creditTransactions. respects_walk token_leaf. Qed.

Lemma tokens_getOrCreateUser tg n f :
  respects R (getOrCreateUser ADMIN_IDS tg n f).
Proof. unfold getOrCreateUser, insert_users. respects_walk token_leaf. Qed.

Lemma tokens_isAdmin tg : respects R (isAdmin ADMIN_IDS tg).
Proof. unfold isAdmin. respects_walk token_leaf. Qed.

Lemma tokens_isPremiumUser uid now : respects R (isPremiumUser uid now).
Proof. unfold isPremiumUser. respects_walk token_leaf. Qed.

Lemma tokens_insert_movieAccess a : respects R (insert_movieAccess a).
Proof. unfold insert_movieAccess. respects_walk token_leaf. Qed.

Ltac token_handler_leaf :=
  first
    [ apply tokens_getOrCreateUser | apply tokens_isAdmin
    | apply tokens_isPremiumUser | apply tokens_insert_movieAccess
    | apply tokens_canEarnCredits | apply tokens_earnCredits
    | token_leaf ].

Lemma tokens_getlink from fn pre now fu tok url :
  respects R (getlink ADMIN_IDS from fn pre now fu tok url).
Proof. unfold getlink. respects_walk token_handler_leaf. Qed.

Lemma tokens_checkverify from fn tok now fu :
  respects R (checkverify ADMIN_IDS from fn tok now fu).
Proof. unfold checkverify. respects_walk token_handler_leaf. Qed.

Lemma tokens_earnCreditsHandler from fn now fu tok url :
  respects R (earnCreditsHandler ADMIN_IDS from fn now fu tok url).
Proof. unfold earnCreditsHandler. respects_walk token_handler_leaf. Qed.

Lemma tokens_earncredits_callback from fn now fu tok url :
  respects R (earncredits_callback ADMIN_IDS from fn now fu tok url).
Proof. unfold earncredits_callback. respects_walk token_handler_leaf. Qed.

Lemma tokens_activate_callback from fn now fu url :
  respects R (activate_callback ADMIN_IDS from fn now fu url).
Proof. unfold activate_callback. respects_walk token_handler_leaf. Qed.

Lemma tokens_checkcredit from fn tok now fu :
  respects R (checkcredit ADMIN_IDS from fn tok now fu).
Proof. unfold checkcredit. respects_walk token_handler_leaf. Qed.

Lemma tokens_start from fn sp fu act nj :
  respects R (start ADMIN_IDS from fn sp fu act nj).
Proof.
  unfold start, referralHandling, insert_referrals.
  respects_walk token_handler_leaf.
Qed.

Lemma tokens_reset from target now :
  respects R (reset ADMIN_IDS from target now).
Proof. unfold reset. respects_walk token_handler_leaf. Qed.

Lemma tokens_verifyjoin from fn fu joined :
  respects R (verifyjoin ADMIN_IDS from fn fu joined).
Proof. unfold verifyjoin. respects_walk token_handler_leaf. Qed.

Lemma tokens_gated {A} from isVj isStart nj (handler : M A) :
  respects R handler -> respects R (gated ADMIN_IDS from isVj isStart nj handler).
Proof.
  intro H. unfold gated, middleware.
  respects_walk ltac:(first [exact H | token_handler_leaf]).
Qed.

Lemma tokens_step ev db : R db (step ADMIN_IDS ev db).
Proof.
  destruct ev; cbn [step]; try apply tokens_gated.
  - apply tokens_start.
  - apply tokens_getlink.
  - apply tokens_checkverify.
  - apply tokens_earnCreditsHandler.
  - apply tokens_earncredits_callback.
  - apply tokens_activate_callback.
  - apply tokens_checkcredit.
  - apply tokens_reset.
  - apply tokens_verifyjoin.
  - apply tokens_canEarnCredits.
  - apply tokens_earnCredits.
  - apply tokens_spendCredit.
Qed.

Lemma tokens_run evs : forall db, R db (run ADMIN_IDS evs db).
Proof.
  induction evs as [|ev evs IH]; intro db; cbn [run fold_left].
  - apply R_refl.
  - eapply R_trans; [apply tokens_step | apply IH].
Qed.

End TokenFootprint.

Lemma no_new_verified_refl db : no_new_verified db db.
Proof. split; intros t H; exact H. Qed.

Lemma no_new_verified_trans a b c :
  no_new_verified a b -> no_new_verified b c -> no_new_verified a c.
Proof. intros [H1 H2] [H3 H4]. split; intros t H; auto. Qed.

Lemma no_new_verified_same db db' :
  movieVerifications db' = movieVerifications db ->
  creditVerifications db' = creditVerifications db ->
  no_new_verified db db'.
Proof.
  intros H1 H2. unfold no_new_verified, verifiedMovieTokens, verifiedCreditTokens.
  rewrite H1, H2. split; intros t H; exact H.
Qed.

Lemma verified_after_status {T} (status : T -> TokenStatus) (token : T -> string)
  (set : TokenStatus -> T -> T) p s l :
  (forall v, status (set s v) = s) ->
  isVerified s = false ->
  forall t,
    In t (map token (filter (fun v => isVerified (status v)) (update_where p (set s) l))) ->
    In t (map token (filter (fun v => isVerified (status v)) l)).
Proof.
  intros Hset Hs t. unfold update_where.
  induction l as [|x xs IH]; cbn [map filter]; [intros []|].
  destruct (p x).
  - rewrite Hset, Hs. intro H. apply IH in H.
    destruct (isVerified (status x)); [right|]; exact H.
  - destruct (isVerified (status x)); cbn [map In]; [|exact IH].
    intros [H | H]; [left; exact H | right; apply IH, H].
Qed.

Lemma no_new_verified_mintMovie u m t now :
  respects no_new_verified
    (insert_movieVerifications (MovieVerifications.mk u m t Pending now)).
Proof.
  intro db. unfold insert_movieVerifications. unfold_monad.
  destruct (_ && _ && negb _); cbn [snd]; [|apply no_new_verified_refl].
  split; intros k H; [|exact H].
  unfold verifiedMovieTokens in *. cbn [movieVerifications with_movieVerifications] in H.
  rewrite filter_app in H. cbn [filter MovieVerifications.status isVerified] in H.
  rewrite app_nil_r in H. exact H.
Qed.

Lemma no_new_verified_mintCredit u t n now :
  respects no_new_verified
    (insert_creditVerifications (CreditVerifications.mk u t Pending n now)).
Proof.
  intro db. unfold insert_creditVerifications. unfold_monad.
  destruct (_ && negb _); cbn [snd]; [|apply no_new_verified_refl].
  split; intros k H; [exact H|].
  unfold verifiedCreditTokens in *. cbn [creditVerifications with_creditVerifications] in H.
  rewrite filter_app in H. cbn [filter CreditVerifications.status isVerified] in H.
  rewrite app_nil_r in H. exact H.
Qed.

Lemma no_new_verified_movieStatus p s db :
  isVerified s = false ->
  no_new_verified db
    (with_movieVerifications (update_where p (MovieVerifications.set_status s)) db).
Proof.
  intro Hs. split; intros t H; [|exact H].
  revert H. unfold verifiedMovieTokens.
  cbn [movieVerifications with_movieVerifications].
  apply (verified_after_status MovieVerifications.status MovieVerifications.token
           MovieVerifications.set_status); [reflexivity | exact Hs].
Qed.

Lemma no_new_verified_creditStatus p s db :
  isVerified s = false ->
  no_new_verified db
    (with_creditVerifications (update_where p (CreditVerifications.set_status s)) db).
Proof.
  intro Hs. split; intros t H; [exact H|].
  revert H. unfold verifiedCreditTokens.
  cbn [creditVerifications with_creditVerifications].
  apply (verified_after_status CreditVerifications.status CreditVerifications.token
           CreditVerifications.set_status); [reflexivity | exact Hs].
Qed.

(** X5: the bot never verifies a token itself.  After any sequence of
    updates, every token that is marked verified, in either token table, was
    already marked verified before the sequence: verification can only come
    from outside the handlers. *)
Theorem updates_never_verify (ADMIN_IDS : list string) (evs : list Event) (db : DB) :
  (forall t, In t (verifiedMovieTokens (run ADMIN_IDS evs db)) ->
             In t (verifiedMovieTokens db))
  /\ (forall t, In t (verifiedCreditTokens (run ADMIN_IDS evs db)) ->
                In t (verifiedCreditTokens db)).
Proof.
  apply (tokens_run ADMIN_IDS no_new_verified
           no_new_verified_refl no_new_verified_trans);
    try solve [intros; apply no_new_verified_same; reflexivity].
  - apply no_new_verified_mintMovie.
  - intros. apply no_new_verified_movieStatus. reflexivity.
  - intros. apply no_new_verified_movieStatus. reflexivity.
  - apply no_new_verified_mintCredit.
  - intros. apply no_new_verified_creditStatus. reflexivity.
  - intros. apply no_new_verified_creditStatus. reflexivity.
Qed.

Lemma tokens_unique_same db db' :
  movieVerifications db' = movieVerifications db ->
  creditVerifications db' = creditVerifications db ->
  preserves tokens_unique db db'.
Proof. intros H1 H2. unfold preserves, tokens_unique. rewrite H1, H2. auto. Qed.

Lemma NoDup_snoc {T} (l : list T) (x : T) : NoDup l -> ~ In x l -> NoDup (l ++ [x]).
Proof.
  intros Hl Hx. apply NoDup_app; [exact Hl | constructor; [intros [] | constructor] |].
  intros y Hy [<- | []]. exact (Hx Hy).
Qed.

Lemma tokens_unique_mintMovie v :
  respects (preserves tokens_unique) (insert_movieVerifications v).
Proof.
  intros db [H1 H2]. unfold insert_movieVerifications. unfold_monad.
  destruct (hasUser _ db && hasMovie _ db); cbn [andb snd]; [|split; assumption].
  destruct (existsb _ (movieVerifications db)) eqn:E; cbn [negb snd];
    [split; assumption|].
  split; [|exact H2]. cbn [movieVerifications with_movieVerifications].
  rewrite map_app. apply NoDup_snoc; [exact H1|].
  apply (existsb_false_not_In MovieVerifications.token String.eqb);
    [apply String.eqb_eq | exact E].
Qed.

Lemma tokens_unique_mintCredit v :
  respects (preserves tokens_unique) (insert_creditVerifications v).
Proof.
  intros db [H1 H2]. unfold insert_creditVerifications. unfold_monad.
  destruct (hasUser _ db); cbn [andb snd]; [|split; assumption].
  destruct (existsb _ (creditVerifications db)) eqn:E; cbn [negb snd];
    [split; assumption|].
  split; [exact H1|]. cbn [creditVerifications with_creditVerifications].
  rewrite map_app. apply NoDup_snoc; [exact H2|].
  apply (existsb_false_not_In CreditVerifications.token String.eqb);
    [apply String.eqb_eq | exact E].
Qed.

Lemma tokens_unique_movieStatus p s db :
  preserves tokens_unique db
    (with_movieVerifications (update_where p (MovieVerifications.set_status s)) db).
Proof.
  intros [H1 H2]. split; [|exact H2].
  cbn [movieVerifications with_movieVerifications].
  rewrite map_update_where_same; [exact H1 | reflexivity].
Qed.

Lemma tokens_unique_creditStatus p s db :
  preserves tokens_unique db
    (with_creditVerifications (update_where p (CreditVerifications.set_status s)) db).
Proof.
  intros [H1 H2]. split; [exact H1|].
  cbn [creditVerifications with_creditVerifications].
  rewrite map_update_where_same; [exact H2 | reflexivity].
Qed.

(** X6: token strings stay unique.  If no token string is stored twice in a
    token table, no sequence of updates makes one stored twice: a mint whose
    token is already stored is refused. *)
Theorem tokens_stay_unique (ADMIN_IDS : list string) (evs : list Event) (db : DB) :
  tokens_unique db -> tokens_unique (run ADMIN_IDS evs db).
Proof.
  apply (tokens_run ADMIN_IDS (preserves tokens_unique)
           (preserves_refl _) (preserves_trans _));
    try solve [intros; apply tokens_unique_same; reflexivity].
  - intros. apply tokens_unique_mintMovie.
  - intros. apply tokens_unique_movieStatus.
  - intros. apply tokens_unique_movieStatus.
  - intros. apply tokens_unique_mintCredit.
  - intros. apply tokens_unique_creditStatus.
  - intros. apply tokens_unique_creditStatus.
Qed.

Lemma keeps_tokens_refl db : keeps_tokens db db.
Proof. split; exists []; rewrite app_nil_r; reflexivity. Qed.

Lemma keeps_tokens_trans a b c :
  keeps_tokens a b -> keeps_tokens b c -> keeps_tokens a c.
Proof.
  intros [[x Hx] [y Hy]] [[x' Hx'] [y' Hy']]. split.
  - exists (x ++ x'). rewrite Hx', Hx, app_assoc. reflexivity.
  - exists (y ++ y'). rewrite Hy', Hy, app_assoc. reflexivity.
Qed.

Lemma keeps_tokens_same db db' :
  movieVerifications db' = movieVerifications db ->
  creditVerifications db' = creditVerifications db ->
  keeps_tokens db db'.
Proof. intros H1 H2. unfold keeps_tokens. rewrite H1, H2. apply keeps_tokens_refl. Qed.

Lemma keeps_tokens_mintMovie v : respects keeps_tokens (insert_movieVerifications v).
Proof.
  intro db. unfold insert_movieVerifications. unfold_monad.
  destruct (_ && _ && negb _); cbn [snd]; [|apply keeps_tokens_refl].
  split; [|exists []; rewrite app_nil_r; reflexivity].
  exists [movieTokenFacts v]. cbn [movieVerifications with_movieVerifications].
  rewrite map_app. reflexivity.
Qed.

Lemma keeps_tokens_mintCredit v : respects keeps_tokens (insert_creditVerifications v).
Proof.
  intro db. unfold insert_creditVerifications. unfold_monad.
  destruct (_ && negb _); cbn [snd]; [|apply keeps_tokens_refl].
  split; [exists []; rewrite app_nil_r; reflexivity|].
  exists [creditTokenFacts v]. cbn [creditVerifications with_creditVerifications].
  rewrite map_app. reflexivity.
Qed.

Lemma keeps_tokens_movieStatus p s db :
  keeps_tokens db
    (with_movieVerifications (update_where p (MovieVerifications.set_status s)) db).
Proof.
  split; exists []; rewrite app_nil_r; [|reflexivity].
  cbn [movieVerifications with_movieVerifications].
  apply map_update_where_same. reflexivity.
Qed.

Lemma keeps_tokens_creditStatus p s db :
  keeps_tokens db
    (with_creditVerifications (update_where p (CreditVerifications.set_status s)) db).
Proof.
  split; exists []; rewrite app_nil_r; [reflexivity|].
  cbn [creditVerifications with_creditVerifications].
  apply map_update_where_same. reflexivity.
Qed.

(** X7: tokens are never deleted, re-owned or re-dated by the user-facing
    handlers.  Over any sequence of updates every stored token row keeps its
    owner, its movie or credit amount, its token string and its creation
    time; rows are only added at the end. *)
Theorem updates_keep_tokens (ADMIN_IDS : list string) (evs : list Event) (db : DB) :
  (exists added,
     map movieTokenFacts (movieVerifications (run ADMIN_IDS evs db))
     = map movieTokenFacts (movieVerifications db) ++ added)
  /\ (exists added,
        map creditTokenFacts (creditVerifications (run ADMIN_IDS evs db))
        = map creditTokenFacts (creditVerifications db) ++ added).
Proof.
  apply (tokens_run ADMIN_IDS keeps_tokens keeps_tokens_refl keeps_tokens_trans);
    try solve [intros; apply keeps_tokens_same; reflexivity].
  - intros. apply keeps_tokens_mintMovie.
  - intros. apply keeps_tokens_movieStatus.
  - intros. apply keeps_tokens_movieStatus.
  - intros. apply keeps_tokens_mintCredit.
  - intros. apply keeps_tokens_creditStatus.
  - intros. apply keeps_tokens_creditStatus.
Qed.

(** ** The middleware *)

Lemma isAdmin_eval ADMIN_IDS from db :
  isAdmin ADMIN_IDS from db = (Ok (isAdminNow ADMIN_IDS from db), db).
Proof.
  unfold isAdmin, isAdminNow. unfold_monad.
  destruct (includes ADMIN_IDS from); reflexivity.
Qed.

Lemma middleware_eval ADMIN_IDS from isVj isStart nj db :
  middleware ADMIN_IDS from isVj isStart nj db
  = (Ok (isAdminNow ADMIN_IDS from db
         || negb (isBannedNow from db) && (isVj || isStart || negb nj)), db).
Proof.
  unfold middleware. unfold bind at 1. rewrite isAdmin_eval.
  destruct (isAdminNow ADMIN_IDS from db); [reflexivity|].
  unfold isBannedNow. unfold_monad.
  destruct (match filter (userByUsername from) (users db) with
            | [] => false
            | u :: _ => UserStatus_eqb (Users.status u) Banned
            end); [reflexivity|].
  destruct isVj, isStart, nj; reflexivity.
Qed.

Lemma gated_blocked ADMIN_IDS T from isVj isStart nj (handler : M T) db :
  isAdminNow ADMIN_IDS from db = false ->
  isBannedNow from db = true ->
  gated ADMIN_IDS from isVj isStart nj handler db = (Ok None, db).
Proof.
  intros Ha Hb. unfold gated. unfold bind at 1.
  rewrite middleware_eval, Ha, Hb. reflexivity.
Qed.

(** X8: a banned account can do nothing.  When the sender is banned and is
    not an admin, every handler behind the middleware, /start and the
    verifyjoin button included, is skipped without a write, and no sequence
    of updates from that sender changes the database. *)
Theorem banned_sender_changes_nothing (ADMIN_IDS : list string) (from : string)
  (db : DB) :
  isAdminNow ADMIN_IDS from db = false ->
  isBannedNow from db = true ->
  (forall (T : Type) isVerifyJoin isStart notJoined (handler : M T),
      gated ADMIN_IDS from isVerifyJoin isStart notJoined handler db = (Ok None, db))
  /\ (forall evs, Forall (fun ev => sender ev = Some from) evs ->
                  run ADMIN_IDS evs db = db).
Proof.
  intros Ha Hb. split.
  - intros. apply gated_blocked; assumption.
  - intros evs Hevs. induction Hevs as [|ev evs Hev _ IH]; [reflexivity|].
    cbn [run fold_left]. change (fold_left _ evs ?d) with (run ADMIN_IDS evs d).
    assert (Hstep : step ADMIN_IDS ev db = db).
    { destruct ev; cbn [sender] in Hev; try discriminate;
        injection Hev as ->; cbn [step]; unfold exec;
        rewrite gated_blocked by assumption; reflexivity. }
    rewrite Hstep. exact IH.
Qed.



(** ** Administration commands *)

Lemma In_filter_head {T} (q : T -> bool) l u :
  In u l -> q u = true -> exists x xs, filter q l = x :: xs.
Proof.
  intros Hin Hq.
  destruct (filter q l) as [|x xs] eqn:E; [|eauto].
  assert (H : In u (filter q l)) by (apply filter_In; auto).
  rewrite E in H. destruct H.
Qed.

Lemma update_where_absent {T} (p : T -> bool) f l :
  existsb p l = false -> update_where p f l = l.
Proof.
  unfold update_where. induction l as [|x xs IH]; cbn [existsb map]; [reflexivity|].
  intro H. apply orb_false_iff in H. destruct H as [Hx Hxs].
  rewrite Hx, IH by exact Hxs. reflexivity.
Qed.

Lemma isAdminNow_update ADMIN_IDS from p f db :
  (forall x, Users.username (f x) = Users.username x) ->
  (forall x, Users.role (f x) = Users.role x) ->
  isAdminNow ADMIN_IDS from (with_users (update_where p f) db)
  = isAdminNow ADMIN_IDS from db.
Proof.
  intros Hn Hr. unfold isAdminNow. cbn [users with_users].
  rewrite filter_update_where_comm
    by (intro x; unfold userByUsername; rewrite Hn; reflexivity).
  destruct (filter (userByUsername from) (users db)) as [|x xs]; [reflexivity|].
  unfold update_where. cbn [map]. destruct (p x); [rewrite Hr|]; reflexivity.
Qed.

(** X10: the administration commands are closed to everyone else.  For a
    sender who is neither listed in ADMIN_IDS nor an admin by stored role,
    /ban, /unban, /premium, /rmpremium, /delete and /reset answer that the
    command is for admins only and write nothing, whatever their arguments. *)
Theorem admin_commands_refuse_non_admins (ADMIN_IDS : list string)
  (parseInt : string -> option Z) (addDays : Instant -> Z -> Instant)
  (fuseSearch : list Movies.row -> string -> list Movies.row)
  (stripAngles : string -> string)
  (from target : string) (args : list string) (now : Instant) (db : DB) :
  isAdminNow ADMIN_IDS from db = false ->
  ban ADMIN_IDS from target db = (Ok AR_AdminOnly, db)
  /\ unban ADMIN_IDS from target db = (Ok AR_AdminOnly, db)
  /\ premium ADMIN_IDS parseInt addDays from args now db = (Ok AR_AdminOnly, db)
  /\ rmpremium ADMIN_IDS from args db = (Ok AR_AdminOnly, db)
  /\ delete ADMIN_IDS fuseSearch stripAngles from target db = (Ok AR_AdminOnly, db)
  /\ reset ADMIN_IDS from target now db = (Ok RS_AdminOnly, db).
Proof.
  intro Ha.
  unfold ban, unban, premium, rmpremium, delete, reset.
  repeat split; unfold bind at 1; rewrite isAdmin_eval, Ha; reflexivity.
Qed.

Lemma ban_run ADMIN_IDS from target db t ts :
  isAdminNow ADMIN_IDS from db = true ->
  target <> EmptyString ->
  filter (userByUsername target) (users db) = t :: ts ->
  ban ADMIN_IDS from target db
  = (Ok (AR_Done (Users.displayName t)),
     with_users (update_where (userByUsername target) (set_user_status Banned)) db).
Proof.
  intros Ha Hne Ht. unfold ban. unfold bind at 1. rewrite isAdmin_eval, Ha.
  cbn [negb]. apply String.eqb_neq in Hne. rewrite Hne.
  unfold_monad. rewrite Ht. reflexivity.
Qed.

Lemma unban_run ADMIN_IDS from target db t ts :
  isAdminNow ADMIN_IDS from db = true ->
  target <> EmptyString ->
  filter (userByUsername target) (users db) = t :: ts ->
  unban ADMIN_IDS from target db
  = (Ok (AR_Done (Users.displayName t)),
     with_users (update_where (userByUsername target) (set_user_status Active)) db).
Proof.
  intros Ha Hne Ht. unfold unban. unfold bind at 1. rewrite isAdmin_eval, Ha.
  cbn [negb]. apply String.eqb_neq in Hne. rewrite Hne.
  unfold_monad. rewrite Ht. reflexivity.
Qed.

Lemma status_after_update target s db t ts :
  filter (userByUsername target) (users db) = t :: ts ->
  filter (userByUsername target)
    (users (with_users (update_where (userByUsername target) (set_user_status s)) db))
  = set_user_status s t
    :: update_where (userByUsername target) (set_user_status s) ts.
Proof.
  intro Ht. cbn [users with_users].
  rewrite filter_update_where_comm by reflexivity. rewrite Ht.
  unfold update_where. cbn [map].
  destruct (filter_head_In _ _ _ _ Ht) as [_ Hq]. rewrite Hq. reflexivity.
Qed.

Lemma unban_ban_users target l :
  Forall (fun u => Users.username u = target -> Users.status u = Active) l ->
  update_where (userByUsername target) (set_user_status Active)
    (update_where (userByUsername target) (set_user_status Banned) l) = l.
Proof.
  unfold update_where. induction 1 as [|u l Hu _ IH]; cbn [map]; [reflexivity|].
  rewrite IH. f_equal.
  destruct (userByUsername target u) eqn:E.
  - change (userByUsername target (set_user_status Banned u))
      with (userByUsername target u). rewrite E.
    apply String.eqb_eq in E. specialize (Hu E).
    destruct u; cbn in *. subst. reflexivity.
  - rewrite E. reflexivity.
Qed.

(** X12: /ban locks an account out and /unban undoes it.  After an admin
    bans an account that exists, the account counts as banned; unless it is
    itself an admin, every handler behind the middleware is then skipped for
    it without a write.  After /unban it no longer counts as banned, and if
    the account was active before the ban the database is exactly as
    before. *)
Theorem ban_blocks_unban_restores (ADMIN_IDS : list string) (from target : string)
  (db : DB) (t : Users.row) (ts : list Users.row) :
  isAdminNow ADMIN_IDS from db = true ->
  target <> EmptyString ->
  filter (userByUsername target) (users db) = t :: ts ->
  let db1 := exec (ban ADMIN_IDS from target) db in
  let db2 := exec (unban ADMIN_IDS from target) db1 in
  result (ban ADMIN_IDS from target) db = Ok (AR_Done (Users.displayName t))
  /\ isBannedNow target db1 = true
  /\ (isAdminNow ADMIN_IDS target db = false ->
      forall (T : Type) isVerifyJoin isStart notJoined (handler : M T),
        gated ADMIN_IDS target isVerifyJoin isStart notJoined handler db1
        = (Ok None, db1))
  /\ result (unban ADMIN_IDS from target) db1 = Ok (AR_Done (Users.displayName t))
  /\ isBannedNow target db2 = false
  /\ (Forall (fun u => Users.username u = target -> Users.status u = Active) (users db) ->
      db2 = db).
Proof.
  intros Ha Hne Ht db1 db2.
  assert (E1 : db1 = with_users (update_where (userByUsername target)
                                   (set_user_status Banned)) db).
  { subst db1. unfold exec. rewrite (ban_run _ _ _ _ _ _ Ha Hne Ht). reflexivity. }
  pose proof (status_after_update target Banned db t ts Ht) as Ht1.
  rewrite <- E1 in Ht1.
  assert (Ha1 : isAdminNow ADMIN_IDS from db1 = true).
  { rewrite E1, isAdminNow_update by reflexivity. exact Ha. }
  assert (E2 : db2 = with_users (update_where (userByUsername target)
                                   (set_user_status Active)) db1).
  { subst db2. unfold exec. rewrite (unban_run _ _ _ _ _ _ Ha1 Hne Ht1). reflexivity. }
  pose proof (status_after_update target Active db1 _ _ Ht1) as Ht2.
  rewrite <- E2 in Ht2.
  split; [unfold result; rewrite (ban_run _ _ _ _ _ _ Ha Hne Ht); reflexivity|].
  split; [unfold isBannedNow; rewrite Ht1; reflexivity|].
  split.
  { intros Hna T isVj isStart nj h. apply gated_blocked.
    - rewrite E1, isAdminNow_update by reflexivity. exact Hna.
    - unfold isBannedNow. rewrite Ht1. reflexivity. }
  split; [unfold result; rewrite (unban_run _ _ _ _ _ _ Ha1 Hne Ht1); reflexivity|].
  split; [unfold isBannedNow; rewrite Ht2; reflexivity|].
  intro Hact. rewrite E2, E1. destruct db as [us ms mas mac mv cv ct rf].
  unfold with_users. cbn [users movies movieAssets movieAccess movieVerifications
    creditVerifications creditTransactions referrals] in *.
  rewrite (unban_ban_users target us Hact). reflexivity.
Qed.



(** X14: /reset gives the target a fresh start.  After an admin resets an
    existing account its balance is 0, the other balances are unchanged, and
    the account is allowed to earn at every later call, whatever the time. *)
Theorem reset_then_can_earn (ADMIN_IDS : list string) (from target : string)
  (now : Instant) (db : DB) (u : Users.row) (us : list Users.row) :
  isAdminNow ADMIN_IDS from db = true ->
  target <> EmptyString ->
  filter (userByUsername target) (users db) = u :: us ->
  let db1 := exec (reset ADMIN_IDS from target now) db in
  result (reset ADMIN_IDS from target now) db = Ok RS_Done
  /\ balance (Users.id u) db1 = 0
  /\ (forall acct, acct <> Users.id u -> balance acct db1 = balance acct db)
  /\ (forall t, result (canEarnCredits (Users.id u) t) db1
                = Ok (mkCanEarn true None None)).
Proof.
  intros Ha Hne Hu db1.
  set (f := fun r => Users.set_lastCreditReset (Some now) (Users.set_credits 0 r)).
  assert (R1 : reset ADMIN_IDS from target now db
               = (Ok RS_Done, with_users (update_where (userById (Users.id u)) f) db)).
  { unfold reset. unfold bind at 1. rewrite isAdmin_eval, Ha. cbn [negb].
    apply String.eqb_neq in Hne. rewrite Hne. unfold_monad. rewrite Hu. reflexivity. }
  assert (E1 : db1 = with_users (update_where (userById (Users.id u)) f) db).
  { subst db1. unfold exec. rewrite R1. reflexivity. }
  destruct (filter_head_In _ _ _ _ Hu) as [Hin _].
  destruct (In_filter_head (userById (Users.id u)) (users db) u Hin) as (x & xs & Ex).
  { unfold userById. apply String.eqb_refl. }
  assert (Ex1 : filter (userById (Users.id u)) (users db1)
                = f x :: update_where (userById (Users.id u)) f xs).
  { rewrite E1. cbn [users with_users].
    rewrite filter_update_where_comm by reflexivity. rewrite Ex.
    unfold update_where. cbn [map].
    destruct (filter_head_In _ _ _ _ Ex) as [_ Hq]. rewrite Hq. reflexivity. }
  split; [unfold result; rewrite R1; reflexivity|].
  split; [unfold balance; rewrite Ex1; reflexivity|].
  split.
  { intros acct Hacct. rewrite E1, balance_update_users by reflexivity.
    unfold balance. apply String.eqb_neq in Hacct. rewrite Hacct. reflexivity. }
  intro t. unfold result, canEarnCredits. unfold_monad. rewrite Ex1.
  cbn [f Users.lastCreditReset Users.set_lastCreditReset Users.credits
       Users.set_credits].
  destruct (12 * HOUR_MS <=? t - now); reflexivity.
Qed.

Lemma addadmin_owner ADMIN_IDS parseInt caller text fid n db :
  includes ADMIN_IDS (idString caller) = true ->
  text <> EmptyString ->
  parseInt text = Some n ->
  n <> caller ->
  addadmin ADMIN_IDS parseInt caller text fid db
  = match filter (userByUsername text) (users db) with
    | [] =>
      (r <- insert_users (Users.mk fid text ("Admin_" ++ text)%string
                            RoleAdmin Active 0 None false None);;
       ret (AR_Done text)) db
    | u :: _ =>
      if Role_eqb (Users.role u) RoleAdmin
      then (Ok (AR_AlreadyAdmin (Users.displayName u)), db)
      else (Ok (AR_Done (Users.displayName u)),
            with_users (update_where (userById (Users.id u))
                          (set_user_role RoleAdmin)) db)
    end.
Proof.
  intros Ho Hne Hp Hn. unfold addadmin. rewrite Ho. cbn [negb].
  apply String.eqb_neq in Hne. rewrite Hne, Hp.
  apply Z.eqb_neq in Hn. rewrite Hn.
  unfold bind at 1. unfold select at 1, gets at 1.
  destruct (filter (userByUsername text) (users db)) as [|u us]; [reflexivity|].
  destruct (Role_eqb (Users.role u) RoleAdmin); reflexivity.
Qed.

(** X11: only an owner makes admins, and the new admin is one at once.
    /addadmin from a caller who is not listed in ADMIN_IDS is refused without
    a write, even when the caller is an admin by stored role.  From an owner,
    with the id of someone else, it leaves the target an admin for [isAdmin],
    whether the target was unknown, a plain user or already an admin. *)
Theorem addadmin_owner_only_and_effective (ADMIN_IDS : list string)
  (parseInt : string -> option Z) (caller : Z) (text : string) (fid : Id) (db : DB) :
  (includes ADMIN_IDS (idString caller) = false ->
   addadmin ADMIN_IDS parseInt caller text fid db = (Ok AR_OwnerOnly, db))
  /\ (forall n,
        includes ADMIN_IDS (idString caller) = true ->
        text <> EmptyString ->
        parseInt text = Some n ->
        n <> caller ->
        existsb (userById fid) (users db) = false ->
        result (isAdmin ADMIN_IDS text)
          (exec (addadmin ADMIN_IDS parseInt caller text fid) db) = Ok true).
Proof.
  split.
  - intro Ho. unfold addadmin. rewrite Ho. reflexivity.
  - intros n Ho Hne Hp Hn Hfid.
    unfold result. rewrite isAdmin_eval. cbn [fst]. f_equal.
    unfold exec. rewrite (addadmin_owner _ _ _ _ _ _ _ Ho Hne Hp Hn).
    unfold isAdminNow.
    destruct (filter (userByUsername text) (users db)) as [|u us] eqn:Eu.
    + apply filter_nil_existsb in Eu.
      unfold insert_users. unfold_monad. cbn [Users.id Users.username].
      rewrite Hfid, Eu. cbn [negb andb snd users with_users].
      rewrite filter_app. cbn [filter]. unfold userByUsername at 2.
      cbn [Users.username]. rewrite String.eqb_refl.
      destruct (filter (userByUsername text) (users db)) as [|y ys] eqn:Ey.
      * cbn [app Users.role Role_eqb]. apply orb_true_r.
      * apply filter_head_existsb in Ey. congruence.
    + destruct (Role_eqb (Users.role u) RoleAdmin) eqn:Er; cbn [snd].
      * rewrite Eu, Er. apply orb_true_r.
      * cbn [users with_users].
        rewrite filter_update_where_comm by reflexivity. rewrite Eu.
        unfold update_where. cbn [map]. unfold userById at 1.
        rewrite String.eqb_refl. cbn [set_user_role Users.role Role_eqb].
        apply orb_true_r.
Qed.

Lemma startsWith_app p s : startsWith p (p ++ s) = true.
Proof.
  unfold startsWith. induction p as [|c p IH]; cbn [String.prefix append];
    [destruct s; reflexivity|].
  destruct (ascii_dec c c) as [_|N]; [exact IH | exfalso; apply N; reflexivity].
Qed.

(** X15: the placeholder account of a new admin.  When an owner names an id
    that has no account, /addadmin stores an admin account for it; at that
    person's first contact the account is found, takes the name Telegram
    reports, and is not reported as new; no second account is made. *)
Theorem addadmin_placeholder_first_contact (ADMIN_IDS : list string)
  (parseInt : string -> option Z) (caller n : Z) (text fn : string)
  (fid fid2 : Id) (db : DB) :
  includes ADMIN_IDS (idString caller) = true ->
  text <> EmptyString ->
  parseInt text = Some n ->
  n <> caller ->
  existsb (userByUsername text) (users db) = false ->
  existsb (userById fid) (users db) = false ->
  let db1 := exec (addadmin ADMIN_IDS parseInt caller text fid) db in
  let account := Users.mk fid text fn RoleAdmin Active 0 None false None in
  result (addadmin ADMIN_IDS parseInt caller text fid) db = Ok (AR_Done text)
  /\ getOrCreateUser ADMIN_IDS text fn fid2 db1
     = (Ok (account, false), with_users (fun _ => users db ++ [account]) db).
Proof.
  intros Ho Hne Hp Hn Hname Hfid db1 account.
  set (placeholder := Users.mk fid text ("Admin_" ++ text)%string
                        RoleAdmin Active 0 None false None).
  assert (Hnil : filter (userByUsername text) (users db) = []).
  { destruct (filter (userByUsername text) (users db)) as [|x xs] eqn:E; [reflexivity|].
    apply filter_head_existsb in E. congruence. }
  assert (R1 : addadmin ADMIN_IDS parseInt caller text fid db
               = (Ok (AR_Done text), with_users (fun l => l ++ [placeholder]) db)).
  { rewrite (addadmin_owner _ _ _ _ _ _ _ Ho Hne Hp Hn), Hnil.
    unfold insert_users. unfold_monad. cbn [Users.id Users.username].
    rewrite Hfid, Hname. reflexivity. }
  split; [unfold result; rewrite R1; reflexivity|].
  assert (E1 : db1 = with_users (fun l => l ++ [placeholder]) db).
  { subst db1. unfold exec. rewrite R1. reflexivity. }
  assert (Hfind : filter (userByUsername text) (users db1) = [placeholder]).
  { rewrite E1. cbn [users with_users]. rewrite filter_app, Hnil. cbn [filter app].
    unfold userByUsername. cbn [placeholder Users.username].
    rewrite String.eqb_refl. reflexivity. }
  rewrite (getOrCreateUser_existing _ _ _ _ _ _ _ Hfind).
  unfold touchedRow, touchUser. cbn [placeholder Users.displayName Users.id].
  rewrite startsWith_app.
  assert (Hd : (("Admin_" ++ text)%string =? EmptyString)%string = false)
    by reflexivity.
  rewrite Hd. cbn [negb andb]. f_equal.
  rewrite E1. destruct db as [us ms mas mac mv cv ct rf].
  unfold with_users. cbn [users movies movieAssets movieAccess movieVerifications
    creditVerifications creditTransactions referrals] in *.
  f_equal. unfold update_where. rewrite map_app. cbn [map].
  unfold userById at 2. cbn [placeholder Users.id]. rewrite String.eqb_refl.
  f_equal. apply (update_where_absent (userById fid)). exact Hfid.
Qed.

(** X16: /delete removes a movie with everything that hangs on it.  After an
    admin deletes the best match [m], no movie, asset, access grant or
    content token refers to the identifier of [m], the rows of the other
    movies are all still there, accounts and credit tables are untouched,
    and a check of a token that was minted for [m] answers that the token is
    not found. *)
Theorem delete_cascade (ADMIN_IDS : list string)
  (fuseSearch : list Movies.row -> string -> list Movies.row)
  (stripAngles : string -> string) (from text : string) (db : DB)
  (m : Movies.row) (rest : list Movies.row) :
  isAdminNow ADMIN_IDS from db = true ->
  text <> EmptyString ->
  fuseSearch (movies db) (stripAngles text) = m :: rest ->
  let db1 := exec (delete ADMIN_IDS fuseSearch stripAngles from text) db in
  result (delete ADMIN_IDS fuseSearch stripAngles from text) db
  = Ok (AR_Done (Movies.displayTitle m))
  /\ (forall x, In x (movies db1) <-> In x (movies db) /\ Movies.id x <> Movies.id m)
  /\ (forall a, In a (movieAssets db1)
                <-> In a (movieAssets db) /\ MovieAssets.movieId a <> Movies.id m)
  /\ (forall a, In a (movieAccess db1)
                <-> In a (movieAccess db) /\ MovieAccess.movieId a <> Movies.id m)
  /\ (forall v, In v (movieVerifications db1)
                <-> In v (movieVerifications db)
                    /\ MovieVerifications.movieId v <> Movies.id m)
  /\ users db1 = users db
  /\ creditVerifications db1 = creditVerifications db
  /\ creditTransactions db1 = creditTransactions db
  /\ referrals db1 = referrals db
  /\ (forall asker fn tok now fu e es,
        filter (userByUsername asker) (users db) = e :: es ->
        (forall v, In v (movieVerifications db) -> MovieVerifications.token v = tok ->
                   MovieVerifications.movieId v = Movies.id m) ->
        result (checkverify ADMIN_IDS asker fn tok now fu) db1 = Ok VR_NotFound).
Proof.
  intros Ha Hne Hm db1.
  assert (R1 : delete ADMIN_IDS fuseSearch stripAngles from text db
    = (Ok (AR_Done (Movies.displayTitle m)),
       with_movies
         (delete_where (fun x => (Movies.id x =? Movies.id m)%string))
         (with_movieVerifications
            (delete_where (fun v => (MovieVerifications.movieId v =? Movies.id m)%string))
            (with_movieAccess
               (delete_where (fun a => (MovieAccess.movieId a =? Movies.id m)%string))
               (with_movieAssets
                  (delete_where (fun a => (MovieAssets.movieId a =? Movies.id m)%string))
                  db))))).
  { unfold delete. unfold bind at 1. rewrite isAdmin_eval, Ha. cbn [negb].
    apply String.eqb_neq in Hne. rewrite Hne.
    unfold bind at 1. unfold gets at 1. rewrite Hm. reflexivity. }
  assert (E1 : db1 = snd (delete ADMIN_IDS fuseSearch stripAngles from text db))
    by reflexivity.
  rewrite R1 in E1. cbn [snd] in E1.
  assert (Hdel : forall {T} (key : T -> string) (l : list T) x,
             In x (delete_where (fun y => (key y =? Movies.id m)%string) l)
             <-> In x l /\ key x <> Movies.id m).
  { intros T key l x. unfold delete_where. rewrite filter_In.
    rewrite negb_true_iff, String.eqb_neq. reflexivity. }
  split; [unfold result; rewrite R1; reflexivity|].
  rewrite E1. cbn [movies movieAssets movieAccess movieVerifications users
    creditVerifications creditTransactions referrals
    with_movies with_movieVerifications with_movieAccess with_movieAssets].
  split; [intro x; apply (Hdel _ Movies.id)|].
  split; [intro x; apply (Hdel _ MovieAssets.movieId)|].
  split; [intro x; apply (Hdel _ MovieAccess.movieId)|].
  split; [intro x; apply (Hdel _ MovieVerifications.movieId)|].
  repeat (split; [reflexivity|]).
  intros asker fn tok now fu e es He Htok.
  rewrite <- E1.
  assert (He1 : filter (userByUsername asker) (users db1) = e :: es)
    by (rewrite E1; exact He).
  unfold result, checkverify. unfold bind at 1.
  rewrite (getOrCreateUser_existing _ _ _ _ _ _ _ He1).
  unfold bind at 1. unfold select at 1, gets at 1.
  destruct (touchUser_tables e fn db1) as (_ & _ & _ & Tmv & _). rewrite Tmv.
  destruct (filter (movieTokenIs tok) (movieVerifications db1)) as [|v vs] eqn:Ev;
    [reflexivity|].
  exfalso. destruct (filter_head_In _ _ _ _ Ev) as [Hin Hq].
  rewrite E1 in Hin. cbn [movieVerifications with_movies with_movieVerifications] in Hin.
  apply (Hdel _ MovieVerifications.movieId) in Hin. destruct Hin as [Hin Hmid].
  apply Hmid, Htok; [exact Hin|]. apply String.eqb_eq. exact Hq.
Qed.

(** ** What /getlink writes *)

Lemma renamed_log db db' :
  renamed db db' -> creditTransactions db' = creditTransactions db.
Proof. intro H. apply renamed_tables in H. tauto. Qed.

(** X17: the reply of /getlink tells what was written.  For a sender with an
    account: a verification link (or the link error that follows a failed
    shortener call) comes with exactly one new pending token, for the sender
    and the movie found, and no change of access; content comes without a
    token, and access changes only when the premium notice is shown, by a
    grant or renewal at [now]; every other outcome writes neither.  On no
    path does a balance or the credit log change. *)
Theorem getlink_reply_tells_writes (ADMIN_IDS : list string)
  (from fn pre tok : string) (now : Instant) (fu : Id) (url : option string)
  (db : DB) (e : Users.row) (es es' : list Users.row) :
  filter (userByUsername from) (users db) = e :: es ->
  filter (userById (Users.id e)) (users db) = e :: es' ->
  let r := getlink ADMIN_IDS from fn pre now fu tok url db in
  match fst r with
  | Ok (GL_Verify _ _ _) | Ok GL_LinkError =>
    (exists m,
        find (fun x => startsWith pre (Movies.id x)) (movies db) = Some m
        /\ movieVerifications (snd r)
           = movieVerifications db
             ++ [MovieVerifications.mk (Users.id e) (Movies.id m) tok Pending now])
    /\ movieAccess (snd r) = movieAccess db
  | Ok (GL_Content premiumNotice d) =>
    movieVerifications (snd r) = movieVerifications db
    /\ (movieAccess (snd r) = movieAccess db
        \/ premiumNotice = true
           /\ movieAccess (snd r)
              = grantOrRenew (Users.id e) (Movies.id (d_movie d)) now (movieAccess db))
  | _ =>
    movieVerifications (snd r) = movieVerifications db
    /\ movieAccess (snd r) = movieAccess db
  end
  /\ creditTransactions (snd r) = creditTransactions db
  /\ map Users.credits (users (snd r)) = map Users.credits (users db).
Proof.
  intros Hname Hid r. subst r.
  rewrite (getlink_existing _ _ _ _ _ _ _ _ _ _ _ _ Hname Hid). cbv zeta.
  pose proof (touchUser_renamed e fn db) as Hren.
  pose proof (renamed_credits _ _ Hren) as Hcr.
  destruct (touchUser_tables e fn db) as (Tm & Tas & Tac & Tmv & Tcv & Tct & Trf).
  destruct (find (fun m => startsWith pre (Movies.id m)) (movies db)) as [movie|];
    [|cbn [fst snd]; auto].
  destruct (negb _ && negb (valid _) && negb _); [cbn [fst snd]; auto|].
  destruct (negb _ && negb _); [cbn [fst snd]; auto|].
  destruct (includes ADMIN_IDS from || Role_eqb (Users.role e) RoleAdmin);
    [cbn [fst snd]; auto|].
  destruct (premiumActive e now).
  { destruct (valid _); cbn [fst snd movieVerifications movieAccess users
      creditTransactions with_movieAccess sendMovieContent d_movie].
    - auto.
    - rewrite Tac. auto. }
  destruct (valid _); [cbn [fst snd]; auto|].
  destruct (existsb (movieTokenIs tok) (movieVerifications db));
    [cbn [fst snd]; auto|].
  destruct url; cbn [fst snd movieVerifications movieAccess users creditTransactions
    with_movieVerifications]; rewrite Tmv; eauto 6.
Qed.

(** ** Checking tokens *)

Lemma checkverify_stranger ADMIN_IDS from fn tok now fu db e es v vs :
  filter (userByUsername from) (users db) = e :: es ->
  filter (movieTokenIs tok) (movieVerifications db) = v :: vs ->
  MovieVerifications.userId v <> Users.id e ->
  checkverify ADMIN_IDS from fn tok now fu db = (Ok VR_NotYours, touchUser e fn db).
Proof.
  intros He Hv Hne. unfold checkverify. unfold bind at 1.
  rewrite (getOrCreateUser_existing _ _ _ _ _ _ _ He), touchedRow_id.
  unfold bind at 1. unfold select at 1, gets at 1.
  destruct (touchUser_tables e fn db) as (_ & _ & _ & Tmv & _). rewrite Tmv, Hv.
  apply String.eqb_neq in Hne. rewrite Hne. reflexivity.
Qed.

Lemma checkcredit_stranger ADMIN_IDS from fn tok now fu db e es w ws :
  filter (userByUsername from) (users db) = e :: es ->
  filter (creditTokenIs tok) (creditVerifications db) = w :: ws ->
  CreditVerifications.userId w <> Users.id e ->
  checkcredit ADMIN_IDS from fn tok now fu db = (Ok CR_NotYours, touchUser e fn db).
Proof.
  intros He Hw Hne. unfold checkcredit. unfold bind at 1.
  rewrite (getOrCreateUser_existing _ _ _ _ _ _ _ He), touchedRow_id.
  unfold bind at 1. unfold select at 1, gets at 1.
  destruct (touchUser_tables e fn db) as (_ & _ & _ & _ & Tcv & _). rewrite Tcv, Hw.
  apply String.eqb_neq in Hne. rewrite Hne. reflexivity.
Qed.

(** X18: a token is bound to the account it was minted for.  When an account
    presents a content token that belongs to another account, the answer is
    that the token is not theirs, whatever the status and age of the token,
    even verified: no access is granted and the token keeps its status for
    its owner.  Likewise, and independently, for a credit token of another
    account: no credit is earned, nothing is logged and the token keeps its
    status. *)
Theorem token_of_another_account (ADMIN_IDS : list string)
  (from fn : string) (now : Instant) (fu : Id) (db : DB) :
  (forall (e : Users.row) es tok (v : MovieVerifications.row) vs,
      filter (userByUsername from) (users db) = e :: es ->
      filter (movieTokenIs tok) (movieVerifications db) = v :: vs ->
      MovieVerifications.userId v <> Users.id e ->
      let rM := checkverify ADMIN_IDS from fn tok now fu db in
      fst rM = Ok VR_NotYours
      /\ movieVerifications (snd rM) = movieVerifications db
      /\ movieAccess (snd rM) = movieAccess db)
  /\ (forall (e : Users.row) es tok (w : CreditVerifications.row) ws,
      filter (userByUsername from) (users db) = e :: es ->
      filter (creditTokenIs tok) (creditVerifications db) = w :: ws ->
      CreditVerifications.userId w <> Users.id e ->
      let rC := checkcredit ADMIN_IDS from fn tok now fu db in
      fst rC = Ok CR_NotYours
      /\ creditVerifications (snd rC) = creditVerifications db
      /\ creditTransactions (snd rC) = creditTransactions db
      /\ map Users.credits (users (snd rC)) = map Users.credits (users db)).
Proof.
  split.
  - intros e es tok v vs He Hv Hnv rM. subst rM.
    rewrite (checkverify_stranger _ _ _ _ _ _ _ _ _ _ _ He Hv Hnv).
    destruct (touchUser_tables e fn db) as (_ & _ & Tac & Tmv & _).
    cbn [fst snd]. auto.
  - intros e es tok w ws He Hw Hnw rC. subst rC.
    rewrite (checkcredit_stranger _ _ _ _ _ _ _ _ _ _ _ He Hw Hnw).
    destruct (touchUser_tables e fn db) as (_ & _ & _ & _ & Tcv & Tct & _).
    pose proof (renamed_credits _ _ (touchUser_renamed e fn db)) as Hcr.
    cbn [fst snd]. auto.
Qed.

Lemma resolves_same_users db db' from uid :
  users db' = users db -> resolves from uid db -> resolves from uid db'.
Proof. intros H (e & es & He & Hid). exists e, es. rewrite H. auto. Qed.

Lemma getlink_mint_shape ADMIN_IDS from fn pre now fu tok url db e es es' t u n :
  filter (userByUsername from) (users db) = e :: es ->
  filter (userById (Users.id e)) (users db) = e :: es' ->
  fst (getlink ADMIN_IDS from fn pre now fu tok url db) = Ok (GL_Verify t u n) ->
  t = tok
  /\ existsb (movieTokenIs tok) (movieVerifications db) = false
  /\ exists m,
       snd (getlink ADMIN_IDS from fn pre now fu tok url db)
       = with_movieVerifications
           (fun l => l ++ [MovieVerifications.mk (Users.id e) (Movies.id m) tok
                             Pending now])
           (touchUser e fn db).
Proof.
  intros Hname Hid.
  rewrite (getlink_existing _ _ _ _ _ _ _ _ _ _ _ _ Hname Hid). cbv zeta.
  destruct (find (fun m => startsWith pre (Movies.id m)) (movies db)) as [movie|];
    [|cbn [fst]; discriminate].
  destruct (negb _ && negb (valid _) && negb _); [cbn [fst]; discriminate|].
  destruct (negb _ && negb _); [cbn [fst]; discriminate|].
  destruct (includes ADMIN_IDS from || Role_eqb (Users.role e) RoleAdmin);
    [cbn [fst]; discriminate|].
  destruct (premiumActive e now); [cbn [fst]; discriminate|].
  destruct (valid _); [cbn [fst]; discriminate|].
  destruct (existsb (movieTokenIs tok) (movieVerifications db));
    [cbn [fst]; discriminate|].
  destruct url; cbn [fst snd]; [|discriminate].
  intro H. inversion H; subst. split; [reflexivity|]. split; eauto.
Qed.

(** X19: a fresh link cannot be claimed.  When /getlink answers with a
    verification link, the token it minted is pending, and a check of it by
    the same sender grants nothing: within the hour the answer is to
    complete the verification first, after the hour that the token has
    expired; in both cases the access table is as before the /getlink. *)
Theorem minted_link_not_claimable (ADMIN_IDS : list string)
  (from fn pre tok : string) (now : Instant) (fu : Id) (url : option string)
  (db : DB) (e : Users.row) (es es' : list Users.row)
  (t u : string) (note : bool) :
  filter (userByUsername from) (users db) = e :: es ->
  filter (userById (Users.id e)) (users db) = e :: es' ->
  fst (getlink ADMIN_IDS from fn pre now fu tok url db) = Ok (GL_Verify t u note) ->
  let db1 := snd (getlink ADMIN_IDS from fn pre now fu tok url db) in
  t = tok
  /\ movieTokenStatus tok db1 = Some Pending
  /\ forall fn2 now2 fu2,
       result (checkverify ADMIN_IDS from fn2 tok now2 fu2) db1
       = Ok (if HOUR_MS <? now2 - now then VR_ExpiredHourLimit else VR_CompleteFirst)
       /\ movieAccess (exec (checkverify ADMIN_IDS from fn2 tok now2 fu2) db1)
          = movieAccess db.
Proof.
  intros Hname Hid Hr db1.
  destruct (getlink_mint_shape _ _ _ _ _ _ _ _ _ _ _ _ _ _ _ Hname Hid Hr)
    as (Ht & Hfresh & m & E1).
  fold db1 in E1.
  set (row := MovieVerifications.mk (Users.id e) (Movies.id m) tok Pending now) in *.
  destruct (touchUser_tables e fn db) as (_ & _ & Tac & Tmv & _).
  assert (Hv : filter (movieTokenIs tok) (movieVerifications db1) = [row]).
  { rewrite E1. cbn [movieVerifications with_movieVerifications]. rewrite Tmv.
    rewrite filter_app.
    destruct (filter (movieTokenIs tok) (movieVerifications db)) as [|x xs] eqn:Ex.
    - cbn [filter app]. unfold movieTokenIs at 1. cbn [row MovieVerifications.token].
      rewrite String.eqb_refl. reflexivity.
    - apply filter_head_existsb in Ex. congruence. }
  assert (Hres : resolves from (MovieVerifications.userId row) db1).
  { apply (resolves_same_users (touchUser e fn db)); [rewrite E1; reflexivity|].
    apply (renamed_resolves db); [apply touchUser_renamed|].
    exists e, es. split; [exact Hname | reflexivity]. }
  split; [exact Ht|].
  split; [unfold movieTokenStatus; rewrite Hv; reflexivity|].
  intros fn2 now2 fu2.
  destruct (checkverify_owner ADMIN_IDS from fn2 tok now2 fu2 db1 row [] Hres Hv)
    as (d & Hren & E).
  cbn [row MovieVerifications.createdAt MovieVerifications.status] in E.
  destruct (renamed_tables _ _ Hren) as (_ & Tac1 & _).
  unfold result, exec. rewrite E.
  destruct (HOUR_MS <? now2 - now); cbn [fst snd movieAccess with_movieVerifications];
    rewrite Tac1, E1; cbn [movieAccess with_movieVerifications]; rewrite Tac;
    split; reflexivity.
Qed.

Lemma resolves_head from uid db :
  resolves from uid db ->
  exists x xs, filter (userById uid) (users db) = x :: xs.
Proof.
  intros (e & es & He & Hid). destruct (filter_head_In _ _ _ _ He) as [Hin _].
  apply (In_filter_head (userById uid) (users db) e Hin).
  unfold userById. rewrite Hid. apply String.eqb_refl.
Qed.

(** X20: a verified credit token pays once.  When its owner claims a
    verified credit token within the hour and the balance plus 2 fits the
    integer column, the answer carries the old balance plus 2, the balance
    rises by exactly 2, the credit log gains the one entry (owner, +2,
    shortener_visit) and the token becomes used; a second claim of the same
    token pays nothing: the answer is that it was already claimed, or that
    it expired once the hour has passed, and balance and log stay as they
    were.  When the balance plus 2 does not fit the column, the claim
    fails: the entry is logged all the same, the balance stays and the
    token stays verified. *)
Theorem credit_token_pays_once (ADMIN_IDS : list string)
  (from fn1 fn2 tok : string) (now1 now2 : Instant) (fu1 fu2 : Id) (db : DB)
  (w : CreditVerifications.row) (ws : list CreditVerifications.row) :
  resolves from (CreditVerifications.userId w) db ->
  filter (creditTokenIs tok) (creditVerifications db) = w :: ws ->
  CreditVerifications.status w = Verified ->
  now1 - CreditVerifications.createdAt w <= HOUR_MS ->
  let uid := CreditVerifications.userId w in
  let first := checkcredit ADMIN_IDS from fn1 tok now1 fu1 db in
  let second := checkcredit ADMIN_IDS from fn2 tok now2 fu2 (snd first) in
  (balance uid db + 2 <= INT4_MAX ->
   fst first = Ok (CR_Credited (balance uid db + 2))
   /\ balance uid (snd first) = balance uid db + 2
   /\ creditTransactions (snd first)
      = creditTransactions db ++ [CreditTransactions.mk uid 2 "shortener_visit"]
   /\ creditTokenStatus tok (snd first) = Some Used
   /\ fst second = Ok (if HOUR_MS <? now2 - CreditVerifications.createdAt w
                       then CR_ExpiredHourLimit else CR_AlreadyClaimed)
   /\ balance uid (snd second) = balance uid (snd first)
   /\ creditTransactions (snd second) = creditTransactions (snd first))
  /\ (INT4_MAX < balance uid db + 2 ->
      fst first = Throw
      /\ balance uid (snd first) = balance uid db
      /\ creditTransactions (snd first)
         = creditTransactions db ++ [CreditTransactions.mk uid 2 "shortener_visit"]
      /\ creditTokenStatus tok (snd first) = Some Verified).
Proof.
  intros Hres Hw Hs H1 uid first second.
  destruct (checkcredit_owner ADMIN_IDS from fn1 tok now1 fu1 db w ws Hres Hw)
    as (d1 & Hren1 & E1).
  apply Z.ltb_ge in H1. rewrite H1, Hs in E1. fold uid in E1.
  destruct (renamed_tables _ _ Hren1) as (_ & _ & _ & Tcv1 & Tct1 & _).
  pose proof (renamed_balance _ _ uid Hren1) as Hb1.
  split; [intro Hfit|].
  2: { intro Hover.
       assert (Hover1 : (balance uid d1 + 2 <=? INT4_MAX) = false)
         by (rewrite Hb1; apply Z.leb_gt; exact Hover).
       rewrite Hover1 in E1.
       assert (Hres1 : resolves from uid d1)
         by (apply (renamed_resolves db); assumption).
       destruct (resolves_head _ _ _ Hres1) as (x & xs & Ex).
       assert (Hoverx : INT4_MAX < Users.credits x + 2).
       { apply Z.leb_gt. revert Hover1. unfold balance. rewrite Ex.
         exact (fun H => H). }
       assert (Eearn : exec (earnCredits uid now1) d1
                       = with_creditTransactions
                           (fun l => l ++ [CreditTransactions.mk uid 2
                                             "shortener_visit"]) d1).
       { unfold exec. rewrite (earnCredits_out_of_range _ _ _ _ _ Ex Hoverx).
         reflexivity. }
       subst first. rewrite E1, Eearn. cbn [fst snd].
       split; [reflexivity|].
       split; [rewrite <- Hb1; reflexivity|].
       split; [cbn [creditTransactions with_creditTransactions];
               rewrite Tct1; reflexivity|].
       unfold creditTokenStatus.
       cbn [creditVerifications with_creditTransactions].
       rewrite Tcv1, Hw, Hs. reflexivity. }
  assert (Hfit1 : (balance uid d1 + 2 <=? INT4_MAX) = true)
    by (rewrite Hb1; apply Z.leb_le; exact Hfit).
  rewrite Hfit1 in E1.
  assert (Hres1 : resolves from uid d1) by (apply (renamed_resolves db); assumption).
  destruct (resolves_head _ _ _ Hres1) as (x & xs & Ex).
  assert (Hu1 : hasUser uid d1 = true) by (eapply filter_head_hasUser; eauto).
  assert (Eearn : exec (earnCredits uid now1) d1
                  = snd (earnCredits uid now1 d1)) by reflexivity.
  rewrite earnCredits_run in Eearn. cbv zeta in Eearn. rewrite Hu1, Ex in Eearn.
  assert (Hfitx : (Users.credits x + 2 <=? INT4_MAX) = true).
  { revert Hfit1. unfold balance. rewrite Ex. exact (fun H => H). }
  rewrite Hfitx in Eearn. cbn [snd] in Eearn.
  assert (Efirst : snd first
    = with_creditVerifications
        (update_where (creditTokenIs tok) (CreditVerifications.set_status Used))
        (exec (earnCredits uid now1) d1)).
  { subst first. rewrite E1. reflexivity. }
  assert (Hw1 : filter (creditTokenIs tok) (creditVerifications (snd first))
                = CreditVerifications.set_status Used w
                  :: update_where (creditTokenIs tok)
                       (CreditVerifications.set_status Used) ws).
  { rewrite Efirst, Eearn.
    cbn [creditVerifications with_creditVerifications with_users
         with_creditTransactions].
    rewrite Tcv1. apply credit_status_after_update. exact Hw. }
  assert (Hres2 : resolves from
            (CreditVerifications.userId (CreditVerifications.set_status Used w))
            (snd first)).
  { cbn [CreditVerifications.userId CreditVerifications.set_status]. fold uid.
    destruct Hres1 as (e & es & He & Hid).
    rewrite Efirst, Eearn.
    exists ((fun r => Users.set_lastCreditReset
                        match Users.lastCreditReset x with
                        | Some t => Some t
                        | None => Some now1
                        end (Users.set_credits (Users.credits x + 2) r)) e).
    eexists. split; [|exact Hid].
    cbn [users with_creditVerifications with_users with_creditTransactions].
    rewrite filter_update_where_comm by reflexivity. rewrite He.
    unfold update_where. cbn [map]. unfold userById at 1. rewrite Hid.
    rewrite String.eqb_refl. reflexivity. }
  destruct (checkcredit_owner ADMIN_IDS from fn2 tok now2 fu2 (snd first) _ _
              Hres2 Hw1) as (d2 & Hren2 & E2).
  cbn [CreditVerifications.createdAt CreditVerifications.status
       CreditVerifications.set_status] in E2.
  destruct (renamed_tables _ _ Hren2) as (_ & _ & _ & _ & Tct2 & _).
  pose proof (renamed_balance _ _ uid Hren2) as Hb2.
  assert (Hbal : balance uid (snd first) = balance uid db + 2).
  { rewrite Efirst, Eearn.
    change (balance uid (with_creditVerifications ?f ?d)) with (balance uid d).
    rewrite balance_update_users by reflexivity.
    cbn [users with_creditTransactions]. rewrite Ex, String.eqb_refl.
    cbn [Users.credits Users.set_lastCreditReset Users.set_credits].
    rewrite <- Hb1. unfold balance. rewrite Ex. reflexivity. }
  split.
  { subst first. rewrite E1. cbn [fst]. rewrite Hb1. reflexivity. }
  split; [exact Hbal|].
  split.
  { rewrite Efirst, Eearn.
    cbn [creditTransactions with_creditVerifications with_users
         with_creditTransactions]. rewrite Tct1. reflexivity. }
  split; [unfold creditTokenStatus; rewrite Hw1; reflexivity|].
  subst second. rewrite E2.
  destruct (HOUR_MS <? now2 - CreditVerifications.createdAt w);
    cbn [fst snd]; repeat split; try reflexivity; try exact Hb2; exact Tct2.
Qed.

(** X21: a token older than one hour is lost, verified or not.  When the
    owner checks a content token more than one hour after it was minted,
    the answer is that it has expired, whatever its status; the token is
    marked expired and no access is granted.  Likewise, and independently,
    for a credit token: it is marked expired, no credit is earned and
    nothing is logged. *)
Theorem late_token_never_pays (ADMIN_IDS : list string)
  (from fn : string) (now : Instant) (fu : Id) (db : DB) :
  (forall tok (v : MovieVerifications.row) vs,
      resolves from (MovieVerifications.userId v) db ->
      filter (movieTokenIs tok) (movieVerifications db) = v :: vs ->
      HOUR_MS < now - MovieVerifications.createdAt v ->
      let rM := checkverify ADMIN_IDS from fn tok now fu db in
      fst rM = Ok VR_ExpiredHourLimit
      /\ movieTokenStatus tok (snd rM) = Some Expired
      /\ movieAccess (snd rM) = movieAccess db)
  /\ (forall tok (w : CreditVerifications.row) ws,
      resolves from (CreditVerifications.userId w) db ->
      filter (creditTokenIs tok) (creditVerifications db) = w :: ws ->
      HOUR_MS < now - CreditVerifications.createdAt w ->
      let rC := checkcredit ADMIN_IDS from fn tok now fu db in
      fst rC = Ok CR_ExpiredHourLimit
      /\ creditTokenStatus tok (snd rC) = Some Expired
      /\ creditTransactions (snd rC) = creditTransactions db
      /\ map Users.credits (users (snd rC)) = map Users.credits (users db)).
Proof.
  split.
  - intros tok v vs HrM Hv HlM rM.
    destruct (checkverify_owner ADMIN_IDS from fn tok now fu db v vs HrM Hv)
      as (dM & HrenM & EM).
    apply Z.ltb_lt in HlM. rewrite HlM in EM.
    destruct (renamed_tables _ _ HrenM) as (_ & TacM & TmvM & _).
    subst rM. rewrite EM.
    cbn [fst snd movieAccess with_movieVerifications].
    unfold movieTokenStatus.
    cbn [movieVerifications with_movieVerifications].
    rewrite TmvM. rewrite (movie_status_after_update _ _ _ _ _ Hv).
    repeat split; assumption.
  - intros tok w ws HrC Hw HlC rC.
    destruct (checkcredit_owner ADMIN_IDS from fn tok now fu db w ws HrC Hw)
      as (dC & HrenC & EC).
    apply Z.ltb_lt in HlC. rewrite HlC in EC.
    destruct (renamed_tables _ _ HrenC) as (_ & _ & _ & TcvC & TctC & _).
    pose proof (renamed_credits _ _ HrenC) as HcC.
    subst rC. rewrite EC.
    cbn [fst snd creditTransactions users with_creditVerifications].
    unfold creditTokenStatus.
    cbn [creditVerifications with_creditVerifications].
    rewrite TcvC. rewrite (credit_status_after_update _ _ _ _ _ Hw).
    repeat split; assumption.
Qed.

(** X22: one earning per cycle.  After an account with a non-negative
    balance has earned its 2 credits, it is not allowed to earn again until
    12 hours have passed since the start of its cycle (the recorded reset,
    or the instant of the earning when none was recorded); the refusal
    writes nothing.  The earning succeeds when the new balance fits the
    integer column; when it does not, the earning fails, the account rows
    stay as they were and only the log entry is added. *)
Theorem earn_then_wait (uid : Id) (now : Instant) (db : DB)
  (u : Users.row) (us : list Users.row) :
  filter (userById uid) (users db) = u :: us ->
  0 <= Users.credits u ->
  let db1 := exec (earnCredits uid now) db in
  let cycleStart := match Users.lastCreditReset u with
                    | Some t => t
                    | None => now
                    end in
  (Users.credits u + 2 <= INT4_MAX ->
   result (earnCredits uid now) db = Ok (Users.credits u + 2)
   /\ forall t, t - cycleStart < 12 * HOUR_MS ->
        exists h m,
          canEarnCredits uid t db1 = (Ok (mkCanEarn false (Some h) (Some m)), db1))
  /\ (INT4_MAX < Users.credits u + 2 ->
      result (earnCredits uid now) db = Throw
      /\ users db1 = users db
      /\ creditTransactions db1
         = creditTransactions db ++ [CreditTransactions.mk uid 2 "shortener_visit"]).
Proof.
  intros Hu Hc db1 cycleStart.
  split; [intro Hfit|].
  2: { intro Hover. subst db1. unfold result, exec.
       rewrite (earnCredits_out_of_range _ _ _ _ _ Hu Hover).
       repeat split; reflexivity. }
  assert (HU : hasUser uid db = true) by (eapply filter_head_hasUser; eauto).
  apply Z.leb_le in Hfit.
  pose proof (earnCredits_run uid now db) as R. cbv zeta in R.
  rewrite HU, Hu, Hfit in R.
  split; [unfold result; rewrite R; reflexivity|].
  assert (E1 : db1 = snd (earnCredits uid now db)) by reflexivity.
  rewrite R in E1. cbn [snd] in E1.
  assert (Hu1 : exists xs,
             filter (userById uid) (users db1)
             = Users.set_lastCreditReset (Some cycleStart)
                 (Users.set_credits (Users.credits u + 2) u) :: xs).
  { rewrite E1. cbn [users with_users with_creditTransactions].
    rewrite filter_update_where_comm by reflexivity. rewrite Hu.
    unfold update_where. cbn [map].
    destruct (filter_head_In _ _ _ _ Hu) as [_ Hq]. rewrite Hq.
    eexists. f_equal. subst cycleStart.
    destruct (Users.lastCreditReset u); reflexivity. }
  destruct Hu1 as (xs & Hu1).
  intros t Ht. unfold canEarnCredits. unfold_monad. rewrite Hu1.
  cbn [Users.lastCreditReset Users.set_lastCreditReset Users.credits
       Users.set_credits].
  assert (H12 : (12 * HOUR_MS <=? t - cycleStart) = false)
    by (apply Z.leb_gt; exact Ht).
  assert (H2 : (2 <=? Users.credits u + 2) = true) by (apply Z.leb_le; lia).
  rewrite H12, H2. eexists _, _. reflexivity.
Qed.

(** ** Referrals at /start *)

Lemma referralHandling_not_new sp user from db :
  referralHandling sp false user from db = (Ok tt, db).
Proof. unfold referralHandling. rewrite andb_false_r. reflexivity. Qed.

(** X23: only a first contact can count as a referral.  When the sender of
    /start already has an account, whatever the start parameter says, no
    referral row is written, no balance changes and nothing is logged. *)
Theorem start_of_existing_account_refers_nobody (ADMIN_IDS : list string)
  (from fn sp : string) (fu : Id) (botActive notJoined : bool) (db : DB)
  (e : Users.row) (es : list Users.row) :
  filter (userByUsername from) (users db) = e :: es ->
  let r := start ADMIN_IDS from fn sp fu botActive notJoined db in
  fst r <> Throw
  /\ referrals (snd r) = referrals db
  /\ map Users.credits (users (snd r)) = map Users.credits (users db)
  /\ creditTransactions (snd r) = creditTransactions db.
Proof.
  intros He r.
  assert (E : exists reply,
             r = (Ok reply, if botActive then touchUser e fn db else db)).
  { subst r. unfold start.
    destruct botActive; cbn [negb]; [|eexists; reflexivity].
    unfold bind at 1. rewrite (getOrCreateUser_existing _ _ _ _ _ _ _ He).
    destruct (startsWith "movie_" sp).
    { unfold_monad. destruct (find _ _); eexists; reflexivity. }
    destruct (startsWith "verified_" sp); [eexists; reflexivity|].
    unfold bind at 1. rewrite referralHandling_not_new.
    destruct notJoined; unfold_monad; eexists; reflexivity. }
  destruct E as (reply & ->). cbn [fst snd].
  destruct (touchUser_tables e fn db) as (_ & _ & _ & _ & _ & Tct & Trf).
  pose proof (renamed_credits _ _ (touchUser_renamed e fn db)) as Hcr.
  destruct botActive; repeat split; try discriminate; assumption.
Qed.

Lemma substring_all s : String.substring 0 (String.length s) s = s.
Proof. induction s as [|c s IH]; cbn; [reflexivity | rewrite IH; reflexivity]. Qed.

Lemma dropPrefix_ref s : dropPrefix 4 ("ref_" ++ s) = s.
Proof.
  unfold dropPrefix. cbn [append String.length Nat.sub String.substring].
  rewrite Nat.sub_0_r. apply substring_all.
Qed.

(** X24: a referral needs another, known account.  When a new sender starts
    the bot with a referral link that names the sender itself, or an id that
    has no account, the sender's account is created with balance 0 and that
    is all: no referral row is written, no existing balance changes and
    nothing is logged. *)
Theorem referral_needs_another_known_account (ADMIN_IDS : list string)
  (from fn ref : string) (fu : Id) (notJoined : bool) (db : DB) :
  existsb (userByUsername from) (users db) = false ->
  existsb (userById fu) (users db) = false ->
  ref = from \/ existsb (userByUsername ref) (users db) = false ->
  let r := start ADMIN_IDS from fn ("ref_" ++ ref) fu true notJoined db in
  fst r = Ok (if notJoined then ST_JoinChannels else ST_Welcome 0 false)
  /\ referrals (snd r) = referrals db
  /\ map Users.credits (users (snd r)) = map Users.credits (users db) ++ [0]
  /\ creditTransactions (snd r) = creditTransactions db.
Proof.
  intros Hname Hid Href r.
  set (u := Users.mk fu from fn (if includes ADMIN_IDS from then RoleAdmin else RoleUser)
              Active 0 None false None).
  pose proof (getOrCreateUser_new ADMIN_IDS from fn fu db Hname Hid) as Hnew.
  fold u in Hnew.
  set (db1 := with_users (fun l => l ++ [u]) db) in *.
  assert (Hself : filter (userById fu) (users db1) = [u]).
  { subst db1. cbn [users with_users]. rewrite filter_app.
    destruct (filter (userById fu) (users db)) as [|x xs] eqn:E.
    - cbn [filter app]. unfold userById. cbn [u Users.id].
      rewrite String.eqb_refl. reflexivity.
    - apply filter_head_existsb in E. congruence. }
  assert (Href1 : referralHandling ("ref_" ++ ref) true u from db1 = (Ok tt, db1)).
  { unfold referralHandling.
    assert (Hp : startsWith "ref_" ("ref_" ++ ref) = true) by apply startsWith_app.
    rewrite Hp, dropPrefix_ref. cbn [andb].
    destruct (String.eqb_spec ref from) as [->|Hne]; [reflexivity|].
    cbn [negb]. destruct Href as [Heq | Hunknown]; [congruence|].
    unfold_monad. subst db1. cbn [users with_users]. rewrite filter_app.
    destruct (filter (userByUsername ref) (users db)) as [|x xs] eqn:E.
    - cbn [filter app]. unfold userByUsername at 1. cbn [u Users.username].
      apply not_eq_sym in Hne. apply String.eqb_neq in Hne. rewrite Hne. reflexivity.
    - apply filter_head_existsb in E. congruence. }
  assert (E : r = (Ok (if notJoined then ST_JoinChannels else ST_Welcome 0 false),
                   db1)).
  { subst r. unfold start. cbn [negb].
    unfold bind at 1. rewrite Hnew.
    assert (H1 : startsWith "movie_" ("ref_" ++ ref) = false) by reflexivity.
    assert (H2 : startsWith "verified_" ("ref_" ++ ref) = false) by reflexivity.
    rewrite H1, H2. unfold bind at 1. rewrite Href1.
    destruct notJoined; [reflexivity|].
    unfold_monad. cbn [u Users.id]. rewrite Hself. reflexivity. }
  rewrite E. cbn [fst snd]. subst db1.
  cbn [users with_users referrals creditTransactions].
  rewrite map_app. repeat split; reflexivity.
Qed.

(** ** Escaping *)

Lemma string_app_assoc (x y z : string) :
  (x ++ (y ++ z) = (x ++ y) ++ z)%string.
Proof. induction x as [|a x IH]; cbn [append]; [reflexivity | rewrite IH; reflexivity]. Qed.

Lemma replaceChar_app c r x y :
  replaceChar c r (x ++ y) = (replaceChar c r x ++ replaceChar c r y)%string.
Proof.
  induction x as [|a x IH]; cbn [append replaceChar]; [reflexivity|].
  rewrite IH. destruct (Ascii.eqb a c); [apply string_app_assoc | reflexivity].
Qed.

Lemma escapeHtml_cons a s :
  escapeHtml (String a s) = (htmlEntity a ++ escapeHtml s)%string.
Proof.
  unfold escapeHtml, htmlEntity, chDoubleQuote, chSingleQuote.
  cbn [replaceChar].
  destruct (Ascii.eqb_spec a "&") as [->|H1].
  { rewrite !replaceChar_app. reflexivity. }
  cbn [replaceChar].
  destruct (Ascii.eqb_spec a "<") as [->|H2].
  { rewrite !replaceChar_app. reflexivity. }
  cbn [replaceChar].
  destruct (Ascii.eqb_spec a ">") as [->|H3].
  { rewrite !replaceChar_app. reflexivity. }
  cbn [replaceChar].
  destruct (Ascii.eqb_spec a "034") as [->|H4].
  { rewrite !replaceChar_app. reflexivity. }
  cbn [replaceChar].
  destruct (Ascii.eqb_spec a "039") as [->|H5]; reflexivity.
Qed.

Lemma escapeHtml_is_one_pass s : escapeHtml s = escapeHtml_one_pass s.
Proof.
  induction s as [|a s IH]; [reflexivity|].
  rewrite escapeHtml_cons, IH. reflexivity.
Qed.

Lemma string_forallb_app p x y :
  string_forallb p (x ++ y) = string_forallb p x && string_forallb p y.
Proof.
  induction x as [|a x IH]; cbn [append string_forallb]; [reflexivity|].
  rewrite IH. apply andb_assoc.
Qed.

Lemma htmlEntity_safe a :
  string_forallb (fun c => negb (htmlSpecial c)) (htmlEntity a) = true.
Proof.
  unfold htmlEntity, chDoubleQuote, chSingleQuote.
  destruct (Ascii.eqb_spec a "&"); [reflexivity|].
  destruct (Ascii.eqb a "<") eqn:E2; [reflexivity|].
  destruct (Ascii.eqb a ">") eqn:E3; [reflexivity|].
  destruct (Ascii.eqb a "034") eqn:E4; [reflexivity|].
  destruct (Ascii.eqb a "039") eqn:E5; [reflexivity|].
  cbn [string_forallb]. unfold htmlSpecial, chDoubleQuote, chSingleQuote.
  cbn [existsb]. rewrite E2, E3, E4, E5. reflexivity.
Qed.

Ltac entity_cases a :=
  unfold htmlEntity, chDoubleQuote, chSingleQuote;
  destruct (Ascii.eqb_spec a "&") as [->|?];
  [|destruct (Ascii.eqb_spec a "<") as [->|?];
    [|destruct (Ascii.eqb_spec a ">") as [->|?];
      [|destruct (Ascii.eqb_spec a "034") as [->|?];
        [|destruct (Ascii.eqb_spec a "039") as [->|?]]]]].

Lemma escapeHtml_one_pass_inj s1 :
  forall s2, escapeHtml_one_pass s1 = escapeHtml_one_pass s2 -> s1 = s2.
Proof.
  induction s1 as [|a s1 IH]; intros [|b s2]; cbn [escapeHtml_one_pass].
  - reflexivity.
  - entity_cases b; cbn [append]; discriminate.
  - entity_cases a; cbn [append]; discriminate.
  - entity_cases a; entity_cases b; cbn [append]; intro H;
      try discriminate H;
      try (injection H as H; apply IH in H; subst; reflexivity);
      try (injection H as Hc H; congruence);
      try (injection H as Hc H; apply IH in H; subst; reflexivity).
Qed.

(** X25: [escapeHtml] leaves no markup character and loses nothing.  Its five
    replacements in a row give what a single pass gives that replaces each
    of the five characters by its entity, so no entity is escaped twice; the
    result contains none of the characters that open or close markup in an
    HTML message; and two different texts have different results. *)
Theorem escapeHtml_safe_and_faithful (text : string) :
  escapeHtml text = escapeHtml_one_pass text
  /\ string_forallb (fun c => negb (htmlSpecial c)) (escapeHtml text) = true
  /\ forall other, escapeHtml text = escapeHtml other -> text = other.
Proof.
  split; [apply escapeHtml_is_one_pass|]. split.
  - rewrite escapeHtml_is_one_pass.
    induction text as [|a s IH]; [reflexivity|].
    cbn [escapeHtml_one_pass]. rewrite string_forallb_app, htmlEntity_safe, IH.
    reflexivity.
  - intros other H. rewrite !escapeHtml_is_one_pass in H.
    apply escapeHtml_one_pass_inj. exact H.
Qed.

Lemma escapeMarkdown_head s c r :
  escapeMarkdown s = String c r -> markdownSpecial c = false.
Proof.
  destruct s as [|a s]; cbn [escapeMarkdown]; [discriminate|].
  destruct (markdownSpecial a) eqn:E; intro H; injection H as <- _;
    [reflexivity | exact E].
Qed.

Lemma escapeMarkdown_inj s1 :
  forall s2, escapeMarkdown s1 = escapeMarkdown s2 -> s1 = s2.
Proof.
  induction s1 as [|a s1 IH]; intros [|b s2]; cbn [escapeMarkdown].
  - reflexivity.
  - destruct (markdownSpecial b); discriminate.
  - destruct (markdownSpecial a); discriminate.
  - destruct (markdownSpecial a) eqn:Ea; destruct (markdownSpecial b) eqn:Eb;
      intro H.
    + injection H as <- H. apply IH in H. subst. reflexivity.
    + injection H as <- H. symmetry in H.
      apply escapeMarkdown_head in H. congruence.
    + injection H as -> H.
      apply escapeMarkdown_head in H. congruence.
    + injection H as <- H. apply IH in H. subst. reflexivity.
Qed.

(** X26: [escapeMarkdown] escapes every character of its class, once.  In
    its result every character of the class is preceded by a backslash of
    its own and the other characters are unchanged; the result is longer
    than the text by the number of class characters in it; and two
    different texts have different results. *)
Theorem escapeMarkdown_escapes_all (text : string) :
  well_escaped (escapeMarkdown text)
  /\ String.length (escapeMarkdown text)
     = (String.length text
        + List.length (filter markdownSpecial (list_ascii_of_string text)))%nat
  /\ forall other, escapeMarkdown text = escapeMarkdown other -> text = other.
Proof.
  split; [|split].
  - induction text as [|a s IH]; cbn [escapeMarkdown]; [constructor|].
    destruct (markdownSpecial a) eqn:E.
    + apply we_escaped; assumption.
    + apply we_plain; assumption.
  - induction text as [|a s IH]; [reflexivity|].
    cbn [escapeMarkdown list_ascii_of_string filter].
    destruct (markdownSpecial a); cbn [String.length List.length]; rewrite IH; lia.
  - apply escapeMarkdown_inj.
Qed.


(** ** Earning links *)

Lemma canEarnCredits_keeps uid now db :
  exists ce d,
    canEarnCredits uid now db = (Ok ce, d)
    /\ creditVerifications d = creditVerifications db
    /\ movieVerifications d = movieVerifications db
    /\ movieAccess d = movieAccess db
    /\ creditTransactions d = creditTransactions db
    /\ (forall u, hasUser u d = hasUser u db)
    /\ (forall u, match filter (userById u) (users d) with
                  | x :: _ => Users.isPremium x
                  | [] => false
                  end
                  = match filter (userById u) (users db) with
                    | x :: _ => Users.isPremium x
                    | [] => false
                    end).
Proof.
  unfold canEarnCredits. unfold_monad.
  destruct (filter (userById uid) (users db)) as [|x xs];
    [eexists _, _; repeat split; reflexivity|].
  destruct (12 * HOUR_MS <=? _).
  - eexists _, _. split; [reflexivity|]. repeat split; try reflexivity.
    + intro u. unfold hasUser. cbn [users with_users].
      apply existsb_update_where. reflexivity.
    + intro u. cbn [users with_users].
      rewrite filter_update_where_comm by reflexivity.
      destruct (filter (userById u) (users db)) as [|y ys]; [reflexivity|].
      unfold update_where. cbn [map]. destruct (userById uid y); reflexivity.
  - destruct (2 <=? Users.credits x); eexists _, _; repeat split; reflexivity.
Qed.

Lemma mint_credit_token uid tok now db :
  hasUser uid db = true ->
  insert_creditVerifications (CreditVerifications.mk uid tok Pending 2 now) db
  = if existsb (creditTokenIs tok) (creditVerifications db) then (Throw, db)
    else (Ok tt,
          with_creditVerifications
            (fun l => l ++ [CreditVerifications.mk uid tok Pending 2 now]) db).
Proof.
  intro H. unfold insert_creditVerifications. unfold_monad.
  cbn [CreditVerifications.userId CreditVerifications.token]. rewrite H. cbn [andb].
  change (fun r => (CreditVerifications.token r =? tok)%string) with (creditTokenIs tok).
  destruct (existsb (creditTokenIs tok) (creditVerifications db)); reflexivity.
Qed.

(** X28: the reply of the earn-credits command and button tells what was
    written.  For a sender with an account, a verification link (or the
    link error that follows a failed shortener call) comes with exactly one
    new pending credit token of 2 credits for the sender; every other
    outcome of the command and of the button leaves the credit tokens as
    they were, and the button mints nothing for an account whose premium
    flag is set.  The activate button never mints.  None of the three writes
    to the credit log, the content tokens or the access grants. *)
Theorem earn_reply_tells_writes (ADMIN_IDS : list string)
  (from fn tok : string) (now : Instant) (fu : Id) (url : option string)
  (db : DB) (e : Users.row) (es es' : list Users.row) :
  filter (userByUsername from) (users db) = e :: es ->
  filter (userById (Users.id e)) (users db) = e :: es' ->
  let minted := creditVerifications db
                ++ [CreditVerifications.mk (Users.id e) tok Pending 2 now] in
  let untouched (d : DB) :=
    creditTransactions d = creditTransactions db
    /\ movieVerifications d = movieVerifications db
    /\ movieAccess d = movieAccess db in
  let rc := earnCreditsHandler ADMIN_IDS from fn now fu tok url db in
  let rb := earncredits_callback ADMIN_IDS from fn now fu tok url db in
  let ra := activate_callback ADMIN_IDS from fn now fu url db in
  match fst rc with
  | Ok (ER_Verify _ _) | Ok ER_LinkFailed => creditVerifications (snd rc) = minted
  | _ => creditVerifications (snd rc) = creditVerifications db
  end
  /\ untouched (snd rc)
  /\ match fst rb with
     | Ok (ER_Verify _ _) | Ok ER_LinkFailed =>
       creditVerifications (snd rb) = minted /\ Users.isPremium e = false
     | _ => creditVerifications (snd rb) = creditVerifications db
     end
  /\ untouched (snd rb)
  /\ creditVerifications (snd ra) = creditVerifications db
  /\ untouched (snd ra).
Proof.
  intros Hname Hid minted untouched rc rb ra.
  pose proof (touchUser_renamed e fn db) as Hren.
  destruct (touchUser_tables e fn db) as (_ & _ & Tac & Tmv & Tcv & Tct & _).
  assert (HU : hasUser (Users.id e) (touchUser e fn db) = true).
  { rewrite (renamed_hasUser _ _ _ Hren). eapply filter_head_hasUser; eauto. }
  destruct (canEarnCredits_keeps (Users.id e) now (touchUser e fn db))
    as (ce & d & Ece & Kcv & Kmv & Kac & Kct & Khas & Kprem).
  rewrite Tcv in Kcv. rewrite Tmv in Kmv. rewrite Tac in Kac. rewrite Tct in Kct.
  assert (Hmint : insert_creditVerifications
                    (CreditVerifications.mk (Users.id e) tok Pending 2 now) d
                  = if existsb (creditTokenIs tok) (creditVerifications db)
                    then (Throw, d)
                    else (Ok tt,
                          with_creditVerifications
                            (fun l => l ++ [CreditVerifications.mk (Users.id e) tok
                                              Pending 2 now]) d)).
  { rewrite mint_credit_token by (rewrite Khas; exact HU). rewrite Kcv. reflexivity. }
  assert (Erc : rc = if negb (canEarn ce)
                     then (Ok (ER_Wait (orZero (ce_hoursRemaining ce))
                                 (orZero (ce_minutesRemaining ce))), d)
                     else if existsb (creditTokenIs tok) (creditVerifications db)
                     then (Throw, d)
                     else (Ok match url with
                              | None => ER_LinkFailed
                              | Some u => ER_Verify tok u
                              end,
                           with_creditVerifications
                             (fun l => l ++ [CreditVerifications.mk (Users.id e) tok
                                               Pending 2 now]) d)).
  { subst rc. rewrite (earnCreditsHandler_existing _ _ _ _ _ _ _ _ _ _ Hname).
    unfold bind at 1. rewrite Ece.
    destruct (negb (canEarn ce)); [reflexivity|].
    unfold bind at 1. rewrite Hmint.
    destruct (existsb (creditTokenIs tok) (creditVerifications db)); [reflexivity|].
    destruct url; reflexivity. }
  assert (Hprem : match filter (userById (Users.id e)) (users (touchUser e fn db)) with
                  | x :: _ => Users.isPremium x
                  | [] => false
                  end = Users.isPremium e).
  { destruct (renamed_filter_head db _ (userById (Users.id e)) _ _
                ltac:(reflexivity) Hren Hid) as (e' & es2 & E' & He').
    rewrite E'. destruct He' as [-> | [n ->]]; reflexivity. }
  assert (Erb : rb = if Users.isPremium e then (Ok ER_PremiumNoNeed, d)
                     else if negb (canEarn ce)
                     then (Ok (ER_Cooldown (ce_hoursRemaining ce)
                                 (ce_minutesRemaining ce)), d)
                     else if existsb (creditTokenIs tok) (creditVerifications db)
                     then (Throw, d)
                     else (Ok match url with
                              | Some u => ER_Verify tok u
                              | None => ER_LinkFailed
                              end,
                           with_creditVerifications
                             (fun l => l ++ [CreditVerifications.mk (Users.id e) tok
                                               Pending 2 now]) d)).
  { subst rb. unfold earncredits_callback. unfold bind at 1.
    rewrite (getOrCreateUser_existing _ _ _ _ _ _ _ Hname), touchedRow_id.
    unfold bind at 1. unfold select at 1, gets at 1.
    unfold bind at 1. rewrite Ece, Hprem.
    destruct (Users.isPremium e); [reflexivity|].
    destruct (negb (canEarn ce)); [reflexivity|].
    unfold bind at 1. rewrite Hmint.
    destruct (existsb (creditTokenIs tok) (creditVerifications db)); [reflexivity|].
    destruct url; reflexivity. }
  assert (Era : snd ra = d).
  { subst ra. unfold activate_callback. unfold bind at 1.
    rewrite (getOrCreateUser_existing _ _ _ _ _ _ _ Hname), touchedRow_id.
    unfold bind at 1. rewrite Ece.
    destruct (negb (canEarn ce)); [reflexivity|]. destruct url; reflexivity. }
  rewrite Erc, Erb, Era. subst untouched minted. cbv beta.
  split; [|split; [|split; [|split; [|split]]]].
  - destruct (negb (canEarn ce)); [exact Kcv|].
    destruct (existsb _ _); [exact Kcv|].
    destruct url; cbn [fst snd creditVerifications with_creditVerifications];
      rewrite Kcv; reflexivity.
  - destruct (negb (canEarn ce)); [auto|].
    destruct (existsb _ _); [auto|]. cbn [snd]. auto.
  - destruct (Users.isPremium e); [exact Kcv|].
    destruct (negb (canEarn ce)); [exact Kcv|].
    destruct (existsb _ _); [exact Kcv|].
    destruct url; cbn [fst snd creditVerifications with_creditVerifications];
      rewrite Kcv; split; reflexivity.
  - destruct (Users.isPremium e); [auto|].
    destruct (negb (canEarn ce)); [auto|].
    destruct (existsb _ _); [auto|]. cbn [snd]. auto.
  - exact Kcv.
  - auto.
Qed.

(** ** The bot switch and the shortener token *)

Lemma getBotStatus_after_update v l r rs :
  filter (settingIs "bot_active") l = r :: rs ->
  getBotStatus (update_where (settingIs "bot_active") (Settings.set_value v) l)
  = negb (v =? "false")%string.
Proof.
  intro H. unfold getBotStatus.
  rewrite filter_update_where_comm by reflexivity. rewrite H.
  unfold update_where. cbn [map].
  destruct (filter_head_In _ _ _ _ H) as [_ Hq]. rewrite Hq. reflexivity.
Qed.

Lemma filter_update_where_apart {T} (q p : T -> bool) f l :
  (forall x, q (f x) = q x) -> (forall x, p x = true -> q x = false) ->
  filter q (update_where p f l) = filter q l.
Proof.
  intros Hq Hp. unfold update_where.
  induction l as [|x xs IH]; cbn [map filter]; [reflexivity|].
  rewrite IH. destruct (p x) eqn:E; [|reflexivity].
  rewrite Hq, (Hp x E). reflexivity.
Qed.

(** X29: /myswitch flips the switch that /start reads.  For an admin the
    reply tells the opposite of the status before, the stored status is
    that opposite afterwards (whether or not a setting row existed), the
    other settings are untouched, and a second /myswitch brings the status
    back.  While the switch is off, /start answers that the bot is offline
    and writes nothing, not even an account for a new sender.  For a sender
    who is not an admin the settings stay as they are. *)
Theorem myswitch_flips (ADMIN_IDS : list string) (from : string)
  (settings : list Settings.row) (db : DB) :
  let r := myswitch ADMIN_IDS from settings db in
  snd r = db
  /\ (isAdminNow ADMIN_IDS from db = false -> fst r = Ok (None, settings))
  /\ (isAdminNow ADMIN_IDS from db = true ->
      exists settings',
        fst r = Ok (Some (negb (getBotStatus settings)), settings')
        /\ getBotStatus settings' = negb (getBotStatus settings)
        /\ filter (fun s => negb (settingIs "bot_active" s)) settings'
           = filter (fun s => negb (settingIs "bot_active" s)) settings
        /\ (exists settings'',
              fst (myswitch ADMIN_IDS from settings' db)
              = Ok (Some (getBotStatus settings), settings'')
              /\ getBotStatus settings'' = getBotStatus settings)
        /\ (getBotStatus settings = true ->
            forall who fn sp fu nj d,
              start ADMIN_IDS who fn sp fu (getBotStatus settings') nj d
              = (Ok ST_Offline, d))).
Proof.
  assert (Hrun : forall s,
     myswitch ADMIN_IDS from s db
     = (Ok (if negb (isAdminNow ADMIN_IDS from db) then (None, s)
            else (Some (negb (getBotStatus s)),
                  match filter (settingIs "bot_active") s with
                  | _ :: _ =>
                    update_where (settingIs "bot_active")
                      (Settings.set_value
                         (if negb (getBotStatus s) then "true" else "false")) s
                  | [] =>
                    s ++ [Settings.mk "bot_active"
                            (if negb (getBotStatus s) then "true" else "false")]
                  end)), db)).
  { intro s. unfold myswitch. unfold bind at 1. rewrite isAdmin_eval.
    destruct (negb (isAdminNow ADMIN_IDS from db)); [reflexivity|].
    destruct (filter (settingIs "bot_active") s); reflexivity. }
  assert (Hflip : forall s,
     getBotStatus
       match filter (settingIs "bot_active") s with
       | _ :: _ =>
         update_where (settingIs "bot_active")
           (Settings.set_value (if negb (getBotStatus s) then "true" else "false")) s
       | [] =>
         s ++ [Settings.mk "bot_active"
                 (if negb (getBotStatus s) then "true" else "false")]
       end = negb (getBotStatus s)).
  { intro s. destruct (filter (settingIs "bot_active") s) as [|x xs] eqn:E.
    - unfold getBotStatus at 1. rewrite filter_app, E. cbn [filter app settingIs
        Settings.key]. cbn. destruct (negb (getBotStatus s)); reflexivity.
    - rewrite (getBotStatus_after_update _ _ _ _ E).
      destruct (negb (getBotStatus s)); reflexivity. }
  intro r. subst r. rewrite Hrun. cbn [fst snd].
  split; [reflexivity|]. split.
  { intros ->. reflexivity. }
  intros Ha. rewrite Ha. cbn [negb].
  eexists. split; [reflexivity|]. split; [apply Hflip|]. split.
  { destruct (filter (settingIs "bot_active") settings) as [|x xs].
    - rewrite filter_app. cbn [filter settingIs Settings.key]. cbn.
      apply app_nil_r.
    - apply filter_update_where_apart; [reflexivity|].
      intros y Hy. rewrite Hy. reflexivity. }
  split.
  { rewrite Hrun, Ha. cbn [negb fst].
    eexists. split.
    - rewrite Hflip at 1. rewrite negb_involutive. reflexivity.
    - rewrite Hflip, Hflip. apply negb_involutive. }
  intros Es who fn sp fu nj d. rewrite Hflip, Es. reflexivity.
Qed.

(** X30: /addtokens makes the new token the only active one.  After an
    admin adds a non-empty shortener token, the stored tokens are the old
    ones, all inactive, followed by the new one, active; so the token the
    link shortener is called with is the new one, whatever was active
    before.  For anyone else, and for an empty token, nothing changes. *)
Theorem addtokens_activates_only_new (ADMIN_IDS : list string) (from token : string)
  (tokens : list ShortenerTokens.row) (db : DB) :
  let r := addtokens ADMIN_IDS from token tokens db in
  snd r = db
  /\ (isAdminNow ADMIN_IDS from db = false -> fst r = Ok (AR_AdminOnly, tokens))
  /\ (isAdminNow ADMIN_IDS from db = true -> token = EmptyString ->
      fst r = Ok (AR_Usage, tokens))
  /\ (isAdminNow ADMIN_IDS from db = true -> token <> EmptyString ->
      exists tokens',
        fst r = Ok (AR_Done token, tokens')
        /\ map ShortenerTokens.tokenValue tokens'
           = map ShortenerTokens.tokenValue tokens ++ [token]
        /\ filter ShortenerTokens.isActive tokens' = [ShortenerTokens.mk token true]
        /\ activeToken tokens' = Some token).
Proof.
  intro r.
  assert (E : r = (Ok (if negb (isAdminNow ADMIN_IDS from db) then (AR_AdminOnly, tokens)
                       else if (token =? EmptyString)%string then (AR_Usage, tokens)
                       else (AR_Done token,
                             map (ShortenerTokens.set_isActive false) tokens
                             ++ [ShortenerTokens.mk token true])), db)).
  { subst r. unfold addtokens. unfold bind at 1. rewrite isAdmin_eval.
    destruct (negb (isAdminNow ADMIN_IDS from db)); [reflexivity|].
    destruct (token =? EmptyString)%string; reflexivity. }
  rewrite E. cbn [fst snd]. split; [reflexivity|].
  split; [intros ->; reflexivity|].
  split; [intros -> ->; reflexivity|].
  intros -> Hne. cbn [negb]. apply String.eqb_neq in Hne. rewrite Hne.
  eexists. split; [reflexivity|].
  assert (Hf : filter ShortenerTokens.isActive
                 (map (ShortenerTokens.set_isActive false) tokens
                  ++ [ShortenerTokens.mk token true])
               = [ShortenerTokens.mk token true]).
  { rewrite filter_app. cbn [filter ShortenerTokens.isActive].
    clear. induction tokens as [|t ts IH]; [reflexivity|]. cbn [map filter
      ShortenerTokens.set_isActive ShortenerTokens.isActive]. exact IH. }
  split; [|split; [exact Hf|]].
  - rewrite map_app, map_map. cbn [map ShortenerTokens.tokenValue
      ShortenerTokens.set_isActive]. reflexivity.
  - unfold activeToken. rewrite Hf. cbn [ShortenerTokens.tokenValue].
    rewrite Hne. reflexivity.
Qed.

(** * The further properties at sample states *)

Lemma getOrCreateUser_creates_then_finds_witness :
  getOrCreateUser [] "300" "Cy" "u3" db_fresh
  = (Ok (Users.mk "u3" "300" "Cy" RoleUser Active 0 None false None, true),
     with_users
       (fun l => l ++ [Users.mk "u3" "300" "Cy" RoleUser Active 0 None false None])
       db_fresh).
Proof.
  destruct (getOrCreateUser_creates_then_finds [] "300" "Cy" "Cyrus" "u3" "u4" db_fresh)
    as [H _]; [reflexivity | reflexivity | exact H].
Defined.

Lemma accounts_stay_unique_witness :
  users_unique db_referral
  /\ users_unique
       (run [] [EvStart "300" "Cy" "ref_100" "u3" true false;
                EvEarnCreditsCommand "300" "Cy" 5 "u4" "tok" None false] db_referral).
Proof.
  assert (H : users_unique db_referral).
  { split; repeat (constructor; [cbn; intuition discriminate|]); constructor. }
  split; [exact H|]. apply accounts_stay_unique. exact H.
Defined.

Lemma tokens_stay_unique_witness :
  tokens_unique db_used
  /\ tokens_unique
       (run [] [EvGetlink "100" "Ann" "m1" (13 * HOUR_MS) "x" "tokM" None false;
                EvEarnCreditsCommand "100" "Ann" 5 "y" "tokC" None false] db_used).
Proof.
  assert (H : tokens_unique db_used).
  { split; repeat (constructor; [cbn; intuition discriminate|]); constructor. }
  split; [exact H|]. apply tokens_stay_unique. exact H.
Defined.

Lemma banned_sender_changes_nothing_witness :
  run [] [EvStart "200" "Bob" "ref_100" "x" true false;
          EvGetlink "200" "Bob" "m1" 5 "y" "tok" (Some "https://gp/abc") false;
          EvEarnCreditsCommand "200" "Bob" 6 "z" "tok2" None false] db_banned
  = db_banned.
Proof.
  destruct (banned_sender_changes_nothing [] "200" db_banned) as [_ H];
    [reflexivity | reflexivity |].
  apply H. repeat constructor.
Defined.


Lemma admin_commands_refuse_non_admins_witness :
  ban ["999"] "100" "200" db_referral = (Ok AR_AdminOnly, db_referral)
  /\ reset ["999"] "100" "100" 5 db_referral = (Ok RS_AdminOnly, db_referral).
Proof.
  destruct (admin_commands_refuse_non_admins ["999"] (fun _ => None) addDays_plain
              (fun ms _ => ms) (fun s => s) "100" "200" [] 5 db_referral)
    as (H1 & _ & _ & _ & _ & _); [reflexivity|].
  destruct (admin_commands_refuse_non_admins ["999"] (fun _ => None) addDays_plain
              (fun ms _ => ms) (fun s => s) "100" "100" [] 5 db_referral)
    as (_ & _ & _ & _ & _ & H6); [reflexivity|].
  split; [exact H1 | exact H6].
Defined.

Lemma addadmin_owner_only_and_effective_witness :
  addadmin ["999"] (fun _ => Some 300) 100 "300" "u3" db_fresh
  = (Ok AR_OwnerOnly, db_fresh)
  /\ result (isAdmin ["999"] "300")
       (exec (addadmin ["999"] (fun _ => Some 300) 999 "300" "u3") db_fresh)
     = Ok true.
Proof.
  split.
  - apply (addadmin_owner_only_and_effective ["999"] (fun _ => Some 300) 100 "300"
             "u3" db_fresh). reflexivity.
  - apply (addadmin_owner_only_and_effective ["999"] (fun _ => Some 300) 999 "300"
             "u3" db_fresh) with (n := 300);
      [reflexivity | discriminate | reflexivity | discriminate | reflexivity].
Defined.

Lemma ban_blocks_unban_restores_witness :
  isBannedNow "200" (exec (ban ["999"] "999" "200") db_referral) = true
  /\ exec (unban ["999"] "999" "200") (exec (ban ["999"] "999" "200") db_referral)
     = db_referral.
Proof.
  destruct (ban_blocks_unban_restores ["999"] "999" "200" db_referral bob [])
    as (_ & H2 & _ & _ & _ & H6); [reflexivity | discriminate | reflexivity |].
  split; [exact H2|]. apply H6.
  repeat (constructor; [intros _; reflexivity|]). constructor.
Defined.


Lemma reset_then_can_earn_witness :
  balance "u1" (exec (reset ["999"] "999" "100" 7) db_earned) = 0
  /\ result (canEarnCredits "u1" 8) (exec (reset ["999"] "999" "100" 7) db_earned)
     = Ok (mkCanEarn true None None).
Proof.
  destruct (reset_then_can_earn ["999"] "999" "100" 7 db_earned
              (Users.mk "u1" "100" "Ann" RoleUser Active 2 (Some 0) false None) [])
    as (_ & H2 & _ & H4); [reflexivity | discriminate | reflexivity |].
  split; [exact H2 | apply H4].
Defined.

Lemma addadmin_placeholder_first_contact_witness :
  getOrCreateUser ["999"] "300" "Cy" "u4"
    (exec (addadmin ["999"] (fun _ => Some 300) 999 "300" "u3") db_fresh)
  = (Ok (Users.mk "u3" "300" "Cy" RoleAdmin Active 0 None false None, false),
     with_users
       (fun _ => [ann; Users.mk "u3" "300" "Cy" RoleAdmin Active 0 None false None])
       db_fresh).
Proof.
  destruct (addadmin_placeholder_first_contact ["999"] (fun _ => Some 300) 999 300
              "300" "Cy" "u3" "u4" db_fresh) as [_ H];
    [reflexivity | discriminate | reflexivity | discriminate | reflexivity
    | reflexivity | exact H].
Defined.

Lemma delete_cascade_witness :
  movies (exec (delete ["999"] (fun ms _ => ms) (fun s => s) "999" "Dangal") db_used)
  = []
  /\ result (checkverify ["999"] "100" "Ann" "tokM" 5 "x")
       (exec (delete ["999"] (fun ms _ => ms) (fun s => s) "999" "Dangal") db_used)
     = Ok VR_NotFound.
Proof.
  destruct (delete_cascade ["999"] (fun ms _ => ms) (fun s => s) "999" "Dangal"
              db_used dangal [])
    as (_ & _ & _ & _ & _ & _ & _ & _ & _ & H);
    [reflexivity | discriminate | reflexivity |].
  split; [reflexivity|].
  apply (H "100" "Ann" "tokM" 5 "x" ann []); [reflexivity|].
  intros v [<- | []] _. reflexivity.
Defined.

Lemma getlink_reply_tells_writes_witness :
  movieVerifications
    (snd (getlink [] "100" "Ann" "m1" 5 "x" "tok" (Some "https://gp/abc") db_fresh))
  = [MovieVerifications.mk "u1" "m1" "tok" Pending 5]
  /\ movieAccess
       (snd (getlink [] "100" "Ann" "m1" 5 "x" "tok" (Some "https://gp/abc") db_fresh))
     = [].
Proof.
  destruct (getlink_reply_tells_writes [] "100" "Ann" "m1" "tok" 5 "x"
              (Some "https://gp/abc") db_fresh ann [] [])
    as (H & _); [reflexivity | reflexivity |].
  cbv zeta in H.
  change (fst (getlink [] "100" "Ann" "m1" 5 "x" "tok" (Some "https://gp/abc") db_fresh))
    with (Ok (GL_Verify "tok" "https://gp/abc" false)) in H.
  destruct H as [(m & Hm & Hmv) Hac].
  injection Hm as <-. split; [exact Hmv | exact Hac].
Defined.

Lemma token_of_another_account_witness :
  fst (checkverify [] "100" "Ann" "tokM" 5 "x" db_content_token_of_bob)
  = Ok VR_NotYours
  /\ fst (checkcredit [] "100" "Ann" "tokC" 5 "x" db_credit_token_of_bob)
     = Ok CR_NotYours.
Proof.
  split.
  - destruct (token_of_another_account [] "100" "Ann" 5 "x" db_content_token_of_bob)
      as [HM _].
    destruct (HM ann [] "tokM" (MovieVerifications.mk "u2" "m1" "tokM" Verified 0) [])
      as (H1 & _); [reflexivity | reflexivity | discriminate | exact H1].
  - destruct (token_of_another_account [] "100" "Ann" 5 "x" db_credit_token_of_bob)
      as [_ HC].
    destruct (HC ann [] "tokC" (CreditVerifications.mk "u2" "tokC" Verified 2 0) [])
      as (H1 & _); [reflexivity | reflexivity | discriminate | exact H1].
Defined.

Lemma minted_link_not_claimable_witness :
  result (checkverify [] "100" "Ann" "tok" 6 "y")
    (snd (getlink [] "100" "Ann" "m1" 5 "x" "tok" (Some "https://gp/abc") db_fresh))
  = Ok VR_CompleteFirst.
Proof.
  destruct (minted_link_not_claimable [] "100" "Ann" "m1" "tok" 5 "x"
              (Some "https://gp/abc") db_fresh ann [] [] "tok" "https://gp/abc" false)
    as (_ & _ & H); [reflexivity | reflexivity | reflexivity |].
  destruct (H "Ann" 6 "y") as [H1 _]. exact H1.
Defined.

Lemma credit_token_pays_once_witness :
  (fst (checkcredit [] "100" "Ann" "tokC" 5 "x" db_both_verified) = Ok (CR_Credited 3)
   /\ fst (checkcredit [] "100" "Ann" "tokC" 6 "y"
             (snd (checkcredit [] "100" "Ann" "tokC" 5 "x" db_both_verified)))
      = Ok CR_AlreadyClaimed)
  /\ (fst (checkcredit [] "100" "Ann" "tokC" 5 "x" db_rich) = Throw
      /\ balance "u1" (snd (checkcredit [] "100" "Ann" "tokC" 5 "x" db_rich))
         = INT4_MAX - 1
      /\ creditTransactions (snd (checkcredit [] "100" "Ann" "tokC" 5 "x" db_rich))
         = [CreditTransactions.mk "u1" 2 "shortener_visit"]
      /\ creditTokenStatus "tokC" (snd (checkcredit [] "100" "Ann" "tokC" 5 "x" db_rich))
         = Some Verified).
Proof.
  split.
  - destruct (credit_token_pays_once [] "100" "Ann" "Ann" "tokC" 5 6 "x" "y"
                db_both_verified (CreditVerifications.mk "u1" "tokC" Verified 2 0) [])
      as [H _].
    + exists ann, []. split; reflexivity.
    + reflexivity.
    + reflexivity.
    + vm_compute. discriminate.
    + destruct H as (H1 & _ & _ & _ & H5 & _); [vm_compute; discriminate|].
      split; [exact H1 | exact H5].
  - destruct (credit_token_pays_once [] "100" "Ann" "Ann" "tokC" 5 6 "x" "y"
                db_rich (CreditVerifications.mk "u1" "tokC" Verified 2 0) [])
      as [_ H].
    + exists ann_rich, []. split; reflexivity.
    + reflexivity.
    + reflexivity.
    + vm_compute. discriminate.
    + destruct H as (H1 & H2 & H3 & H4); [reflexivity|].
      split; [exact H1|]. split; [exact H2|].
      split; [exact H3 | exact H4].
Defined.

Lemma late_token_never_pays_witness :
  fst (checkverify [] "100" "Ann" "tokM" (HOUR_MS + 1) "x" db_verified)
  = Ok VR_ExpiredHourLimit
  /\ fst (checkcredit [] "100" "Ann" "tokC" (HOUR_MS + 1) "x" db_credit_verified)
     = Ok CR_ExpiredHourLimit.
Proof.
  split.
  - destruct (late_token_never_pays [] "100" "Ann" (HOUR_MS + 1) "x" db_verified)
      as [HM _].
    destruct (HM "tokM" (MovieVerifications.mk "u1" "m1" "tokM" Verified 0) [])
      as (H1 & _); [exists ann, []; split; reflexivity | reflexivity | reflexivity
                   | exact H1].
  - destruct (late_token_never_pays [] "100" "Ann" (HOUR_MS + 1) "x"
                db_credit_verified) as [_ HC].
    destruct (HC "tokC" (CreditVerifications.mk "u1" "tokC" Verified 2 0) [])
      as (H1 & _); [exists ann, []; split; reflexivity | reflexivity | reflexivity
                   | exact H1].
Defined.

Lemma earn_then_wait_witness :
  (result (earnCredits "u1" 5) db_fresh = Ok 3
   /\ exists h m,
        canEarnCredits "u1" 10 (exec (earnCredits "u1" 5) db_fresh)
        = (Ok (mkCanEarn false (Some h) (Some m)), exec (earnCredits "u1" 5) db_fresh))
  /\ (result (earnCredits "u1" 5) db_rich = Throw
      /\ users (exec (earnCredits "u1" 5) db_rich) = [ann_rich]).
Proof.
  split.
  - destruct (earn_then_wait "u1" 5 db_fresh ann []) as [H _];
      [reflexivity | discriminate |].
    destruct H as [H1 H2]; [vm_compute; discriminate|].
    split; [exact H1|]. apply H2. reflexivity.
  - destruct (earn_then_wait "u1" 5 db_rich ann_rich []) as [_ H];
      [reflexivity | discriminate |].
    destruct H as (H1 & H2 & _); [reflexivity|].
    split; [exact H1 | exact H2].
Defined.

Lemma start_of_existing_account_refers_nobody_witness :
  referrals (snd (start [] "200" "Bob" "ref_100" "x" true false db_referral)) = []
  /\ map Users.credits
       (users (snd (start [] "200" "Bob" "ref_100" "x" true false db_referral)))
     = [1; 0].
Proof.
  destruct (start_of_existing_account_refers_nobody [] "200" "Bob" "ref_100" "x"
              true false db_referral bob [])
    as (_ & H2 & H3 & _); [reflexivity|].
  split; [exact H2 | exact H3].
Defined.

Lemma referral_needs_another_known_account_witness :
  fst (start [] "300" "Cy" "ref_300" "u3" true false db_fresh)
  = Ok (ST_Welcome 0 false)
  /\ referrals (snd (start [] "300" "Cy" "ref_900" "u3" true false db_fresh)) = [].
Proof.
  destruct (referral_needs_another_known_account [] "300" "Cy" "300" "u3" false db_fresh)
    as (H1 & _); [reflexivity | reflexivity | left; reflexivity |].
  destruct (referral_needs_another_known_account [] "300" "Cy" "900" "u3" false db_fresh)
    as (_ & H2 & _); [reflexivity | reflexivity | right; reflexivity |].
  split; [exact H1 | exact H2].
Defined.


Lemma earn_reply_tells_writes_witness :
  creditVerifications
    (snd (earnCreditsHandler [] "100" "Ann" 5 "x" "tok" (Some "https://gp/abc") db_fresh))
  = [CreditVerifications.mk "u1" "tok" Pending 2 5]
  /\ creditVerifications
       (snd (earncredits_callback [] "100" "Ann" 5 "x" "tok" None db_premium))
     = [].
Proof.
  destruct (earn_reply_tells_writes [] "100" "Ann" "tok" 5 "x" (Some "https://gp/abc")
              db_fresh ann [] []) as (H & _); [reflexivity | reflexivity |].
  destruct (earn_reply_tells_writes [] "100" "Ann" "tok" 5 "x" None
              db_premium ann_premium [] []) as (_ & _ & H3 & _);
    [reflexivity | reflexivity |].
  split; [exact H | exact H3].
Defined.

Lemma myswitch_flips_witness :
  exists settings',
    fst (myswitch ["999"] "999" [] db_fresh) = Ok (Some false, settings')
    /\ getBotStatus settings' = false.
Proof.
  destruct (myswitch_flips ["999"] "999" [] db_fresh) as (_ & _ & H).
  destruct (H eq_refl) as (s & H1 & H2 & _).
  exists s. split; [exact H1 | exact H2].
Defined.

Lemma addtokens_activates_only_new_witness :
  exists tokens',
    fst (addtokens ["999"] "999" "new"
           [ShortenerTokens.mk "old" true; ShortenerTokens.mk "older" false] db_fresh)
    = Ok (AR_Done "new", tokens')
    /\ activeToken tokens' = Some "new".
Proof.
  destruct (addtokens_activates_only_new ["999"] "999" "new"
              [ShortenerTokens.mk "old" true; ShortenerTokens.mk "older" false] db_fresh)
    as (_ & _ & _ & H).
  destruct (H eq_refl) as (t & H1 & _ & _ & H4); [discriminate|].
  exists t. split; [exact H1 | exact H4].
Defined.
